(** * CMORPH downloader: the download / verify / report pipeline

    A shallow embedding of [cmorph_downloader_v3.py].  The script talks to
    two outside parties, the local file system and the NOAA web server; both
    are explicit here.  The file system is a finite map from paths to file
    contents, the server is an oracle that answers the n-th request of a run,
    and every function of the script threads a [world] through its calls in
    the order the Python statements execute.

    Embedded: [get_remote_file_size], [check_file_integrity],
    [download_file], [download_day], [check_data_completeness],
    [save_failed_downloads], [retry_failed_downloads] and [main].

    Not modelled: log lines, the progress bar, and directories.  Paths are
    keys of a flat map, and the two [os.makedirs(_, exist_ok=True)] calls
    (first statement of [download_file] and of [download_day], outside any
    [try]) are taken to succeed; a run in which one of them raises, as it
    does for a local path without a directory part, ends there and is not
    described.  Every request is answered or raises: the script sets no
    timeout, and a request that never comes back is not described either.
    Sleeps are recorded in the trace with their band only.  Strings are
    Latin-1, as header values are, and paths are joined the POSIX way. *)

From Stdlib Require Import ZArith Ascii String DecimalString.
From stdpp Require Import base gmap strings list sorting.

Local Open Scope string_scope.
Local Open Scope Z_scope.
Local Open Scope list_scope.

(** ** Python primitives used by the script *)

Module Py.

(** [format(n, "0<width>d")]: sign, then the decimal digits of [|n|] padded
    with zeros on the left until sign and digits fill [width] columns.  Wider
    numbers are never cut. *)
Definition digits (n : Z) : string :=
  NilZero.string_of_uint (N.to_uint (Z.to_N (Z.abs n))).

Fixpoint zeros (k : nat) : string :=
  match k with
  | O => EmptyString
  | S k' => String "0" (zeros k')
  end.

Definition format_0d (width : nat) (n : Z) : string :=
  let sign := if n <? 0 then "-" else EmptyString in
  let ds := digits n in
  sign +:+ zeros (width - String.length sign - String.length ds) +:+ ds.

(** [int(s)] for a [str] of Latin-1 characters, which is what a header value
    is, as CPython 3.11 reads it.  White space around the literal is dropped:
    tab, line feed, vertical tab, form feed, carriage return and space, and
    the Latin-1 next-line (133) and no-break space (160); the separators 28
    to 31 are not white space to [int].  One sign is allowed, and digits may
    be grouped by single underscores.  A literal of more than
    [MAX_STR_DIGITS] digits is refused ([sys.int_max_str_digits], 4300 unless
    the interpreter is told otherwise).  [None] stands for [ValueError]. *)
Definition is_space (c : ascii) : bool :=
  let n := nat_of_ascii c in
  ((9 <=? n) && (n <=? 13) || (n =? 32) || (n =? 133) || (n =? 160))%nat.

Definition digit_val (c : ascii) : option Z :=
  let n := nat_of_ascii c in
  if ((48 <=? n) && (n <=? 57))%nat then Some (Z.of_nat (n - 48)) else None.

Fixpoint lstrip (s : string) : string :=
  match s with
  | String c s' => if is_space c then lstrip s' else s
  | EmptyString => s
  end.

Fixpoint rstrip (s : string) : string :=
  match s with
  | String c s' =>
      match rstrip s' with
      | EmptyString => if is_space c then EmptyString else String c EmptyString
      | t => String c t
      end
  | EmptyString => s
  end.

(** [after_digit] tells whether the previous character was a digit, the only
    place where an underscore or the end of the literal may come. *)
Fixpoint int_digits (s : string) (acc : Z) (after_digit : bool) : option Z :=
  match s with
  | EmptyString => if after_digit then Some acc else None
  | String c s' =>
      match digit_val c with
      | Some d => int_digits s' (10 * acc + d) true
      | None =>
          if (Ascii.eqb c "_" && after_digit)%bool
          then int_digits s' acc false
          else None
      end
  end.

Definition MAX_STR_DIGITS : Z := 4300.

(** Leading zeros count, underscores do not. *)
Fixpoint digit_count (s : string) : Z :=
  match s with
  | EmptyString => 0
  | String c s' =>
      match digit_val c with
      | Some _ => 1 + digit_count s'
      | None => digit_count s'
      end
  end.

Definition int_literal (t : string) : option Z :=
  if digit_count t <=? MAX_STR_DIGITS then int_digits t 0 false else None.

Definition int (s : string) : option Z :=
  match lstrip (rstrip s) with
  | String "-" t => Z.opp <$> int_literal t
  | String "+" t => int_literal t
  | t => int_literal t
  end.

(** [os.path.join] on a POSIX system, for relative components. *)
Definition path_join (a b : string) : string := a +:+ "/" +:+ b.

(** What a call hands back: a boolean, or [None] when the body falls off its
    end without a [return]. *)
Inductive retval :=
  | Ret (b : bool)
  | RetNone.

Definition truthy (r : retval) : bool :=
  match r with
  | Ret b => b
  | RetNone => false
  end.

End Py.

(** ** The outside world *)

Inductive method := HEAD | GET.

(** A [requests.Response], as far as the script looks at it.  [body] is what
    [iter_content] yields, chunk by chunk; [body_fault] says that the stream
    breaks with an exception once those chunks are delivered. *)
Record response := {
  status_code : Z;
  content_length : option string;
  body : list (list Byte.byte);
  body_fault : bool
}.

(** The environment of one run.  [request n m url] is the answer to the
    [n]-th request of the run ([None]: [requests] raises, e.g. on a timeout
    or a refused connection).  [remove_denied] and [open_denied] are the
    paths on which [os.remove] and [open(_, 'wb')] raise. *)
Record env := {
  request : nat -> method -> string -> option response;
  remove_denied : string -> bool;
  open_denied : string -> bool
}.

Inductive event :=
  | EvRequest (m : method) (url : string)
  | EvOpen (path : string)
  | EvRemove (path : string)
  | EvSleep (lo hi : Z).

(** The state a run changes: the files on disk, the number of requests sent
    so far, and what has been done, newest event first. *)
Record world := {
  files : gmap string (list Byte.byte);
  clock : nat;
  trace : list event
}.

Definition emit (e : event) (w : world) : world :=
  {| files := files w; clock := clock w; trace := e :: trace w |}.

Definition set_files (f : gmap string (list Byte.byte)) (w : world) : world :=
  {| files := f; clock := clock w; trace := trace w |}.

Definition os_path_exists (path : string) (w : world) : bool :=
  bool_decide (is_Some (files w !! path)).

(** [requests.head] / [requests.get]: one request, one tick.  The request
    comes back with an answer or with an exception; one that hangs for ever
    has no counterpart here. *)
Definition send (E : env) (m : method) (url : string) (w : world)
  : option response * world :=
  (request E (clock w) m url,
   {| files := files w; clock := S (clock w);
      trace := EvRequest m url :: trace w |}).

(** [os.remove]: [None] when it raises (no such file, or not permitted). *)
Definition os_remove (E : env) (path : string) (w : world)
  : option unit * world :=
  let w' := emit (EvRemove path) w in
  if os_path_exists path w && negb (remove_denied E path)
  then (Some tt, set_files (delete path (files w)) w')
  else (None, w').

(** [response.raise_for_status()] raises on 4xx and 5xx. *)
Definition raises_for_status (r : response) : bool :=
  (400 <=? status_code r) && (status_code r <? 600).

Definition write_chunk (path : string) (w : world) (chunk : list Byte.byte)
  : world :=
  match chunk with
  | [] => w
  | _ => set_files (alter (fun c => (c ++ chunk)%list) path (files w)) w
  end.

(** [with open(local_path, 'wb') as f: for chunk in ...: if chunk: f.write].
    Opening truncates; a fault in the stream leaves what was written. *)
Definition save_body (E : env) (path : string) (r : response) (w : world)
  : option unit * world :=
  let w' := emit (EvOpen path) w in
  if open_denied E path then (None, w')
  else
    let w1 := set_files (<[path := []]> (files w)) w' in
    let w2 := foldl (write_chunk path) w1 (body r) in
    (if body_fault r then None else Some tt, w2).

Definition time_sleep (lo hi : Z) (w : world) : world := emit (EvSleep lo hi) w.

(** ** Integrity Checker *)

Definition get_remote_file_size (E : env) (url : string) (w : world)
  : Z * world :=
  let '(r, w') := send E HEAD url w in
  match r with
  | Some resp =>
      if status_code resp =? 200 then
        match content_length resp with
        | Some s =>
            match Py.int s with
            | Some n => (n, w')
            | None => (-1, w')
            end
        | None => (0, w')
        end
      else if status_code resp =? 404 then (-1, w')
      else (-1, w')
  | None => (-1, w')
  end.

(** [os.path.exists] and [os.path.getsize] read the same entry of the file
    map; nothing runs between them that changes it. *)
Definition check_file_integrity (E : env) (url local_path : string) (w : world)
  : bool * world :=
  match files w !! local_path with
  | None => (false, w)
  | Some content =>
      let '(remote_size, w') := get_remote_file_size E url w in
      if remote_size =? -1 then (true, w')
      else
        let local_size := Z.of_nat (length content) in
        if negb (remote_size =? local_size) then (false, w')
        else (true, w')
  end.

(** ** Single-File Fetcher *)

(** The [while retries < max_retries] loop.  Every turn that does not return
    adds one to [retries], so [max_retries - retries] turns are enough;
    [fuel] bounds them and [None] means the bound was too small. *)
Fixpoint download_loop (fuel : nat) (E : env) (url local_path : string)
    (max_retries : Z) (check_size : bool) (retries : Z) (w : world)
  : option (Py.retval * world) :=
  if negb (retries <? max_retries) then Some (Py.RetNone, w)
  else
    match fuel with
    | O => None
    | S fuel' =>
        let except (w0 : world) :=
          let retries := retries + 1 in
          if retries <? max_retries
          then download_loop fuel' E url local_path max_retries check_size
                 retries (time_sleep 5 10 w0)
          else Some (Py.Ret false, w0) in
        let '(r, w1) := send E GET url w in
        match r with
        | None => except w1
        | Some resp =>
            if status_code resp =? 404 then Some (Py.Ret false, w1)
            else if raises_for_status resp then except w1
            else
              let '(saved, w2) := save_body E local_path resp w1 in
              match saved with
              | None => except w2
              | Some _ =>
                  let '(valid, w3) :=
                    if check_size
                    then check_file_integrity E url local_path w2
                    else (true, w2) in
                  if negb valid then
                    if retries <? max_retries - 1
                    then download_loop fuel' E url local_path max_retries
                           check_size (retries + 1) w3
                    else Some (Py.Ret false, w3)
                  else Some (Py.Ret true, time_sleep 3 8 w3)
              end
        end
    end.

(** [download_file], from the test [os.path.exists(local_path)] on.  The
    statement before it, [os.makedirs(os.path.dirname(local_path),
    exist_ok=True)], is taken to succeed and leaves no mark on the file map;
    were it to raise, the call would end there without a request, a write or
    a removal. *)
Definition download_file (E : env) (url local_path : string)
    (max_retries : Z) (check_size : bool) (w : world)
  : option (Py.retval * world) :=
  let loop := download_loop (Z.to_nat max_retries) E url local_path
                max_retries check_size 0 in
  if os_path_exists local_path w then
    if check_size then
      let '(valid, w1) := check_file_integrity E url local_path w in
      if valid then Some (Py.Ret true, w1)
      else
        match os_remove E local_path w1 with
        | (Some _, w2) => loop w2
        | (None, w2) => Some (Py.Ret false, w2)
        end
    else Some (Py.Ret true, w)
  else loop w.

(** ** Slots: the naming template *)

Definition BASE_URL : string :=
  "https://www.ncei.noaa.gov/data/cmorph-high-resolution-global-precipitation-estimates/access/30min/8km".

Definition OUTPUT_DIR : string := "CMORPH_Data".

Definition FAILED_DOWNLOADS_FILE : string := "failed_downloads.json".

Definition range (n : nat) : list Z := Z.of_nat <$> seq 0 n.

Definition date_str (year month day : Z) : string :=
  Py.format_0d 4 year +:+ Py.format_0d 2 month +:+ Py.format_0d 2 day.

Definition year_month_dir (year month : Z) : string :=
  Py.path_join (Py.path_join OUTPUT_DIR (Py.format_0d 4 year))
    (Py.format_0d 2 month).

Definition day_url (year month day : Z) : string :=
  BASE_URL +:+ "/" +:+ Py.format_0d 4 year +:+ "/" +:+ Py.format_0d 2 month
  +:+ "/" +:+ Py.format_0d 2 day +:+ "/".

Definition file_name (year month day hour : Z) : string :=
  "CMORPH_V1.0_ADJ_8km-30min_" +:+ date_str year month day
  +:+ Py.format_0d 2 hour +:+ ".nc".

Definition file_url (year month day hour : Z) : string :=
  day_url year month day +:+ file_name year month day hour.

Definition local_file_path (year month day hour : Z) : string :=
  Py.path_join (year_month_dir year month) (file_name year month day hour).

Definition iso_date (year month day : Z) : string :=
  Py.format_0d 4 year +:+ "-" +:+ Py.format_0d 2 month +:+ "-"
  +:+ Py.format_0d 2 day.

(** One entry of [day_files]: [(hour, file_url, local_file_path)]. *)
Definition slot : Type := Z * string * string.

Definition build_day_files (year month day : Z) : list slot :=
  (fun hour => (hour, file_url year month day hour,
                local_file_path year month day hour)) <$> range 24.

(** ** Day Planner *)

Record failure := {
  f_date : string;
  f_hour : Z;
  f_url : string;
  f_local_path : string
}.

(** [sorted(l, key=lambda x: x[0], reverse=True)]: stable insertion, larger
    hour first, equal hours in their original order. *)
Fixpoint insert_desc (x : slot) (l : list slot) : list slot :=
  match l with
  | [] => [x]
  | y :: l' =>
      if y.1.1 <? x.1.1 then x :: l else y :: insert_desc x l'
  end.

Definition sorted_desc (l : list slot) : list slot :=
  foldl (fun acc x => insert_desc x acc) [] l.

Definition existing_files (day_files : list slot) (w : world) : list slot :=
  List.filter (fun f => os_path_exists f.2 w) day_files.

(** Body of [for hour, file_url, local_file_path in latest_files].  A failed
    [os.remove] is caught and only logged; the assignment to
    [day_files[hour]] is kept as written. *)
Definition recheck (E : env) (st : list slot * world) (f : slot)
  : list slot * world :=
  let '(day_files, w) := st in
  let '(hour, file_url, local_file_path) := f in
  let '(valid, w1) := check_file_integrity E file_url local_file_path w in
  if negb valid then
    let w2 := (os_remove E local_file_path w1).2 in
    (<[Z.to_nat hour := (hour, file_url, local_file_path)]> day_files, w2)
  else (day_files, w1).

Definition check_latest_files (E : env) (day_files : list slot) (w : world)
  : list slot * world :=
  let existing := existing_files day_files w in
  if (2 <=? length existing)%nat then
    let latest_files := take 2 (sorted_desc existing) in
    foldl (recheck E) (day_files, w) latest_files
  else (day_files, w).

(** The final [for] of [download_day]; [None] is passed on from
    [download_file] and never arises (see [download_file_returns]). *)
Fixpoint fetch_files (E : env) (date : string) (day_files : list slot)
    (success_count : Z) (failed_files : list failure) (w : world)
  : option (Z * list failure * world) :=
  match day_files with
  | [] => Some (success_count, failed_files, w)
  | (hour, file_url, local_file_path) :: rest =>
      match download_file E file_url local_file_path 3 true w with
      | None => None
      | Some (r, w') =>
          if Py.truthy r
          then fetch_files E date rest (success_count + 1) failed_files w'
          else fetch_files E date rest success_count
                 (failed_files ++
                  [{| f_date := date; f_hour := hour; f_url := file_url;
                      f_local_path := local_file_path |}])%list w'
      end
  end.

(** [download_day], after [os.makedirs(year_month_dir, exist_ok=True)],
    which is taken to succeed as in [download_file]. *)
Definition download_day (E : env) (year month day : Z) (check_latest : bool)
    (w : world) : option (Z * list failure * world) :=
  let day_files := build_day_files year month day in
  let '(day_files, w1) :=
    if check_latest then check_latest_files E day_files w
    else (day_files, w) in
  fetch_files E (iso_date year month day) day_files 0 [] w1.

(** ** Calendar

    A [datetime] at midnight is identified with its proleptic Gregorian
    ordinal ([toordinal()]: 1 is 0001-01-01); the fields are read off the way
    the [datetime] module does, and adding a day past [datetime.max] is
    [OverflowError]. *)

Module Date.

Definition MAXORDINAL : Z := 3652059.

Definition is_leap (year : Z) : bool :=
  (year mod 4 =? 0) && (negb (year mod 100 =? 0) || (year mod 400 =? 0)).

Definition days_in_month (leap : bool) (month : Z) : Z :=
  if month =? 2 then (if leap then 29 else 28)
  else if (month =? 4) || (month =? 6) || (month =? 9) || (month =? 11)
       then 30 else 31.

Definition days_before_month (leap : bool) (month : Z) : Z :=
  foldr Z.add 0 (days_in_month leap <$> (Z.succ <$> range (Z.to_nat (month - 1)))).

Definition days_before_year (year : Z) : Z :=
  let y := year - 1 in
  y * 365 + y / 4 - y / 100 + y / 400.

Definition ymd2ord (year month day : Z) : Z :=
  days_before_year year + days_before_month (is_leap year) month + day.

Definition ord2ymd (ordinal : Z) : Z * Z * Z :=
  let n := ordinal - 1 in
  let n400 := n / 146097 in
  let n := n mod 146097 in
  let year := n400 * 400 + 1 in
  let n100 := n / 36524 in
  let n := n mod 36524 in
  let n4 := n / 1461 in
  let n := n mod 1461 in
  let n1 := n / 365 in
  let n := n mod 365 in
  let year := year + n100 * 100 + n4 * 4 + n1 in
  if (n1 =? 4) || (n100 =? 4) then (year - 1, 12, 31)
  else
    let leapyear := (n1 =? 3) && (negb (n4 =? 24) || (n100 =? 3)) in
    let month := Z.shiftr (n + 50) 5 in
    let preceding :=
      days_before_month false month
      + (if (2 <? month) && leapyear then 1 else 0) in
    if n <? preceding then
      let month := month - 1 in
      let preceding := preceding - days_in_month leapyear month in
      (year, month, n - preceding + 1)
    else (year, month, n - preceding + 1).

Definition year (d : Z) : Z := (ord2ymd d).1.1.
Definition month (d : Z) : Z := (ord2ymd d).1.2.
Definition day (d : Z) : Z := (ord2ymd d).2.

(** [d + timedelta(days=1)] *)
Definition add_day (d : Z) : option Z :=
  if d <? MAXORDINAL then Some (d + 1) else None.

End Date.

(** ** Completeness Scanner *)

Record missing_hour := {
  mh_hour : Z;
  mh_url : string;
  mh_local_path : string;
  mh_reason : string
}.

Record day_report := {
  dr_date : string;
  dr_missing_hours : list missing_hour
}.

(** Body of [for hour in range(24)]. *)
Definition scan_hour (E : env) (verify_size : bool) (year month day : Z)
    (st : list missing_hour * world) (hour : Z) : list missing_hour * world :=
  let '(missing_hours, w) := st in
  let path := local_file_path year month day hour in
  let url := file_url year month day hour in
  let file_exists := os_path_exists path w in
  let '(file_valid, w1) :=
    if file_exists && verify_size then check_file_integrity E url path w
    else (true, w) in
  if negb file_exists || negb file_valid then
    (missing_hours ++
     [{| mh_hour := hour; mh_url := url; mh_local_path := path;
         mh_reason := if negb file_exists then "missing" else "invalid_size" |}],
     w1)%list
  else (missing_hours, w1).

(** How a call that may raise ends. *)
Inductive outcome (A : Type) :=
  | Returns (a : A)
  | Raises.
Arguments Returns {A} a.
Arguments Raises {A}.

(** The [while current_date <= end_date] loop; [fuel] bounds its turns. *)
Fixpoint scan_days (fuel : nat) (E : env) (verify_size : bool)
    (end_date current_date : Z) (missing_data : list day_report) (w : world)
  : option (outcome (list day_report) * world) :=
  if negb (current_date <=? end_date) then Some (Returns missing_data, w)
  else
    match fuel with
    | O => None
    | S fuel' =>
        let year := Date.year current_date in
        let month := Date.month current_date in
        let day := Date.day current_date in
        let '(missing_hours, w1) :=
          foldl (scan_hour E verify_size year month day) ([], w) (range 24) in
        let missing_data :=
          match missing_hours with
          | [] => missing_data
          | _ => (missing_data ++
                  [{| dr_date := iso_date year month day;
                      dr_missing_hours := missing_hours |}])%list
          end in
        match Date.add_day current_date with
        | None => Some (Raises, w1)
        | Some next => scan_days fuel' E verify_size end_date next missing_data w1
        end
    end.

Definition check_data_completeness (E : env) (start_date end_date : Z)
    (verify_size : bool) (w : world)
  : option (outcome (list day_report) * world) :=
  scan_days (Z.to_nat (end_date - start_date + 1)) E verify_size end_date
    start_date [] w.

(** ** Failure Reporter *)

Module Json.

Definition hex_digit (n : nat) : ascii :=
  ascii_of_nat (if (n <? 10)%nat then 48 + n else 87 + n).

Definition dq : string := String (ascii_of_nat 34) EmptyString.

(** [json.dumps] of a string with [ensure_ascii]; the strings are ASCII. *)
Definition escape_char (c : ascii) : string :=
  let n := nat_of_ascii c in
  if (n =? 34)%nat then "\" +:+ dq
  else if (n =? 92)%nat then "\\"
  else if (n =? 10)%nat then "\n"
  else if (n =? 13)%nat then "\r"
  else if (n =? 9)%nat then "\t"
  else if (n =? 8)%nat then "\b"
  else if (n =? 12)%nat then "\f"
  else if ((n <? 32) || (126 <? n))%nat
       then "\u00" +:+ String (hex_digit (n / 16)) (String (hex_digit (n mod 16)) EmptyString)
  else String c EmptyString.

Fixpoint escape (s : string) : string :=
  match s with
  | EmptyString => EmptyString
  | String c s' => escape_char c +:+ escape s'
  end.

Definition str (s : string) : string := dq +:+ escape s +:+ dq.

Definition num (n : Z) : string :=
  (if n <? 0 then "-" else EmptyString) +:+ Py.digits n.

Definition nl : string := String (ascii_of_nat 10) EmptyString.

(** A key of a record at nesting depth two, with the [": "] separator. *)
Definition key (k : string) : string := "        " +:+ dq +:+ k +:+ dq +:+ ": ".

Definition record (f : failure) : string :=
  "    {" +:+ nl
  +:+ key "date" +:+ str (f_date f) +:+ "," +:+ nl
  +:+ key "hour" +:+ num (f_hour f) +:+ "," +:+ nl
  +:+ key "url" +:+ str (f_url f) +:+ "," +:+ nl
  +:+ key "local_path" +:+ str (f_local_path f) +:+ nl
  +:+ "    }".

Fixpoint records (l : list failure) : string :=
  match l with
  | [] => EmptyString
  | [f] => record f
  | f :: l' => record f +:+ "," +:+ nl +:+ records l'
  end.

(** [json.dumps(failed_files, indent=4)] *)
Definition dumps (l : list failure) : string :=
  match l with
  | [] => "[]"
  | _ => "[" +:+ nl +:+ records l +:+ nl +:+ "]"
  end.

End Json.

(** [with open(path, 'w') as f: json.dump(failed_files, f, indent=4)] *)
Definition write_text (E : env) (path text : string) (w : world)
  : option unit * world :=
  let w' := emit (EvOpen path) w in
  if open_denied E path then (None, w')
  else (Some tt, set_files (<[path := list_byte_of_string text]> (files w)) w').

(** Nothing here is inside a [try]: what [open] or [os.remove] raise leaves
    the function. *)
Definition save_failed_downloads (E : env) (failed_files : list failure)
    (w : world) : outcome unit * world :=
  match failed_files with
  | _ :: _ =>
      match write_text E FAILED_DOWNLOADS_FILE (Json.dumps failed_files) w with
      | (Some _, w') => (Returns tt, w')
      | (None, w') => (Raises, w')
      end
  | [] =>
      if os_path_exists FAILED_DOWNLOADS_FILE w then
        match os_remove E FAILED_DOWNLOADS_FILE w with
        | (Some _, w') => (Returns tt, w')
        | (None, w') => (Raises, w')
        end
      else (Returns tt, w)
  end.

(** ** Reading a trace *)

Definition is_transfer (e : event) : bool :=
  match e with
  | EvRequest GET _ => true
  | _ => false
  end.

(** Number of transfer attempts ([requests.get]) made so far. *)
Definition transfers (w : world) : nat :=
  length (List.filter is_transfer (trace w)).

(** An answer to a transfer request that costs one retry: the request
    raises, or comes back 4xx/5xx other than 404, or its body breaks off
    with an exception. *)
Definition transient_failure (a : option response) : bool :=
  match a with
  | None => true
  | Some resp =>
      negb (status_code resp =? 404)
      && (raises_for_status resp || body_fault resp)
  end.

(** [os.path.getsize], where the file exists. *)
Definition local_size (path : string) (w : world) : option Z :=
  (fun content => Z.of_nat (length content)) <$> files w !! path.

(** The length the metadata answer carries, as the script reads it:
    [int(response.headers.get('content-length', 0))]. *)
Definition reported_length (resp : response) : option Z :=
  match content_length resp with
  | Some s => Py.int s
  | None => Some 0
  end.

(** The server holds [n] bytes at [url]: every metadata answer that comes
    back 200 reports that length. *)
Definition remote_length (E : env) (url : string) (n : Z) : Prop :=
  forall t resp,
    request E t HEAD url = Some resp -> status_code resp = 200 ->
    reported_length resp = Some n.

(** C1's last clause as the specification words it: when the metadata
    request succeeds, the verdict is [True] exactly when the length it
    reports is the length of the local file. *)
Definition verdict_compares_lengths : Prop :=
  forall E url path w content resp n,
    files w !! path = Some content ->
    request E (clock w) HEAD url = Some resp ->
    status_code resp = 200 -> reported_length resp = Some n ->
    (check_file_integrity E url path w).1 = (n =? Z.of_nat (length content)).

(** C2 as the specification words it: a verified call that reports success
    leaves a local file as long as the remote one. *)
Definition success_means_same_length : Prop :=
  forall E url path max_retries w w' n,
    remote_length E url n ->
    download_file E url path max_retries true w = Some (Py.Ret true, w') ->
    local_size path w' = Some n.

(** What a [True] from the verified call rests on: the integrity check it
    made last, on the file as the call leaves it, passed, because the
    lengths agree or because the metadata request failed. *)
Definition last_check_passed (E : env) (url path : string) (w' : world)
  : Prop :=
  exists w0 content,
    files w0 = files w' /\ S (clock w0) = clock w' /\
    files w' !! path = Some content /\
    (check_file_integrity E url path w0).1 = true /\
    ((get_remote_file_size E url w0).1 = -1 \/
     (get_remote_file_size E url w0).1 = Z.of_nat (length content)).

(** ** Fields of a slot name *)

Fixpoint all_digits (s : string) : bool :=
  match s with
  | EmptyString => true
  | String c s' => bool_decide (is_Some (Py.digit_val c)) && all_digits s'
  end.

(** [s] is the number [n] written with exactly [width] decimal digits. *)
Definition is_field (width : nat) (n : Z) (s : string) : bool :=
  (String.length s =? width)%nat && all_digits s
  && bool_decide (Py.int s = Some n).

(** ** Orders on slots and servers *)

Definition earlier (f g : slot) : Prop := f.1.1 < g.1.1.

(** A server whose answers do not depend on when it is asked. *)
Definition stable (E : env) : Prop :=
  forall t t' m url, request E t m url = request E t' m url.

(** C4 as the specification words it, on a stable server and a disk that
    allows removal: of the existing files of the day, each of the (up to) two
    with the highest hour that fails the integrity check is gone when the
    re-check of the latest files is over. *)
Definition latest_always_rechecked : Prop :=
  forall E year month day w f,
    stable E -> (forall p, remove_denied E p = false) ->
    f ∈ take 2 (sorted_desc (existing_files (build_day_files year month day) w)) ->
    (check_file_integrity E f.1.2 f.2 w).1 = false ->
    files (check_latest_files E (build_day_files year month day) w).2 !! f.2
    = None.

(** ** The slots of a date range *)

(** The days from [start_date] to [end_date], both included. *)
Definition days (start_date end_date : Z) : list Z :=
  (fun i => start_date + Z.of_nat i)
  <$> seq 0 (Z.to_nat (end_date - start_date + 1)).

Definition slot_of (date hour : Z) : slot :=
  (hour,
   file_url (Date.year date) (Date.month date) (Date.day date) hour,
   local_file_path (Date.year date) (Date.month date) (Date.day date) hour).

Definition day_slots (date : Z) : list slot := slot_of date <$> range 24.

Definition range_slots (start_date end_date : Z) : list slot :=
  days start_date end_date ≫= day_slots.

(** The slot's file is absent. *)
Definition is_missing (w : world) (f : slot) : bool :=
  negb (os_path_exists f.2 w).

(** The slot's file is present and fails the integrity check. *)
Definition is_invalid (E : env) (w : world) (f : slot) : bool :=
  os_path_exists f.2 w && negb (check_file_integrity E f.1.2 f.2 w).1.

Definition entry (f : slot) (reason : string) : missing_hour :=
  {| mh_hour := f.1.1; mh_url := f.1.2; mh_local_path := f.2;
     mh_reason := reason |}.

(** What the scan is to report for a slot, if anything. *)
Definition expected_entry (E : env) (w : world) (f : slot)
  : option missing_hour :=
  if is_missing w f then Some (entry f "missing")
  else if is_invalid E w f then Some (entry f "invalid_size")
  else None.

Definition tagged (reason : string) (entries : list missing_hour) : nat :=
  length (List.filter (fun e => String.eqb (mh_reason e) reason) entries).

Definition is_metadata (e : event) : bool :=
  match e with
  | EvRequest HEAD _ => true
  | _ => false
  end.

(** From [w] to [w'] nothing happened but metadata requests: the files are
    the same and every new event is a [HEAD]. *)
Definition only_metadata (w w' : world) : Prop :=
  files w' = files w /\
  exists new, trace w' = new ++ trace w /\ forallb is_metadata new = true.

(** ** Retry pass and the whole run *)

(** The [for file_info in failed_files] loop of [retry_failed_downloads];
    [None] is passed on from [download_file] and never arises. *)
Fixpoint retry_files (E : env) (failed_files still_failed : list failure)
    (w : world) : option (list failure * world) :=
  match failed_files with
  | [] => Some (still_failed, w)
  | file_info :: rest =>
      match download_file E (f_url file_info) (f_local_path file_info) 3 true w
      with
      | None => None
      | Some (r, w') =>
          if Py.truthy r then retry_files E rest still_failed w'
          else retry_files E rest (still_failed ++ [file_info]) w'
      end
  end.

Definition retry_failed_downloads (E : env) (failed_files : list failure)
    (w : world) : option (list failure * world) :=
  match failed_files with
  | [] => Some ([], w)
  | _ => retry_files E failed_files [] w
  end.

(** The [while current_date <= end_date] loop of [main]; [fuel] bounds its
    turns. *)
Fixpoint download_days (fuel : nat) (E : env) (end_date current_date : Z)
    (successful_downloads : Z) (all_failed_files : list failure) (w : world)
  : option (outcome (Z * list failure) * world) :=
  if negb (current_date <=? end_date)
  then Some (Returns (successful_downloads, all_failed_files), w)
  else
    match fuel with
    | O => None
    | S fuel' =>
        match download_day E (Date.year current_date)
                (Date.month current_date) (Date.day current_date) true w
        with
        | None => None
        | Some (success_count, failed_files, w1) =>
            match Date.add_day current_date with
            | None => Some (Raises, w1)
            | Some next =>
                download_days fuel' E end_date next
                  (successful_downloads + success_count)
                  (all_failed_files ++ failed_files) w1
            end
        end
    end.

(** Body of [for hour_info in day["missing_hours"]] in [main]: an invalid
    file that is still there is removed (a failure is only logged), and the
    entry is queued for the retry pass. *)
Definition queue_retry (E : env) (date : string) (st : list failure * world)
    (hour_info : missing_hour) : list failure * world :=
  let '(files_to_retry, w) := st in
  let w1 :=
    if String.eqb (mh_reason hour_info) "invalid_size"
       && os_path_exists (mh_local_path hour_info) w
    then (os_remove E (mh_local_path hour_info) w).2
    else w in
  (files_to_retry ++
   [{| f_date := date; f_hour := mh_hour hour_info;
       f_url := mh_url hour_info;
       f_local_path := mh_local_path hour_info |}], w1).

Definition queue_retries (E : env) (missing_data : list day_report)
    (w : world) : list failure * world :=
  foldl (fun st day => foldl (queue_retry E (dr_date day)) st
                         (dr_missing_hours day))
    ([], w) missing_data.

Definition MISSING_FILES_FILE : string := "missing_files.json".

(** [main] for a given range of days.  What [save_failed_downloads], the
    date arithmetic or the last [open] raise ends the run. *)
Definition main_from (E : env) (start_date end_date : Z) (w : world)
  : option (outcome unit * world) :=
  match download_days (Z.to_nat (end_date - start_date + 1)) E end_date
          start_date 0 [] w with
  | None => None
  | Some (Raises, w1) => Some (Raises, w1)
  | Some (Returns (successful_downloads, all_failed_files), w1) =>
      match save_failed_downloads E all_failed_files w1 with
      | (Raises, w2) => Some (Raises, w2)
      | (Returns _, w2) =>
          match check_data_completeness E start_date end_date true w2 with
          | None => None
          | Some (Raises, w3) => Some (Raises, w3)
          | Some (Returns [], w3) => Some (Returns tt, w3)
          | Some (Returns missing_data, w3) =>
              let '(files_to_retry, w4) := queue_retries E missing_data w3 in
              match retry_failed_downloads E files_to_retry w4 with
              | None => None
              | Some ([], w5) => Some (Returns tt, w5)
              | Some (still_missing, w5) =>
                  match write_text E MISSING_FILES_FILE
                          (Json.dumps still_missing) w5 with
                  | (Some _, w6) => Some (Returns tt, w6)
                  | (None, w6) => Some (Raises, w6)
                  end
              end
          end
      end
  end.

(** [start_date = datetime(1998, 1, 1)], [end_date = datetime(2000, 12, 31)] *)
Definition main (E : env) (w : world) : option (outcome unit * world) :=
  main_from E (Date.ymd2ord 1998 1 1) (Date.ymd2ord 2000 12 31) w.

(** ** One turn of the download loop *)

(** How the body of the [try] ends: the server says 404, an exception is
    caught, the size check after the transfer fails, or all is well. *)
Inductive attempt_end := NotFound | Fault | Mismatch | Fetched.

(** The effect of one turn, apart from what the loop does next. *)
Definition attempt (E : env) (url local_path : string) (check_size : bool)
    (w : world) : attempt_end * world :=
  let '(r, w1) := send E GET url w in
  match r with
  | None => (Fault, w1)
  | Some resp =>
      if status_code resp =? 404 then (NotFound, w1)
      else if raises_for_status resp then (Fault, w1)
      else
        let '(saved, w2) := save_body E local_path resp w1 in
        match saved with
        | None => (Fault, w2)
        | Some _ =>
            let '(valid, w3) :=
              if check_size then check_file_integrity E url local_path w2
              else (true, w2) in
            if valid then (Fetched, w3) else (Mismatch, w3)
        end
  end.

(** The failure record [download_day] writes for a slot. *)
Definition failure_of (date : string) (f : slot) : failure :=
  {| f_date := date; f_hour := f.1.1; f_url := f.1.2; f_local_path := f.2 |}.

(** What the scan is to report for a slot, with or without size
    verification. *)
Definition expected_entry_with (E : env) (verify_size : bool) (w : world)
    (f : slot) : option missing_hour :=
  if is_missing w f then Some (entry f "missing")
  else if verify_size && is_invalid E w f then Some (entry f "invalid_size")
  else None.

(** What the scan is to report for a day: nothing when no slot of the day
    is reported, else one record under the day's date. *)
Definition expected_day (E : env) (verify_size : bool) (w : world) (date : Z)
  : option day_report :=
  match omap (expected_entry_with E verify_size w) (day_slots date) with
  | [] => None
  | entries =>
      Some {| dr_date := iso_date (Date.year date) (Date.month date)
                           (Date.day date);
              dr_missing_hours := entries |}
  end.

(** The retry record [main] queues for a reported entry. *)
Definition retry_of (date : string) (e : missing_hour) : failure :=
  {| f_date := date; f_hour := mh_hour e; f_url := mh_url e;
     f_local_path := mh_local_path e |}.

(** Number of sleeps drawn from the band [lo]..[hi] so far. *)
Definition sleeps (lo hi : Z) (w : world) : nat :=
  length (List.filter
            (fun e => match e with
                      | EvSleep a b => (a =? lo) && (b =? hi)
                      | _ => false
                      end) (trace w)).

(** An answer to a transfer request that carries no body to save: the
    request raises, or comes back 404 or another 4xx/5xx. *)
Definition bodiless (a : option response) : bool :=
  match a with
  | None => true
  | Some resp => (status_code resp =? 404) || raises_for_status resp
  end.

(** ** The scan, slot by slot *)

(** [w] when the clock reads [t]. *)
Definition at_clock (t : nat) (w : world) : world :=
  {| files := files w; clock := t; trace := trace w |}.

(** Number of present files among the first [k] of [slots]. *)
Definition present_before (w : world) (slots : list slot) (k : nat) : nat :=
  length (List.filter (fun f => os_path_exists f.2 w) (take k slots)).

(** Each slot of [slots] with the world the scan finds on reaching it, when
    it starts on [slots] with the clock at [t].  The files are those of [w]
    throughout; the scan sends one metadata request for each present file
    and no other, so the clock has moved by one for every present file met
    so far.  What the integrity check answers depends on the files and the
    clock only. *)
Definition reached_from (t : nat) (w : world) (slots : list slot)
  : list (world * slot) :=
  imap (fun k f => (at_clock (t + present_before w slots k) w, f)) slots.

Definition reached (w : world) (slots : list slot) : list (world * slot) :=
  reached_from (clock w) w slots.

(** The slot's file is present and is not as long as the file the server
    holds, [remote] giving the length held at each URL. *)
Definition size_mismatched (remote : string -> Z) (w : world) (f : slot)
  : bool :=
  match files w !! f.2 with
  | Some content => negb (Z.of_nat (length content) =? remote f.1.2)
  | None => false
  end.

(** C6 as the specification words it: with [N] absent files and [M] present
    files whose size differs from the remote one, the scan reports [N + M]
    entries. *)
Definition scan_counts_size_mismatches : Prop :=
  forall E remote start_date end_date w report w',
    (forall url, remote_length E url (remote url)) ->
    check_data_completeness E start_date end_date true w
    = Some (Returns report, w') ->
    let slots := range_slots start_date end_date in
    length (mjoin (dr_missing_hours <$> report))
    = (length (List.filter (is_missing w) slots)
       + length (List.filter (size_mismatched remote w) slots))%nat.

(** ** Sample environments and disks

    Concrete servers and file systems on which the properties below are
    exercised. *)

Module Sample.

Definition blob (n : nat) : list Byte.byte := replicate n Byte.x00.

Definition answer (status : Z) (len : option string)
    (chunks : list (list Byte.byte)) : response :=
  {| status_code := status; content_length := len; body := chunks;
     body_fault := false |}.

(** An operating system that refuses nothing, in front of a server given by
    its answers. *)
Definition online (srv : nat -> method -> string -> option response) : env :=
  {| request := srv; remove_denied := fun _ => false;
     open_denied := fun _ => false |}.

Definition disk (l : list (string * list Byte.byte)) : world :=
  {| files := list_to_map l; clock := 0; trace := [] |}.

(** Every file is three bytes long and always served. *)
Definition steady : env :=
  online (fun _ m _ =>
    match m with
    | HEAD => Some (answer 200 (Some "3") [])
    | GET => Some (answer 200 (Some "3") [blob 2; []; blob 1])
    end).

(** The metadata answer comes back 200 without a [content-length]. *)
Definition lengthless : env :=
  online (fun _ _ _ => Some (answer 200 None [])).

(** Every transfer request is answered 503. *)
Definition overloaded : env :=
  online (fun _ m _ =>
    match m with
    | HEAD => Some (answer 200 (Some "3") [])
    | GET => Some (answer 503 None [])
    end).

(** Every metadata answer is a 200 whose [content-length] says [-1]. *)
Definition minus_one : env :=
  online (fun _ m _ =>
    match m with
    | HEAD => Some (answer 200 (Some "-1") [])
    | GET => Some (answer 200 None [blob 3])
    end).

(** The server does not have the file. *)
Definition absent : env := online (fun _ _ _ => Some (answer 404 None [])).

(** As [steady], on a disk where nothing can be removed. *)
Definition locked : env :=
  {| request := request steady; remove_denied := fun _ => true;
     open_denied := fun _ => false |}.

(** Transfers deliver two bytes and end without an error; the metadata
    request says three bytes, except the second request of a run, which
    times out. *)
Definition blinking : env :=
  online (fun t m _ =>
    match m with
    | HEAD => if (t =? 1)%nat then None else Some (answer 200 (Some "3") [])
    | GET => Some (answer 200 None [blob 2])
    end).

(** The first of January 1998: hour 5 is on disk with five bytes where the
    server holds three. *)
Definition one_stale : world :=
  disk [(local_file_path 1998 1 1 5, blob 5)].

(** The same day with hours 5 and 7 on disk, hour 7 with the wrong length. *)
Definition two_files : world :=
  disk [(local_file_path 1998 1 1 5, blob 3);
        (local_file_path 1998 1 1 7, blob 5)].

(** The same day with hours 5, 7 and 9 on disk, hours 7 and 9 with the wrong
    length. *)
Definition three_files : world :=
  disk [(local_file_path 1998 1 1 5, blob 3);
        (local_file_path 1998 1 1 7, blob 5);
        (local_file_path 1998 1 1 9, blob 5)].


(** Every transfer stream breaks after two of three bytes. *)
Definition cut : env :=
  online (fun _ m _ =>
    match m with
    | HEAD => Some (answer 200 (Some "3") [])
    | GET => Some {| status_code := 200; content_length := Some "3";
                     body := [blob 2]; body_fault := true |}
    end).

(** The first of January 1998 with all 24 files on disk, three bytes each. *)
Definition full_day : world :=
  disk ((fun h => (local_file_path 1998 1 1 h, blob 3)) <$> range 24).

End Sample.

(** * Properties *)

(** Boolean tests in hypotheses, as propositions for [lia]. *)
Ltac bool_to_prop :=
  repeat match goal with
  | H : (_ <? _) = true |- _ => apply Z.ltb_lt in H
  | H : (_ <? _) = false |- _ => apply Z.ltb_ge in H
  | H : (_ =? _) = true |- _ => apply Z.eqb_eq in H
  | H : (_ =? _) = false |- _ => apply Z.eqb_neq in H
  | H : negb _ = true |- _ => apply negb_true_iff in H
  | H : negb _ = false |- _ => apply negb_false_iff in H
  end.

(** ** Integrity Checker *)

Lemma get_remote_file_size_world E url w :
  (get_remote_file_size E url w).2 = (send E HEAD url w).2.
Proof.
  unfold get_remote_file_size; cbn.
  destruct (request E (clock w) HEAD url) as [resp|]; [|done].
  destruct (status_code resp =? 200).
  - destruct (content_length resp) as [s|]; [|done].
    by destruct (Py.int s).
  - by destruct (status_code resp =? 404).
Qed.

Lemma get_remote_file_size_200 E url w resp :
  request E (clock w) HEAD url = Some resp ->
  status_code resp = 200 ->
  (get_remote_file_size E url w).1 = default (-1) (reported_length resp).
Proof.
  intros Hr Hs. unfold get_remote_file_size, reported_length; cbn.
  rewrite Hr, Hs; cbn.
  destruct (content_length resp) as [s|]; [|done].
  by destruct (Py.int s).
Qed.

Lemma get_remote_file_size_failed E url w :
  match request E (clock w) HEAD url with
  | Some resp => status_code resp <> 200
  | None => True
  end ->
  (get_remote_file_size E url w).1 = -1.
Proof.
  unfold get_remote_file_size; cbn.
  destruct (request E (clock w) HEAD url) as [resp|]; [|done].
  intros Hs. destruct (Z.eqb_spec (status_code resp) 200); [done|].
  by destruct (status_code resp =? 404).
Qed.

Lemma check_file_integrity_world E url path w :
  (check_file_integrity E url path w).2 =
  if os_path_exists path w then (send E HEAD url w).2 else w.
Proof.
  unfold check_file_integrity, os_path_exists.
  pose proof (get_remote_file_size_world E url w) as Hw.
  destruct (files w !! path) as [content|]; [|done].
  rewrite bool_decide_eq_true_2 by eauto.
  destruct (get_remote_file_size E url w) as [n w']. rewrite <- Hw.
  destruct (n =? -1); [done|].
  by destruct (n =? Z.of_nat (length content)).
Qed.

Lemma integrity_verdict_eq E url path w content :
  files w !! path = Some content ->
  (check_file_integrity E url path w).1 =
  let n := (get_remote_file_size E url w).1 in
  (n =? -1) || (n =? Z.of_nat (length content)).
Proof.
  intros Hf. unfold check_file_integrity. rewrite Hf.
  destruct (get_remote_file_size E url w) as [n w']; cbn.
  destruct (n =? -1); [done|].
  by destruct (n =? Z.of_nat (length content)).
Qed.

(** C1 (amended).  [check_file_integrity] answers [False] when the local
    file does not exist.  When it exists, the answer is [True] if the
    metadata request raises, comes back 404, or comes back with any status
    other than 200; it is [True] as well if a 200 answer carries a
    [content-length] that [int] cannot read, or one that reads as [-1], the
    value [get_remote_file_size] itself returns for a failed request; and
    for a 200 answer reporting any other length [n] (0 when the header is
    missing), the answer is [True] exactly when [n] is the length of the
    local file. *)
Theorem check_file_integrity_verdict E url path w :
  let verdict := (check_file_integrity E url path w).1 in
  (files w !! path = None -> verdict = false) /\
  (forall content, files w !! path = Some content ->
     (request E (clock w) HEAD url = None -> verdict = true) /\
     (forall resp, request E (clock w) HEAD url = Some resp ->
        (status_code resp = 404 -> verdict = true) /\
        (status_code resp <> 200 -> verdict = true) /\
        (status_code resp = 200 -> reported_length resp = None ->
         verdict = true) /\
        (status_code resp = 200 -> reported_length resp = Some (-1) ->
         verdict = true) /\
        (forall n, status_code resp = 200 ->
           reported_length resp = Some n -> n <> -1 ->
           verdict = (n =? Z.of_nat (length content))))).
Proof.
  cbv zeta. split.
  - intros Hf. unfold check_file_integrity. by rewrite Hf.
  - intros content Hf.
    rewrite (integrity_verdict_eq _ _ _ _ _ Hf); cbv zeta.
    split.
    + intros Hr. rewrite get_remote_file_size_failed; [done|by rewrite Hr].
    + intros resp Hr.
      assert (Hne : status_code resp <> 200 ->
                    (get_remote_file_size E url w).1 = -1).
      { intros Hs. apply get_remote_file_size_failed. by rewrite Hr. }
      repeat split.
      * intros Hs. rewrite Hne; [done|lia].
      * intros Hs. by rewrite Hne.
      * intros Hs Hn. rewrite (get_remote_file_size_200 _ _ _ _ Hr Hs), Hn.
        done.
      * intros Hs Hn. rewrite (get_remote_file_size_200 _ _ _ _ Hr Hs), Hn.
        done.
      * intros n Hs Hn Hpos.
        rewrite (get_remote_file_size_200 _ _ _ _ Hr Hs), Hn; cbn.
        by destruct (Z.eqb_spec n (-1)); [lia|].
Qed.

Lemma check_file_integrity_verdict_witness :
  (check_file_integrity Sample.steady "http://h/u" "d/p"
     (Sample.disk [("d/p", Sample.blob 3)])).1 = true /\
  (check_file_integrity Sample.steady "http://h/u" "d/p"
     (Sample.disk [("d/p", Sample.blob 5)])).1 = false /\
  (check_file_integrity Sample.minus_one "http://h/u" "d/p"
     (Sample.disk [("d/p", Sample.blob 5)])).1 = true.
Proof.
  split; [|split].
  - destruct (check_file_integrity_verdict Sample.steady "http://h/u" "d/p"
                (Sample.disk [("d/p", Sample.blob 3)])) as [_ H].
    destruct (H (Sample.blob 3) eq_refl) as [_ H1].
    destruct (H1 (Sample.answer 200 (Some "3") []) eq_refl)
      as (_ & _ & _ & _ & H2).
    exact (H2 3 eq_refl eq_refl ltac:(lia)).
  - destruct (check_file_integrity_verdict Sample.steady "http://h/u" "d/p"
                (Sample.disk [("d/p", Sample.blob 5)])) as [_ H].
    destruct (H (Sample.blob 5) eq_refl) as [_ H1].
    destruct (H1 (Sample.answer 200 (Some "3") []) eq_refl)
      as (_ & _ & _ & _ & H2).
    exact (H2 3 eq_refl eq_refl ltac:(lia)).
  - destruct (check_file_integrity_verdict Sample.minus_one "http://h/u" "d/p"
                (Sample.disk [("d/p", Sample.blob 5)])) as [_ H].
    destruct (H (Sample.blob 5) eq_refl) as [_ H1].
    destruct (H1 (Sample.answer 200 (Some "-1") []) eq_refl)
      as (_ & _ & _ & H2 & _).
    exact (H2 eq_refl eq_refl).
Defined.

(** C1, as stated, fails: a 200 answer whose [content-length] says [-1]
    reports a length that no file has, and the five-byte file passes. *)
Lemma verdict_compares_lengths_counterexample : ~ verdict_compares_lengths.
Proof.
  intros Hclaim.
  specialize (Hclaim Sample.minus_one "http://h/u" "d/p"
                (Sample.disk [("d/p", Sample.blob 5)]) (Sample.blob 5)
                (Sample.answer 200 (Some "-1") []) (-1)
                eq_refl eq_refl eq_refl eq_refl).
  vm_compute in Hclaim. discriminate Hclaim.
Qed.

(** What [int] makes of a few header values.  Those it refuses raise
    [ValueError] inside [get_remote_file_size], which then returns [-1]. *)
Remark content_length_readings :
  Py.int " 42 " = Some 42 /\ Py.int "007" = Some 7 /\
  Py.int "1_000" = Some 1000 /\ Py.int "-1" = Some (-1) /\
  Py.int (String (ascii_of_nat 160) "5") = Some 5 /\
  Py.int (String "5" (String (ascii_of_nat 31) EmptyString)) = None /\
  Py.int (String (ascii_of_nat 28) "5") = None /\
  Py.int EmptyString = None /\ Py.int "5 5" = None /\
  Py.int "0x10" = None /\ Py.int "5.0" = None /\ Py.int "1__0" = None /\
  Py.int (Py.zeros 4300) = Some 0 /\ Py.int (Py.zeros 4301) = None.
Proof. vm_compute. repeat split. Qed.

(** C10.  A 200 metadata answer without a [content-length] header makes
    [get_remote_file_size] return 0, not the error value -1; the local file,
    if it exists and is not empty, then fails [check_file_integrity] instead
    of getting the optimistic [True] of a failed request. *)
Theorem missing_content_length_reads_as_zero E url path w resp :
  request E (clock w) HEAD url = Some resp ->
  status_code resp = 200 ->
  content_length resp = None ->
  (get_remote_file_size E url w).1 = 0 /\
  (get_remote_file_size E url w).1 <> -1 /\
  forall content, files w !! path = Some content -> content <> [] ->
    (check_file_integrity E url path w).1 = false.
Proof.
  intros Hr Hs Hc.
  assert (H0 : (get_remote_file_size E url w).1 = 0).
  { rewrite (get_remote_file_size_200 _ _ _ _ Hr Hs).
    unfold reported_length. by rewrite Hc. }
  split; [done|]. split; [lia|].
  intros content Hf Hne.
  rewrite (integrity_verdict_eq _ _ _ _ _ Hf); cbv zeta.
  rewrite H0. destruct content; [done|]. done.
Qed.

Lemma missing_content_length_reads_as_zero_witness :
  (get_remote_file_size Sample.lengthless "u"
     (Sample.disk [("p", Sample.blob 4)])).1 = 0 /\
  (check_file_integrity Sample.lengthless "u" "p"
     (Sample.disk [("p", Sample.blob 4)])).1 = false.
Proof.
  destruct (missing_content_length_reads_as_zero Sample.lengthless "u" "p"
              (Sample.disk [("p", Sample.blob 4)]) (Sample.answer 200 None [])
              eq_refl eq_refl eq_refl) as (H0 & _ & H).
  split; [exact H0|].
  exact (H (Sample.blob 4) eq_refl ltac:(discriminate)).
Defined.

(** ** Single-File Fetcher *)

(** The loop never runs out of turns when given [max_retries - retries]. *)
Lemma download_loop_returns fuel E url path max_retries check_size retries w :
  (Z.to_nat (max_retries - retries) <= fuel)%nat ->
  is_Some (download_loop fuel E url path max_retries check_size retries w).
Proof.
  revert retries w.
  induction fuel as [|fuel IH]; intros retries w Hfuel; cbn.
  - destruct (Z.ltb_spec retries max_retries); cbn; [lia|eauto].
  - repeat (case_match; simplify_eq/=; eauto); bool_to_prop;
      apply IH; lia.
Qed.

Lemma download_file_returns E url path max_retries check_size w :
  is_Some (download_file E url path max_retries check_size w).
Proof.
  unfold download_file.
  repeat (case_match; simplify_eq/=; eauto);
    apply download_loop_returns; f_equal; lia.
Qed.

Lemma foldl_write_chunk_frame path chunks w :
  clock (foldl (write_chunk path) w chunks) = clock w /\
  trace (foldl (write_chunk path) w chunks) = trace w.
Proof.
  revert w. induction chunks as [|c chunks IH]; intros w; cbn; [done|].
  destruct (IH (write_chunk path w c)) as [-> ->].
  by destruct c.
Qed.

Lemma save_body_frame E path resp w :
  clock (save_body E path resp w).2 = clock w /\
  trace (save_body E path resp w).2 = EvOpen path :: trace w.
Proof.
  unfold save_body. destruct (open_denied E path); cbn; [done|].
  by destruct (foldl_write_chunk_frame path (body resp)
                 (set_files (<[path:=[]]> (files w)) (emit (EvOpen path) w)))
    as [-> ->].
Qed.

Lemma save_body_faulty E path resp w :
  body_fault resp = true -> (save_body E path resp w).1 = None.
Proof.
  intros Hb. unfold save_body. destruct (open_denied E path); cbn; [done|].
  by rewrite Hb.
Qed.

(** One turn of the loop on a transient failure: one transfer attempt, then
    either the next turn after the long sleep, or [False] on the last one. *)
Lemma download_loop_transient fuel E url path max_retries check_size retries w :
  retries < max_retries ->
  transient_failure (request E (clock w) GET url) = true ->
  exists w1,
    transfers w1 = S (transfers w) /\
    download_loop (S fuel) E url path max_retries check_size retries w =
    if retries + 1 <? max_retries
    then download_loop fuel E url path max_retries check_size (retries + 1)
           (time_sleep 5 10 w1)
    else Some (Py.Ret false, w1).
Proof.
  intros Hlt Ht. cbn.
  destruct (Z.ltb_spec retries max_retries); [cbn|lia].
  destruct (request E (clock w) GET url) as [resp|]; cbn in Ht.
  - apply andb_true_iff in Ht as [H404 Hfail]. rewrite negb_true_iff in H404.
    rewrite H404.
    destruct (raises_for_status resp) eqn:Hraise; cbn in Hfail.
    + eexists; split; [|reflexivity]. done.
    + pose proof (save_body_faulty E path resp
        {| files := files w; clock := S (clock w);
           trace := EvRequest GET url :: trace w |} Hfail) as Hnone.
      pose proof (save_body_frame E path resp
        {| files := files w; clock := S (clock w);
           trace := EvRequest GET url :: trace w |}) as [_ Htr].
      destruct (save_body _ _ _ _) as [saved w2]; cbn in Hnone, Htr.
      subst saved. exists w2. split; [|reflexivity].
      unfold transfers. by rewrite Htr.
  - eexists; split; [|reflexivity]. done.
Qed.

Lemma download_loop_all_transient fuel E url path max_retries check_size
    retries w :
  (forall t, transient_failure (request E t GET url) = true) ->
  retries < max_retries ->
  (Z.to_nat (max_retries - retries) <= fuel)%nat ->
  exists w',
    download_loop fuel E url path max_retries check_size retries w
    = Some (Py.Ret false, w') /\
    transfers w' = (transfers w + Z.to_nat (max_retries - retries))%nat.
Proof.
  intros Hall. revert retries w.
  induction fuel as [|fuel IH]; intros retries w Hlt Hfuel; [lia|].
  destruct (download_loop_transient fuel E url path max_retries check_size
              retries w Hlt (Hall _)) as (w1 & Htr & ->).
  destruct (Z.ltb_spec (retries + 1) max_retries).
  - destruct (IH (retries + 1) (time_sleep 5 10 w1)) as (w' & -> & Hw');
      [lia|lia|].
    exists w'. split; [done|]. rewrite Hw'. unfold transfers in *; cbn.
    rewrite Htr. lia.
  - exists w1. split; [done|]. rewrite Htr. lia.
Qed.

(** C3.  On a local path that does not exist, [download_file] with
    [max_retries=3] against a server whose every answer to the transfer
    request is a transient failure makes exactly 3 transfer attempts and
    returns [False]; against a server that answers 404 it makes exactly 1
    attempt and returns [False]. *)
Theorem download_file_retry_bound E url path check_size w :
  files w !! path = None ->
  ((forall t, transient_failure (request E t GET url) = true) ->
   exists w',
     download_file E url path 3 check_size w = Some (Py.Ret false, w') /\
     transfers w' = (transfers w + 3)%nat) /\
  (forall resp,
     request E (clock w) GET url = Some resp -> status_code resp = 404 ->
     exists w',
       download_file E url path 3 check_size w = Some (Py.Ret false, w') /\
       transfers w' = (transfers w + 1)%nat).
Proof.
  intros Hf.
  assert (Hloop : download_file E url path 3 check_size w =
                  download_loop 3 E url path 3 check_size 0 w).
  { unfold download_file, os_path_exists. rewrite Hf.
    by rewrite bool_decide_eq_false_2 by (intros [? ?]; done). }
  rewrite Hloop. split.
  - intros Hall.
    destruct (download_loop_all_transient 3 E url path 3 check_size 0 w Hall)
      as (w' & Hrun & Hn); [lia|cbn; lia|].
    exists w'. by split.
  - intros resp Hr Hs. cbn. rewrite Hr, Hs. cbn.
    eexists; split; [reflexivity|]. unfold transfers; cbn. lia.
Qed.

Lemma download_file_retry_bound_witness :
  (exists w',
     download_file Sample.overloaded "u" "p" 3 true (Sample.disk [])
     = Some (Py.Ret false, w') /\
     transfers w' = 3%nat) /\
  (exists w',
     download_file Sample.absent "u" "p" 3 true (Sample.disk [])
     = Some (Py.Ret false, w') /\
     transfers w' = 1%nat).
Proof.
  split.
  - destruct (download_file_retry_bound Sample.overloaded "u" "p" true
                (Sample.disk []) eq_refl) as [H _].
    exact (H (fun _ => eq_refl)).
  - destruct (download_file_retry_bound Sample.absent "u" "p" true
                (Sample.disk []) eq_refl) as [_ H].
    exact (H (Sample.answer 404 None []) eq_refl eq_refl).
Defined.

Lemma check_file_integrity_frame E url path w :
  files (check_file_integrity E url path w).2 = files w /\
  transfers (check_file_integrity E url path w).2 = transfers w.
Proof.
  rewrite check_file_integrity_world. by destruct (os_path_exists path w).
Qed.

Lemma time_sleep_transfers lo hi w :
  transfers (time_sleep lo hi w) = transfers w.
Proof. done. Qed.

(** A turn of the loop starts with a transfer attempt, and attempts are
    never taken back. *)
Lemma download_loop_transfers fuel E url path max_retries check_size retries
    w r w' :
  download_loop fuel E url path max_retries check_size retries w
  = Some (r, w') ->
  (transfers w <= transfers w')%nat /\
  (retries < max_retries -> (S (transfers w) <= transfers w')%nat).
Proof.
  revert retries w.
  induction fuel as [|fuel IH]; intros retries w; cbn.
  - destruct (Z.ltb_spec retries max_retries); cbn; [done|].
    intros [= <- <-]. split; [done|lia].
  - destruct (Z.ltb_spec retries max_retries); cbn;
      [|intros [= <- <-]; split; [done|lia]].
    set (w1 := {| files := files w; clock := S (clock w);
                  trace := EvRequest GET url :: trace w |}).
    assert (H1 : transfers w1 = S (transfers w)) by done.
    assert (Hexc : forall w0, transfers w0 = S (transfers w) ->
      (if retries + 1 <? max_retries
       then download_loop fuel E url path max_retries check_size
              (retries + 1) (time_sleep 5 10 w0)
       else Some (Py.Ret false, w0)) = Some (r, w') ->
      (S (transfers w) <= transfers w')%nat).
    { intros w0 H0 Hrun. destruct (retries + 1 <? max_retries).
      - apply IH in Hrun as [Hle _].
        rewrite time_sleep_transfers in Hle. lia.
      - injection Hrun as <- <-. lia. }
    intros Hrun. enough (S (transfers w) <= transfers w')%nat by (split; lia).
    destruct (request E (clock w) GET url) as [resp|]; [|by eapply Hexc].
    destruct (status_code resp =? 404); [injection Hrun as <- <-; lia|].
    destruct (raises_for_status resp); [by eapply Hexc|].
    pose proof (save_body_frame E path resp w1) as [_ Htr].
    destruct (save_body E path resp w1) as [saved w2]; cbn in Htr.
    assert (H2 : transfers w2 = S (transfers w)).
    { unfold transfers. by rewrite Htr. }
    destruct saved; [|by eapply Hexc].
    assert (exists valid w3, transfers w3 = S (transfers w) /\
      (if check_size then check_file_integrity E url path w2 else (true, w2))
      = (valid, w3)) as (valid & w3 & H3 & Hv).
    { destruct check_size; [|by eauto].
      pose proof (check_file_integrity_frame E url path w2) as [_ Hc].
      destruct (check_file_integrity E url path w2) as [valid w3].
      exists valid, w3. split; [cbn in Hc; lia|done]. }
    rewrite Hv in Hrun. destruct valid; cbn in Hrun.
    + injection Hrun as <- <-. rewrite time_sleep_transfers. lia.
    + destruct (retries <? max_retries - 1).
      * apply IH in Hrun as [Hle _]. lia.
      * injection Hrun as <- <-. lia.
Qed.

(** C5.  When the local path already exists: without size verification
    [download_file] returns [True] at once, touching nothing; with it, a
    passing integrity check returns [True] with no transfer attempt; a
    failing one removes the file and goes on to the download loop (which
    opens with a transfer attempt), unless the removal fails, in which case
    the call returns [False] with no transfer attempt. *)
Theorem download_file_existing E url path max_retries w content :
  files w !! path = Some content ->
  download_file E url path max_retries false w = Some (Py.Ret true, w) /\
  ((check_file_integrity E url path w).1 = true ->
   exists w1,
     download_file E url path max_retries true w = Some (Py.Ret true, w1) /\
     transfers w1 = transfers w /\ files w1 = files w) /\
  ((check_file_integrity E url path w).1 = false ->
   remove_denied E path = true ->
   exists w1,
     download_file E url path max_retries true w = Some (Py.Ret false, w1) /\
     transfers w1 = transfers w /\ files w1 = files w) /\
  ((check_file_integrity E url path w).1 = false ->
   remove_denied E path = false ->
   exists w1,
     files w1 = delete path (files w) /\ transfers w1 = transfers w /\
     download_file E url path max_retries true w
     = download_loop (Z.to_nat max_retries) E url path max_retries true 0 w1 /\
     forall r w', 0 < max_retries ->
       download_file E url path max_retries true w = Some (r, w') ->
       (S (transfers w) <= transfers w')%nat).
Proof.
  intros Hf.
  assert (Hex : os_path_exists path w = true).
  { unfold os_path_exists. rewrite bool_decide_eq_true_2; eauto. }
  unfold download_file. rewrite Hex.
  pose proof (check_file_integrity_frame E url path w) as [Hfiles Htr].
  destruct (check_file_integrity E url path w) as [valid w1];
    cbn in Hfiles, Htr |- *.
  assert (Hex1 : os_path_exists path w1 = true).
  { unfold os_path_exists. rewrite Hfiles, bool_decide_eq_true_2; eauto. }
  split; [done|]. repeat split.
  - intros ->. by exists w1.
  - intros -> Hden. unfold os_remove. rewrite Hex1, Hden; cbn.
    eexists; split; [done|]. by split.
  - intros -> Hden. unfold os_remove. rewrite Hex1, Hden; cbn.
    eexists; split; [|split; [|split; [reflexivity|]]].
    + cbn. by rewrite Hfiles.
    + done.
    + intros r w' Hpos Hrun.
      apply download_loop_transfers in Hrun as [_ Hrun].
      specialize (Hrun Hpos). unfold transfers in *; cbn in *. lia.
Qed.

Lemma download_file_existing_witness :
  (exists w1,
     download_file Sample.steady "u" "p" 3 true
       (Sample.disk [("p", Sample.blob 3)]) = Some (Py.Ret true, w1) /\
     transfers w1 = 0%nat) /\
  (exists w1,
     download_file Sample.locked "u" "p" 3 true
       (Sample.disk [("p", Sample.blob 5)]) = Some (Py.Ret false, w1) /\
     transfers w1 = 0%nat) /\
  (exists w1,
     files w1 = delete "p" (files (Sample.disk [("p", Sample.blob 5)])) /\
     download_file Sample.steady "u" "p" 3 true
       (Sample.disk [("p", Sample.blob 5)])
     = download_loop 3 Sample.steady "u" "p" 3 true 0 w1).
Proof.
  split; [|split].
  - destruct (download_file_existing Sample.steady "u" "p" 3
                (Sample.disk [("p", Sample.blob 3)]) (Sample.blob 3) eq_refl)
      as (_ & H & _).
    destruct (H eq_refl) as (w1 & H1 & H2 & _). by exists w1.
  - destruct (download_file_existing Sample.locked "u" "p" 3
                (Sample.disk [("p", Sample.blob 5)]) (Sample.blob 5) eq_refl)
      as (_ & _ & H & _).
    destruct (H eq_refl eq_refl) as (w1 & H1 & H2 & _). by exists w1.
  - destruct (download_file_existing Sample.steady "u" "p" 3
                (Sample.disk [("p", Sample.blob 5)]) (Sample.blob 5) eq_refl)
      as (_ & _ & _ & H).
    destruct (H eq_refl eq_refl) as (w1 & H1 & _ & H2 & _). by exists w1.
Defined.

Lemma check_file_integrity_true E url path w :
  (check_file_integrity E url path w).1 = true ->
  exists content,
    files w !! path = Some content /\
    ((get_remote_file_size E url w).1 = -1 \/
     (get_remote_file_size E url w).1 = Z.of_nat (length content)) /\
    (check_file_integrity E url path w).2 = (send E HEAD url w).2.
Proof.
  intros Hv. destruct (files w !! path) as [content|] eqn:Hf.
  - exists content. split; [done|]. split.
    + rewrite (integrity_verdict_eq _ _ _ _ _ Hf) in Hv.
      cbv zeta in Hv. apply orb_true_iff in Hv as [Hv|Hv];
        apply Z.eqb_eq in Hv; eauto.
    + rewrite check_file_integrity_world. unfold os_path_exists.
      rewrite Hf. by rewrite bool_decide_eq_true_2 by eauto.
  - unfold check_file_integrity in Hv. by rewrite Hf in Hv.
Qed.

Lemma check_passed E url path w :
  (check_file_integrity E url path w).1 = true ->
  last_check_passed E url path (check_file_integrity E url path w).2.
Proof.
  intros Hv.
  destruct (check_file_integrity_true _ _ _ _ Hv) as (content & Hf & Hn & ->).
  exists w, content. by cbn.
Qed.

Lemma download_loop_true fuel E url path max_retries retries w w' :
  download_loop fuel E url path max_retries true retries w
  = Some (Py.Ret true, w') ->
  last_check_passed E url path w'.
Proof.
  revert retries w.
  induction fuel as [|fuel IH]; intros retries w; cbn.
  - by destruct (retries <? max_retries).
  - destruct (retries <? max_retries); cbn; [|done].
    assert (Hexc : forall w0,
      (if retries + 1 <? max_retries
       then download_loop fuel E url path max_retries true
              (retries + 1) (time_sleep 5 10 w0)
       else Some (Py.Ret false, w0)) = Some (Py.Ret true, w') ->
      last_check_passed E url path w').
    { intros w0. destruct (retries + 1 <? max_retries); [apply IH|done]. }
    destruct (request E (clock w) GET url) as [resp|]; [|apply Hexc].
    destruct (status_code resp =? 404); [done|].
    destruct (raises_for_status resp); [apply Hexc|].
    destruct (save_body E path resp _) as [[[]|] w2]; [|apply Hexc].
    pose proof (check_passed E url path w2) as Hpass.
    destruct (check_file_integrity E url path w2) as [[] w3]; cbn.
    + intros [= <-].
      destruct (Hpass eq_refl) as (w0 & content & ?). by exists w0, content.
    + destruct (retries <? max_retries - 1); [apply IH|done].
Qed.

(** C2, amended.  A verified [download_file] that returns [True] has, as its
    last request, made an integrity check that passed on the file it leaves
    at the local path: the server reported exactly the local length, or the
    metadata request failed and the file was assumed good. *)
Theorem download_file_success_checked E url path max_retries w w' :
  download_file E url path max_retries true w = Some (Py.Ret true, w') ->
  last_check_passed E url path w'.
Proof.
  unfold download_file.
  destruct (os_path_exists path w); [|apply download_loop_true].
  pose proof (check_passed E url path w) as Hpass.
  destruct (check_file_integrity E url path w) as [[] w1]; cbn.
  - intros [= <-]. by apply Hpass.
  - destruct (os_remove E path w1) as [[[]|] w2]; [|done].
    apply download_loop_true.
Qed.

Lemma download_file_success_checked_witness :
  last_check_passed Sample.steady "u" "p"
    {| files := {["p" := Sample.blob 3]}; clock := 2;
       trace := [EvSleep 3 8; EvRequest HEAD "u"; EvOpen "p";
                 EvRequest GET "u"] |}.
Proof.
  apply (download_file_success_checked Sample.steady "u" "p" 3
           (Sample.disk [])).
  vm_compute. reflexivity.
Defined.

(** The run that the amendment answers to: the transfer brings two bytes,
    the check after it times out, and the call reports success although the
    server holds three bytes. *)
Lemma blinking_run :
  remote_length Sample.blinking "u" 3 /\
  exists w',
    download_file Sample.blinking "u" "p" 3 true (Sample.disk [])
    = Some (Py.Ret true, w') /\
    local_size "p" w' = Some 2.
Proof.
  split.
  - intros t resp. cbn. destruct (t =? 1)%nat; [done|].
    by intros [= <-] _.
  - eexists. split; [vm_compute; reflexivity|]. vm_compute. reflexivity.
Qed.

(** C2, as stated, fails. *)
Lemma success_means_same_length_counterexample :
  ~ success_means_same_length.
Proof.
  intros Hclaim.
  destruct blinking_run as (Hrem & w' & Hrun & Hsize).
  specialize (Hclaim _ _ _ _ _ _ _ Hrem Hrun). congruence.
Qed.

(** ** Slot names *)

Lemma string_app_assoc (a b c : string) : (a +:+ b) +:+ c = a +:+ b +:+ c.
Proof.
  induction a as [|x a IH]; [done|].
  change (String x ((a +:+ b) +:+ c) = String x (a +:+ b +:+ c)).
  by f_equal.
Qed.

Lemma forallb_range (P : Z -> bool) (k n : Z) :
  forallb P (range (Z.to_nat k)) = true -> 0 <= n < k -> P n = true.
Proof.
  intros Hall Hn. rewrite forallb_forall in Hall. apply Hall.
  apply list_elem_of_In, list_elem_of_fmap. exists (Z.to_nat n).
  split; [lia|]. apply elem_of_seq. lia.
Qed.

Lemma format_0d_year n :
  0 <= n <= 9999 -> is_field 4 n (Py.format_0d 4 n) = true.
Proof.
  intros Hn.
  apply (forallb_range (fun n => is_field 4 n (Py.format_0d 4 n)) 10000);
    [by vm_compute|lia].
Qed.

Lemma format_0d_two n :
  0 <= n <= 99 -> is_field 2 n (Py.format_0d 2 n) = true.
Proof.
  intros Hn.
  apply (forallb_range (fun n => is_field 2 n (Py.format_0d 2 n)) 100);
    [by vm_compute|lia].
Qed.

Lemma build_day_files_lookup year month day (i : nat) :
  (i < 24)%nat ->
  build_day_files year month day !! i
  = Some (Z.of_nat i, file_url year month day (Z.of_nat i),
          local_file_path year month day (Z.of_nat i)).
Proof.
  intros Hi. unfold build_day_files, range.
  rewrite !list_lookup_fmap, lookup_seq_lt by done. done.
Qed.

(** C8.  The URL and the local path of a slot are functions of
    [(year, month, day, hour)] alone: equal arguments give equal results, and
    neither the server nor the disk enters.  The URL is the base path
    followed by [/{year}/{month}/{day}/CMORPH_V1.0_ADJ_8km-30min_]
    [{year}{month}{day}{hour}.nc]; the fields are [format(_, "04d")] for the
    year and [format(_, "02d")] for the others, which for a year in
    0..9999 is that year in exactly 4 digits and for a month, day or hour in
    0..99 that number in exactly 2 digits.  [download_day] lists these for
    hours 0..23. *)
Theorem slot_naming year month day hour :
  let Y := Py.format_0d 4 year in
  let M := Py.format_0d 2 month in
  let D := Py.format_0d 2 day in
  let H := Py.format_0d 2 hour in
  (forall year' month' day' hour',
     (year, month, day, hour) = (year', month', day', hour') ->
     file_url year month day hour = file_url year' month' day' hour' /\
     local_file_path year month day hour
     = local_file_path year' month' day' hour') /\
  file_url year month day hour
  = BASE_URL +:+ "/" +:+ Y +:+ "/" +:+ M +:+ "/" +:+ D +:+ "/"
    +:+ "CMORPH_V1.0_ADJ_8km-30min_" +:+ Y +:+ M +:+ D +:+ H +:+ ".nc" /\
  local_file_path year month day hour
  = OUTPUT_DIR +:+ "/" +:+ Y +:+ "/" +:+ M +:+ "/"
    +:+ "CMORPH_V1.0_ADJ_8km-30min_" +:+ Y +:+ M +:+ D +:+ H +:+ ".nc" /\
  (0 <= year <= 9999 -> is_field 4 year Y = true) /\
  (0 <= month <= 99 -> is_field 2 month M = true) /\
  (0 <= day <= 99 -> is_field 2 day D = true) /\
  (0 <= hour <= 99 -> is_field 2 hour H = true) /\
  (0 <= hour < 24 ->
   build_day_files year month day !! Z.to_nat hour
   = Some (hour, file_url year month day hour,
           local_file_path year month day hour)).
Proof.
  cbv zeta. split; [by intros ? ? ? ? [= <- <- <- <-]|].
  split; [|split].
  - unfold file_url, day_url, file_name, date_str.
    by rewrite !string_app_assoc.
  - unfold local_file_path, year_month_dir, Py.path_join, file_name, date_str.
    by rewrite !string_app_assoc.
  - repeat split;
      [apply format_0d_year|apply format_0d_two|apply format_0d_two
      |apply format_0d_two|].
    intros Hh. rewrite build_day_files_lookup by lia.
    by rewrite Z2Nat.id by lia.
Qed.

Lemma slot_naming_witness :
  file_url 1998 1 2 3
  = "https://www.ncei.noaa.gov/data/cmorph-high-resolution-global-precipitation-estimates/access/30min/8km/1998/01/02/CMORPH_V1.0_ADJ_8km-30min_1998010203.nc" /\
  local_file_path 1998 1 2 3
  = "CMORPH_Data/1998/01/CMORPH_V1.0_ADJ_8km-30min_1998010203.nc" /\
  is_field 4 1998 "1998" = true /\ is_field 2 1 "01" = true /\
  is_field 2 2 "02" = true /\ is_field 2 3 "03" = true /\
  build_day_files 1998 1 2 !! 3%nat
  = Some (3, file_url 1998 1 2 3, local_file_path 1998 1 2 3).
Proof.
  destruct (slot_naming 1998 1 2 3) as (_ & Hu & Hp & Hy & Hm & Hd & Hh & Hl).
  split; [exact Hu|]. split; [exact Hp|].
  split; [exact (Hy ltac:(lia))|]. split; [exact (Hm ltac:(lia))|].
  split; [exact (Hd ltac:(lia))|]. split; [exact (Hh ltac:(lia))|].
  exact (Hl ltac:(lia)).
Defined.

(** ** Day Planner *)

Lemma insert_desc_latest x acc :
  Forall (fun y => earlier y x) acc -> insert_desc x acc = x :: acc.
Proof.
  intros Hacc. destruct acc as [|y acc]; [done|]. cbn.
  apply Forall_cons in Hacc as [Hy _]. unfold earlier in Hy.
  by destruct (Z.ltb_spec y.1.1 x.1.1); [|lia].
Qed.

(** Sorting an hour-ascending list by descending hour reverses it. *)
Lemma sorted_desc_ascending l :
  StronglySorted earlier l -> sorted_desc l = reverse l.
Proof.
  unfold sorted_desc.
  enough (forall acc, StronglySorted earlier l ->
            Forall (fun y => Forall (earlier y) l) acc ->
            foldl (fun acc x => insert_desc x acc) acc l = reverse l ++ acc)
    as H.
  { intros Hl. rewrite (H [] Hl); [by rewrite app_nil_r|constructor]. }
  induction l as [|x l IH]; intros acc Hl Hacc; [done|]. cbn [foldl].
  apply StronglySorted_inv in Hl as [Hl Hx].
  rewrite insert_desc_latest.
  - rewrite IH; [by rewrite reverse_cons, <- app_assoc|done|].
    constructor; [done|].
    eapply Forall_impl; [exact Hacc|]. intros y Hy.
    by apply Forall_cons in Hy as [_ ?].
  - eapply Forall_impl; [exact Hacc|]. intros y Hy.
    by apply Forall_cons in Hy as [? _].
Qed.

Lemma filter_StronglySorted {A} (R : relation A) (p : A -> bool) l :
  StronglySorted R l -> StronglySorted R (List.filter p l).
Proof.
  induction 1 as [|x l Hl IH Hx]; cbn; [constructor|].
  destruct (p x); [|done]. constructor; [done|].
  apply Forall_forall. intros y Hy%list_elem_of_In%filter_In.
  destruct Hy as [Hy%list_elem_of_In _].
  by eapply Forall_forall in Hx.
Qed.

Lemma build_day_files_sorted year month day :
  StronglySorted earlier (build_day_files year month day).
Proof.
  unfold build_day_files, range.
  apply (StronglySorted_fmap _ Z.lt earlier);
    [by intros a b Hab|].
  apply (StronglySorted_fmap _ lt Z.lt); [intros a b Hab; lia|].
  cbn. repeat (constructor; [|by repeat (constructor; [lia|])]). constructor.
Qed.

Lemma hour_suffix_inj h1 h2 :
  0 <= h1 < 24 -> 0 <= h2 < 24 ->
  Py.format_0d 2 h1 +:+ ".nc" = Py.format_0d 2 h2 +:+ ".nc" -> h1 = h2.
Proof.
  intros H1 H2 Heq.
  pose (same := fun a b : Z =>
    implb (String.eqb (Py.format_0d 2 a +:+ ".nc") (Py.format_0d 2 b +:+ ".nc"))
          (a =? b)).
  assert (Hall : forallb (fun a => forallb (same a) (range (Z.to_nat 24)))
                   (range (Z.to_nat 24)) = true) by by vm_compute.
  pose proof (forallb_range _ 24 h1 Hall H1) as Ha. cbv beta in Ha.
  pose proof (forallb_range _ 24 h2 Ha H2) as Hb. unfold same in Hb.
  rewrite Heq, String.eqb_refl in Hb. cbn in Hb. by apply Z.eqb_eq.
Qed.

Lemma local_file_path_inj year month day h1 h2 :
  0 <= h1 < 24 -> 0 <= h2 < 24 ->
  local_file_path year month day h1 = local_file_path year month day h2 ->
  h1 = h2.
Proof.
  intros H1 H2. unfold local_file_path, Py.path_join, file_name.
  intros Heq. do 4 apply (inj (String.append _)) in Heq.
  by apply hour_suffix_inj.
Qed.

Lemma build_day_files_elem year month day f :
  f ∈ build_day_files year month day ->
  0 <= f.1.1 < 24 /\
  f = (f.1.1, file_url year month day f.1.1,
       local_file_path year month day f.1.1) /\
  build_day_files year month day !! Z.to_nat f.1.1 = Some f.
Proof.
  intros (i & Hi)%list_elem_of_lookup.
  assert (i < 24)%nat as Hlt.
  { apply lookup_lt_Some in Hi. unfold build_day_files, range in Hi.
    by rewrite !length_fmap, length_seq in Hi. }
  pose proof Hi as Hi'. rewrite build_day_files_lookup in Hi by done.
  injection Hi as <-. cbn. rewrite Nat2Z.id. split; [lia|]. by split.
Qed.

Lemma existing_files_elem day_files w f :
  f ∈ existing_files day_files w <->
  f ∈ day_files /\ is_Some (files w !! f.2).
Proof.
  unfold existing_files, os_path_exists.
  rewrite list_elem_of_In, filter_In, <- list_elem_of_In.
  by rewrite bool_decide_eq_true.
Qed.

(** One step of the re-check on a listed file that exists. *)
Lemma recheck_spec E day_files w f content :
  day_files !! Z.to_nat f.1.1 = Some f ->
  files w !! f.2 = Some content ->
  let w' := (recheck E (day_files, w) f).2 in
  (recheck E (day_files, w) f).1 = day_files /\
  transfers w' = transfers w /\
  EvRequest HEAD f.1.2 ∈ trace w' /\
  (forall e, e ∈ trace w -> e ∈ trace w') /\
  (files w' = files w \/ files w' = delete f.2 (files w)) /\
  ((check_file_integrity E f.1.2 f.2 w).1 = true -> files w' = files w) /\
  ((check_file_integrity E f.1.2 f.2 w).1 = false ->
   remove_denied E f.2 = false -> files w' = delete f.2 (files w)).
Proof.
  intros Hidx Hf. destruct f as [[hour url] path]; cbn in *.
  pose proof (check_file_integrity_world E url path w) as Hw.
  unfold os_path_exists in Hw.
  rewrite bool_decide_eq_true_2 in Hw by eauto.
  destruct (check_file_integrity E url path w) as [valid w1]; cbn in Hw |- *.
  subst w1. destruct valid; cbn.
  - repeat split; eauto; try done; set_solver.
  - rewrite list_insert_id by done.
    unfold os_remove, os_path_exists; cbn. rewrite Hf.
    rewrite bool_decide_eq_true_2 by eauto.
    destruct (remove_denied E path); cbn;
      repeat split; eauto; try done; set_solver.
Qed.

(** Of an hour-ascending list with two entries or more, the two latest are
    its last two, latest first. *)
Lemma latest_two l :
  StronglySorted earlier l -> (2 <= length l)%nat ->
  exists pre f2 f1,
    l = pre ++ [f2; f1] /\ take 2 (sorted_desc l) = [f1; f2] /\
    earlier f2 f1 /\ Forall (fun f => earlier f f2) pre.
Proof.
  intros Hl Hlen. rewrite sorted_desc_ascending by done.
  destruct (reverse l) as [|f1 [|f2 r]] eqn:Hr;
    apply (f_equal reverse) in Hr; rewrite reverse_involutive in Hr;
    try (subst l; cbn in Hlen; lia).
  rewrite !reverse_cons, <- app_assoc in Hr. cbn [app] in Hr. subst l.
  exists (reverse r), f2, f1.
  split; [done|]. split; [done|].
  apply StronglySorted_app in Hl as (Hpre & _ & Hl).
  apply StronglySorted_inv in Hl as [_ Hf2].
  split; [by apply Forall_cons in Hf2 as [? _]|].
  apply Forall_forall. intros f Hf. apply Hpre; [done|set_solver].
Qed.

(** The re-check of the latest files, step by step. *)
Lemma check_latest_files_steps E year month day w :
  let day_files := build_day_files year month day in
  let existing := existing_files day_files w in
  ((length existing < 2)%nat ->
   check_latest_files E day_files w = (day_files, w)) /\
  ((2 <= length existing)%nat ->
   exists pre f2 f1,
     existing = pre ++ [f2; f1] /\
     earlier f2 f1 /\ Forall (fun f => earlier f f2) pre /\
     let s1 := recheck E (day_files, w) f1 in
     let s2 := recheck E s1 f2 in
     check_latest_files E day_files w = s2 /\
     s1 = (day_files, s1.2) /\ s2 = (day_files, s2.2) /\
     f1.2 <> f2.2 /\
     is_Some (files w !! f1.2) /\ is_Some (files s1.2 !! f2.2) /\
     day_files !! Z.to_nat f1.1.1 = Some f1 /\
     day_files !! Z.to_nat f2.1.1 = Some f2).
Proof.
  cbv zeta. set (day_files := build_day_files year month day).
  set (existing := existing_files day_files w).
  unfold check_latest_files. fold existing. split.
  - intros Hlen. by destruct (Nat.leb_spec 2 (length existing)); [lia|].
  - intros Hlen. destruct (Nat.leb_spec 2 (length existing)); [|lia].
    destruct (latest_two existing) as (pre & f2 & f1 & Hex & -> & Hlt & Hpre);
      [apply filter_StronglySorted, build_day_files_sorted|done|].
    exists pre, f2, f1. split; [done|]. split; [done|]. split; [done|].
    assert (Hin : forall f, f ∈ [f2; f1] ->
              f ∈ day_files /\ is_Some (files w !! f.2)).
    { intros f Hf. apply existing_files_elem. fold existing.
      rewrite Hex. apply elem_of_app. by right. }
    destruct (Hin f1) as [[Hh1 [Hf1 Hi1]]%build_day_files_elem [c1 Hc1]];
      [apply list_elem_of_further, list_elem_of_here|].
    destruct (Hin f2) as [[Hh2 [Hf2 Hi2]]%build_day_files_elem [c2 Hc2]];
      [apply list_elem_of_here|].
    assert (Hne : f1.2 <> f2.2).
    { rewrite Hf1, Hf2. cbn [fst snd]. intros Heq.
      apply local_file_path_inj in Heq; [|done..].
      unfold earlier in Hlt. lia. }
    destruct (recheck_spec E day_files w f1 c1 Hi1 Hc1)
      as (Hs1 & _ & _ & _ & Hfiles1 & _).
    destruct (recheck E (day_files, w) f1) as [d1 w1] eqn:Hr1.
    cbn [fst snd] in Hs1, Hfiles1. subst d1.
    assert (Hc2' : files w1 !! f2.2 = Some c2).
    { destruct Hfiles1 as [-> | ->]; [done|]. by rewrite lookup_delete_ne. }
    destruct (recheck_spec E day_files w1 f2 c2 Hi2 Hc2') as (Hs2 & _).
    destruct (recheck E (day_files, w1) f2) as [d2 w2] eqn:Hr2.
    cbn [fst snd] in Hs2. subst d2. cbn [fst snd].
    split; [cbn [foldl]; by rewrite Hr1, Hr2|].
    repeat split; eauto.
Qed.

(** C4, amended.  With fewer than two of the day's files on disk the re-check
    of the latest files does nothing.  With two or more, the existing files
    with the two highest hours, [f1] above [f2], each get an integrity check
    (one metadata request each, [f1] first), no transfer is attempted, and
    each of the two that fails its check is removed before the fetch pass
    starts, provided [os.remove] does not raise. *)
Theorem check_latest_two E year month day w :
  let day_files := build_day_files year month day in
  let existing := existing_files day_files w in
  ((length existing < 2)%nat ->
   check_latest_files E day_files w = (day_files, w)) /\
  ((2 <= length existing)%nat ->
   exists pre f2 f1,
     existing = pre ++ [f2; f1] /\
     earlier f2 f1 /\ Forall (fun f => earlier f f2) pre /\
     let w1 := (recheck E (day_files, w) f1).2 in
     let w2 := (recheck E (day_files, w1) f2).2 in
     check_latest_files E day_files w = (day_files, w2) /\
     download_day E year month day true w
     = fetch_files E (iso_date year month day) day_files 0 [] w2 /\
     transfers w2 = transfers w /\
     EvRequest HEAD f1.1.2 ∈ trace w2 /\
     EvRequest HEAD f2.1.2 ∈ trace w2 /\
     ((check_file_integrity E f1.1.2 f1.2 w).1 = false ->
      remove_denied E f1.2 = false -> files w2 !! f1.2 = None) /\
     ((check_file_integrity E f2.1.2 f2.2 w1).1 = false ->
      remove_denied E f2.2 = false -> files w2 !! f2.2 = None)).
Proof.
  cbv zeta.
  destruct (check_latest_files_steps E year month day w) as [Hfew Hmany].
  cbv zeta in Hfew, Hmany. split; [done|].
  intros Hlen.
  destruct (Hmany Hlen)
    as (pre & f2 & f1 & Hex & Hlt & Hpre & Hrun & Hs1 & Hs2 & Hne
        & [c1 Hc1] & [c2 Hc2] & Hi1 & Hi2).
  exists pre, f2, f1. split; [done|]. split; [done|]. split; [done|].
  rewrite Hs1 in Hs2, Hrun.
  set (w1 := (recheck E (build_day_files year month day, w) f1).2) in *.
  set (w2 := (recheck E (build_day_files year month day, w1) f2).2) in *.
  rewrite Hs2 in Hrun.
  destruct (recheck_spec E _ w f1 c1 Hi1 Hc1)
    as (_ & Ht1 & Hhead1 & _ & Hfiles1 & _ & Hdel1).
  destruct (recheck_spec E _ w1 f2 c2 Hi2 Hc2)
    as (_ & Ht2 & Hhead2 & Hkeep2 & Hfiles2 & _ & Hdel2).
  fold w1 in Ht1, Hhead1, Hfiles1, Hdel1.
  fold w2 in Ht2, Hhead2, Hkeep2, Hfiles2, Hdel2.
  split; [done|]. split; [unfold download_day; by rewrite Hrun|].
  split; [congruence|]. split; [by apply Hkeep2|]. split; [done|]. split.
  - intros Hv Hden.
    assert (files w1 !! f1.2 = None) as Hgone
      by (rewrite (Hdel1 Hv Hden); apply lookup_delete_eq).
    destruct Hfiles2 as [-> | ->]; [done|]. by rewrite lookup_delete_ne.
  - intros Hv Hden. rewrite (Hdel2 Hv Hden). apply lookup_delete_eq.
Qed.

Lemma last_two_inv {A} (a b f2 f1 : A) pre :
  [a; b] = pre ++ [f2; f1] -> pre = [] /\ f2 = a /\ f1 = b.
Proof.
  intros H. apply (app_inj_2 [] pre) in H as [<- H]; [|done].
  by injection H as -> ->.
Qed.

Lemma check_latest_two_witness :
  check_latest_files Sample.steady (build_day_files 1998 1 1) Sample.one_stale
  = (build_day_files 1998 1 1, Sample.one_stale) /\
  files (check_latest_files Sample.steady (build_day_files 1998 1 1)
           Sample.two_files).2 !! local_file_path 1998 1 1 7 = None.
Proof.
  split.
  - destruct (check_latest_two Sample.steady 1998 1 1 Sample.one_stale)
      as [H _].
    apply H. vm_compute. lia.
  - destruct (check_latest_two Sample.steady 1998 1 1 Sample.two_files)
      as [_ H].
    destruct H as (pre & f2 & f1 & Hex & _ & _ & -> & _ & _ & _ & _ & H1 & _).
    { vm_compute. lia. }
    assert (Hfiles : existing_files (build_day_files 1998 1 1) Sample.two_files
      = [(5, file_url 1998 1 1 5, local_file_path 1998 1 1 5);
         (7, file_url 1998 1 1 7, local_file_path 1998 1 1 7)])
      by (vm_compute; reflexivity).
    rewrite Hfiles in Hex. apply last_two_inv in Hex as (-> & -> & ->).
    apply H1; by vm_compute.
Defined.

(** C4, as stated, fails: with a single file of the day on disk, stale as it
    may be, the re-check of the latest files does not look at it. *)
Lemma latest_always_rechecked_counterexample : ~ latest_always_rechecked.
Proof.
  intros Hclaim.
  specialize (Hclaim Sample.steady 1998 1 1 Sample.one_stale
    (5, file_url 1998 1 1 5, local_file_path 1998 1 1 5)).
  cbn [fst snd] in Hclaim.
  assert (Hgone : files (check_latest_files Sample.steady
                    (build_day_files 1998 1 1) Sample.one_stale).2
                  !! local_file_path 1998 1 1 5 = None).
  { apply Hclaim.
    - by intros t t' m url.
    - done.
    - vm_compute. apply list_elem_of_here.
    - by vm_compute. }
  vm_compute in Hgone. discriminate.
Qed.

Lemma sublist_Forall_keep {A} (P : A -> Prop) (l k : list A) :
  l `sublist_of` k -> Forall P k -> Forall P l.
Proof.
  induction 1 as [|x l k _ IH|x l k _ IH]; intros Hk; [done|..];
    apply Forall_cons in Hk as [Hx Hk]; [constructor|]; auto.
Qed.

Lemma sublist_StronglySorted {A} (R : relation A) (l k : list A) :
  l `sublist_of` k -> StronglySorted R k -> StronglySorted R l.
Proof.
  induction 1 as [|x l k Hsub IH|x l k _ IH]; intros Hk; [done|..];
    apply StronglySorted_inv in Hk as [Hk Hx]; [|by auto].
  constructor; [by auto|]. by eapply sublist_Forall_keep.
Qed.

(** The fetch pass gives every listed file one outcome, in list order. *)
Lemma fetch_files_accounts E date day_files n failed w :
  exists n' extra w',
    fetch_files E date day_files n failed w = Some (n', failed ++ extra, w') /\
    n' + Z.of_nat (length extra) = n + Z.of_nat (length day_files) /\
    n <= n' /\
    f_hour <$> extra `sublist_of` (fun f : slot => f.1.1) <$> day_files.
Proof.
  revert n failed w.
  induction day_files as [|[[hour url] path] rest IH]; intros n failed w; cbn.
  - exists n, [], w. rewrite app_nil_r. repeat split; [lia|done].
  - destruct (download_file_returns E url path 3 true w) as [[r w1] ->].
    destruct (Py.truthy r).
    + destruct (IH (n + 1) failed w1) as (n' & extra & w' & -> & Hn & Hle & Hs).
      exists n', extra, w'. repeat split; [lia|lia|by apply sublist_cons].
    + destruct (IH n (failed ++ [{| f_date := date; f_hour := hour;
                  f_url := url; f_local_path := path |}]) w1)
        as (n' & extra & w' & -> & Hn & Hle & Hs).
      eexists n', (_ :: extra), w'. rewrite <- app_assoc.
      repeat split; [cbn [length]; lia|lia|by apply sublist_skip].
Qed.

Lemma check_latest_files_day_files E year month day w :
  (check_latest_files E (build_day_files year month day) w).1
  = build_day_files year month day.
Proof.
  destruct (check_latest_files_steps E year month day w) as [Hfew Hmany].
  cbv zeta in Hfew, Hmany.
  destruct (Nat.lt_ge_cases
    (length (existing_files (build_day_files year month day) w)) 2) as [H|H].
  - by rewrite Hfew.
  - destruct (Hmany H) as (pre & f2 & f1 & _ & _ & _ & -> & _ & -> & _). done.
Qed.

(** C9.  [download_day] returns, for every day, server and disk, a pair
    [(success_count, failed_files)] with
    [success_count + len(failed_files) = 24]: each of the 24 hour slots is
    counted once, as a success or as one failure record; the failure
    records carry hours of the day in strictly ascending order. *)
Theorem download_day_accounts E year month day check_latest w :
  exists success_count failed_files w',
    download_day E year month day check_latest w
    = Some (success_count, failed_files, w') /\
    success_count + Z.of_nat (length failed_files) = 24 /\
    0 <= success_count /\
    StronglySorted Z.lt (f_hour <$> failed_files) /\
    Forall (fun f => 0 <= f_hour f < 24) failed_files.
Proof.
  unfold download_day.
  assert (exists w1,
    (if check_latest
     then check_latest_files E (build_day_files year month day) w
     else (build_day_files year month day, w))
    = (build_day_files year month day, w1)) as [w1 ->].
  { destruct check_latest; [|by eauto].
    pose proof (check_latest_files_day_files E year month day w) as H.
    destruct (check_latest_files _ _ _) as [d w1]. cbn in H. subst d.
    by eauto. }
  destruct (fetch_files_accounts E (iso_date year month day)
              (build_day_files year month day) 0 [] w1)
    as (n & extra & w' & -> & Hn & Hle & Hs).
  exists n, extra, w'. split; [done|].
  assert (Hhours : (fun f : slot => f.1.1) <$> build_day_files year month day
                   = range 24).
  { unfold build_day_files. rewrite <- list_fmap_compose.
    by rewrite <- (list_fmap_id (range 24)) at 2. }
  rewrite Hhours in Hs.
  assert (Hlen : length (build_day_files year month day) = 24%nat)
    by (unfold build_day_files, range; by rewrite !length_fmap, length_seq).
  rewrite Hlen in Hn. split; [lia|]. split; [done|]. split.
  - eapply sublist_StronglySorted; [done|].
    unfold range. apply (StronglySorted_fmap _ lt Z.lt); [intros; lia|].
    cbn. repeat (constructor; [|by repeat (constructor; [lia|])]). constructor.
  - assert (Forall (fun h => 0 <= h < 24) (f_hour <$> extra)) as Hall.
    { eapply sublist_Forall_keep; [done|].
      unfold range. apply Forall_fmap, Forall_forall.
      intros i Hi%elem_of_seq. cbn. lia. }
    by apply Forall_fmap in Hall.
Qed.

(** ** Completeness Scanner *)

Lemma only_metadata_refl w : only_metadata w w.
Proof. split; [done|]. by exists []. Qed.

Lemma only_metadata_trans w1 w2 w3 :
  only_metadata w1 w2 -> only_metadata w2 w3 -> only_metadata w1 w3.
Proof.
  intros [Hf1 (n1 & Ht1 & Hn1)] [Hf2 (n2 & Ht2 & Hn2)].
  split; [congruence|]. exists (n2 ++ n1).
  rewrite Ht2, Ht1, app_assoc, forallb_app, Hn1, Hn2. done.
Qed.

Lemma check_file_integrity_only_metadata E url path w :
  only_metadata w (check_file_integrity E url path w).2.
Proof.
  rewrite check_file_integrity_world.
  destruct (os_path_exists path w); [|apply only_metadata_refl].
  split; [done|]. by exists [EvRequest HEAD url].
Qed.

(** On a stable server the verdict depends on the files only. *)
Lemma check_file_integrity_stable E url path w w0 :
  stable E -> files w = files w0 ->
  (check_file_integrity E url path w).1
  = (check_file_integrity E url path w0).1.
Proof.
  intros HE Hf. unfold check_file_integrity, get_remote_file_size, send.
  rewrite Hf, (HE (clock w) (clock w0)).
  repeat (case_match; simplify_eq/=; try done).
Qed.

Lemma days_empty start_date end_date :
  end_date < start_date -> days start_date end_date = [].
Proof.
  intros H. unfold days.
  by replace (Z.to_nat (end_date - start_date + 1)) with O by lia.
Qed.

Lemma days_cons start_date end_date :
  start_date <= end_date ->
  days start_date end_date = start_date :: days (start_date + 1) end_date.
Proof.
  intros H. unfold days.
  replace (Z.to_nat (end_date - start_date + 1))
    with (S (Z.to_nat (end_date - (start_date + 1) + 1))) by lia.
  cbn [seq]. rewrite fmap_cons, <- fmap_S_seq, <- list_fmap_compose.
  f_equal; [lia|]. apply list_fmap_ext. intros _ i _. cbn. lia.
Qed.

Lemma filter_cons_if {A} (p : A -> bool) x l :
  List.filter p (x :: l)
  = if p x then x :: List.filter p l else List.filter p l.
Proof. done. Qed.

Lemma reached_from_cons t w f slots :
  reached_from t w (f :: slots)
  = (at_clock t w, f)
    :: reached_from (if os_path_exists f.2 w then S t else t) w slots.
Proof.
  unfold reached_from. rewrite imap_cons. f_equal.
  - unfold present_before. rewrite take_0. cbn. by rewrite Nat.add_0_r.
  - apply imap_ext. intros k g _. unfold compose, present_before.
    cbn [take]. rewrite filter_cons_if.
    destruct (os_path_exists f.2 w); cbn [length]; do 2 f_equal; lia.
Qed.

Lemma reached_from_app t w l1 l2 :
  reached_from t w (l1 ++ l2)
  = reached_from t w l1
    ++ reached_from
         (t + length (List.filter (fun f => os_path_exists f.2 w) l1)) w l2.
Proof.
  revert t. induction l1 as [|f l1 IH]; intros t.
  - cbn. by rewrite Nat.add_0_r.
  - cbn [app]. rewrite !reached_from_cons, IH, filter_cons_if. cbn [app].
    do 2 f_equal.
    destruct (os_path_exists f.2 w); cbn [length]; f_equal; lia.
Qed.

(** The verdict depends on the files and the clock only. *)
Lemma check_file_integrity_at E url path w w0 :
  files w = files w0 ->
  (check_file_integrity E url path w).1
  = (check_file_integrity E url path (at_clock (clock w) w0)).1.
Proof.
  intros Hf. unfold check_file_integrity, get_remote_file_size, send.
  cbn. rewrite Hf.
  repeat (case_match; simplify_eq/=; try done).
Qed.

Lemma check_file_integrity_clock E url path w :
  clock (check_file_integrity E url path w).2
  = if os_path_exists path w then S (clock w) else clock w.
Proof.
  rewrite check_file_integrity_world. by destruct (os_path_exists path w).
Qed.

Lemma scan_hour_at E year month day w0 acc w hour :
  only_metadata w0 w ->
  let f := (hour, file_url year month day hour,
            local_file_path year month day hour) in
  exists w',
    scan_hour E true year month day (acc, w) hour
    = (acc ++ option_list (expected_entry E (at_clock (clock w) w0) f), w') /\
    only_metadata w0 w' /\
    clock w' = if os_path_exists f.2 w0 then S (clock w) else clock w.
Proof.
  intros Hw. cbv zeta.
  unfold scan_hour, expected_entry, is_missing, is_invalid.
  cbn [fst snd]. destruct Hw as [Hf Hnew].
  change (os_path_exists (local_file_path year month day hour)
            (at_clock (clock w) w0))
    with (os_path_exists (local_file_path year month day hour) w0).
  assert (Hex : os_path_exists (local_file_path year month day hour) w
                = os_path_exists (local_file_path year month day hour) w0).
  { unfold os_path_exists. by rewrite Hf. }
  rewrite Hex.
  destruct (os_path_exists (local_file_path year month day hour) w0) eqn:He;
    cbn.
  - pose proof (check_file_integrity_at E (file_url year month day hour)
                  (local_file_path year month day hour) w w0 Hf) as Hv.
    pose proof (check_file_integrity_only_metadata E
                  (file_url year month day hour)
                  (local_file_path year month day hour) w) as Hm.
    pose proof (check_file_integrity_clock E
                  (file_url year month day hour)
                  (local_file_path year month day hour) w) as Hc.
    rewrite Hex in Hc.
    destruct (check_file_integrity E _ _ w) as [valid w1].
    cbn [fst snd] in Hv, Hm, Hc. rewrite <- Hv.
    assert (only_metadata w0 w1)
      by (eapply only_metadata_trans; [|exact Hm]; by split).
    destruct valid; cbn; eexists; (split; [|by split]); [|done].
    by rewrite app_nil_r.
  - eexists; split; [done|]. by split.
Qed.

Lemma scan_hours_at E year month day w0 hours acc w :
  only_metadata w0 w ->
  let slots := (fun hour => (hour, file_url year month day hour,
                             local_file_path year month day hour))
               <$> hours in
  exists w',
    foldl (scan_hour E true year month day) (acc, w) hours
    = (acc ++ omap (fun wf : world * slot => expected_entry E wf.1 wf.2)
                (reached_from (clock w) w0 slots), w') /\
    only_metadata w0 w' /\
    clock w'
    = (clock w
       + length (List.filter (fun f : slot => os_path_exists f.2 w0) slots))%nat.
Proof.
  cbv zeta. revert acc w.
  induction hours as [|hour hours IH]; intros acc w Hw; cbn [foldl].
  - exists w. cbn. rewrite app_nil_r. split; [done|]. split; [done|lia].
  - destruct (scan_hour_at E year month day w0 acc w hour Hw)
      as (w1 & -> & Hw1 & Hc1). cbv zeta in Hc1. cbn [snd] in Hc1.
    destruct (IH (acc ++ option_list (expected_entry E (at_clock (clock w) w0)
                (hour, file_url year month day hour,
                 local_file_path year month day hour))) w1 Hw1)
      as (w' & -> & Hw' & Hc').
    exists w'. rewrite fmap_cons, reached_from_cons, filter_cons_if.
    cbn [snd omap list_omap fst]. rewrite Hc1.
    split; [|split; [done|]].
    + f_equal. rewrite <- app_assoc. f_equal.
      by destruct (expected_entry E (at_clock (clock w) w0) _).
    + rewrite Hc', Hc1.
      destruct (os_path_exists _ w0); cbn [length]; lia.
Qed.

Lemma scan_days_at fuel E end_date current_date missing_data w0 w :
  end_date < Date.MAXORDINAL -> only_metadata w0 w ->
  (Z.to_nat (end_date - current_date + 1) <= fuel)%nat ->
  exists report w',
    scan_days fuel E true end_date current_date missing_data w
    = Some (Returns (missing_data ++ report), w') /\
    only_metadata w0 w' /\
    mjoin (dr_missing_hours <$> report)
    = omap (fun wf : world * slot => expected_entry E wf.1 wf.2)
        (reached_from (clock w) w0 (range_slots current_date end_date)).
Proof.
  intros Hmax. revert current_date missing_data w.
  assert (Hdone : forall current_date (missing_data : list day_report) w,
    only_metadata w0 w -> end_date < current_date ->
    exists report w',
      Some (Returns missing_data, w)
      = Some (Returns (missing_data ++ report), w') /\
      only_metadata w0 w' /\
      mjoin (dr_missing_hours <$> report)
      = omap (fun wf : world * slot => expected_entry E wf.1 wf.2)
          (reached_from (clock w) w0 (range_slots current_date end_date))).
  { intros current_date missing_data w Hw Hgt. exists [], w.
    rewrite app_nil_r. unfold range_slots. rewrite days_empty by lia.
    by split. }
  induction fuel as [|fuel IH]; intros current_date missing_data w Hw Hfuel;
    cbn [scan_days];
    destruct (Z.leb_spec current_date end_date) as [Hle|Hgt]; cbn [negb];
    [lia|by apply Hdone| |by apply Hdone].
  cbv zeta.
  destruct (scan_hours_at E (Date.year current_date)
              (Date.month current_date) (Date.day current_date) w0
              (range 24) [] w Hw) as (w1 & -> & Hw1 & Hc1).
  cbn [app]. unfold Date.add_day.
  destruct (Z.ltb_spec current_date Date.MAXORDINAL); [|lia].
  set (found := omap _ (reached_from (clock w) w0 _)).
  set (missing_data' := match found with [] => missing_data | _ => _ end).
  destruct (IH (current_date + 1) missing_data' w1 Hw1)
    as (report & w' & -> & Hw' & Hrep); [lia|].
  assert (Hslots :
    omap (fun wf : world * slot => expected_entry E wf.1 wf.2)
      (reached_from (clock w) w0 (range_slots current_date end_date))
    = found ++ omap (fun wf : world * slot => expected_entry E wf.1 wf.2)
                 (reached_from (clock w1) w0
                    (range_slots (current_date + 1) end_date))).
  { unfold range_slots. rewrite (days_cons current_date) by done.
    cbn [mbind list_bind]. rewrite reached_from_app, omap_app, Hc1. done. }
  rewrite Hslots, <- Hrep. subst missing_data'.
  destruct found as [|e found].
  - exists report, w'. by split.
  - eexists (_ :: report), w'. rewrite <- app_assoc. by split.
Qed.

Lemma reached_entries_count E w t slots :
  let entries := omap (fun wf : world * slot => expected_entry E wf.1 wf.2)
                   (reached_from t w slots) in
  let N := length (List.filter (is_missing w) slots) in
  let M := length (List.filter
                     (fun wf : world * slot => is_invalid E wf.1 wf.2)
                     (reached_from t w slots)) in
  length entries = (N + M)%nat /\
  tagged "missing" entries = N /\ tagged "invalid_size" entries = M.
Proof.
  cbv zeta. unfold tagged. revert t.
  induction slots as [|f slots IH]; intros t; [done|].
  rewrite reached_from_cons, !filter_cons_if. cbn [omap list_omap fst snd].
  destruct (IH (if os_path_exists f.2 w then S t else t)) as (IH1 & IH2 & IH3).
  unfold expected_entry, is_invalid, is_missing in *.
  change (os_path_exists f.2 (at_clock t w)) with (os_path_exists f.2 w).
  destruct (os_path_exists f.2 w); cbn [negb andb];
    [destruct (check_file_integrity E f.1.2 f.2 (at_clock t w)).1;
       cbn [negb]|];
    cbn in *; lia.
Qed.

(** C6 (amended).  For a range that ends before [datetime.max],
    [check_data_completeness] with [verify_size] on returns a report whose
    entries, read in order, are exactly the slots of the range that are
    absent (tagged [missing]) or present but failing the integrity check made
    when the scan reaches them (tagged [invalid_size]); present slots that
    pass it, because the lengths agree or because the metadata request
    failed, are left out.  With [N] absent slots and [M] present slots
    failing that check there are [N] entries tagged [missing], [M] tagged
    [invalid_size] and [N + M] in all.  The scan leaves the files as they
    are and does nothing but send metadata requests. *)
Theorem check_data_completeness_report E start_date end_date w :
  end_date < Date.MAXORDINAL ->
  let slots := range_slots start_date end_date in
  let N := length (List.filter (is_missing w) slots) in
  let M := length (List.filter
                     (fun wf : world * slot => is_invalid E wf.1 wf.2)
                     (reached w slots)) in
  exists report w',
    check_data_completeness E start_date end_date true w
    = Some (Returns report, w') /\
    let entries := mjoin (dr_missing_hours <$> report) in
    entries = omap (fun wf : world * slot => expected_entry E wf.1 wf.2)
                (reached w slots) /\
    length entries = (N + M)%nat /\
    tagged "missing" entries = N /\
    tagged "invalid_size" entries = M /\
    only_metadata w w'.
Proof.
  intros Hmax. cbv zeta. unfold check_data_completeness, reached.
  destruct (scan_days_at (Z.to_nat (end_date - start_date + 1)) E end_date
              start_date [] w w Hmax (only_metadata_refl w))
    as (report & w' & Hrun & Hw' & Hrep); [done|].
  exists report, w'. split; [done|]. split; [done|].
  rewrite Hrep.
  destruct (reached_entries_count E w (clock w)
              (range_slots start_date end_date)) as (H1 & H2 & H3).
  split; [done|]. split; [done|]. by split.
Qed.

Lemma check_data_completeness_report_witness :
  exists report w',
    check_data_completeness Sample.blinking (Date.ymd2ord 1998 1 1)
      (Date.ymd2ord 1998 1 2) true Sample.three_files
    = Some (Returns report, w') /\
    length (mjoin (dr_missing_hours <$> report)) = 46%nat /\
    tagged "missing" (mjoin (dr_missing_hours <$> report)) = 45%nat /\
    tagged "invalid_size" (mjoin (dr_missing_hours <$> report)) = 1%nat /\
    files w' = files Sample.three_files.
Proof.
  destruct (check_data_completeness_report Sample.blinking
              (Date.ymd2ord 1998 1 1) (Date.ymd2ord 1998 1 2)
              Sample.three_files)
    as (report & w' & Hrun & _ & Hlen & Hmiss & Hinv & Hfiles & _).
  - by vm_compute.
  - exists report, w'. split; [exact Hrun|].
    assert (HN : length (List.filter (is_missing Sample.three_files)
                   (range_slots (Date.ymd2ord 1998 1 1) (Date.ymd2ord 1998 1 2)))
                 = 45%nat) by (vm_compute; reflexivity).
    assert (HM : length (List.filter
                   (fun wf : world * slot =>
                      is_invalid Sample.blinking wf.1 wf.2)
                   (reached Sample.three_files
                      (range_slots (Date.ymd2ord 1998 1 1)
                         (Date.ymd2ord 1998 1 2))))
                 = 1%nat) by (vm_compute; reflexivity).
    rewrite HN, HM in Hlen. rewrite HN in Hmiss. rewrite HM in Hinv.
    split; [exact Hlen|]. split; [exact Hmiss|]. split; [exact Hinv|].
    exact Hfiles.
Defined.

Lemma blinking_length url : remote_length Sample.blinking url 3.
Proof.
  intros t resp Hr Hs. cbn in Hr.
  destruct (t =? 1)%nat; [done|]. by injection Hr as <-.
Qed.

(** C6, as stated, fails: the server holds three bytes at every URL, hours 5
    and 7 of the day are on disk, hour 7 with five bytes, and the metadata
    request for hour 7 times out; the report has the 22 absent hours and not
    hour 7. *)
Lemma scan_counts_size_mismatches_counterexample :
  ~ scan_counts_size_mismatches.
Proof.
  intros Hclaim.
  assert (Hres : exists report w',
    check_data_completeness Sample.blinking (Date.ymd2ord 1998 1 1)
      (Date.ymd2ord 1998 1 1) true Sample.two_files
    = Some (Returns report, w') /\
    length (mjoin (dr_missing_hours <$> report)) = 22%nat).
  { destruct (check_data_completeness Sample.blinking (Date.ymd2ord 1998 1 1)
                (Date.ymd2ord 1998 1 1) true Sample.two_files)
      as [[[report|] w']|] eqn:Hrun;
      [|vm_compute in Hrun; discriminate Hrun..].
    exists report, w'. split; [done|].
    assert (Hlen : (fun r => match r with
                             | Some (Returns report, _) =>
                                 length (mjoin (dr_missing_hours <$> report))
                             | _ => O
                             end)
                     (check_data_completeness Sample.blinking
                        (Date.ymd2ord 1998 1 1) (Date.ymd2ord 1998 1 1) true
                        Sample.two_files) = 22%nat)
      by (vm_compute; reflexivity).
    by rewrite Hrun in Hlen. }
  destruct Hres as (report & w' & Hrun & Hlen).
  specialize (Hclaim Sample.blinking (fun _ => 3) _ _ _ _ _
                blinking_length Hrun).
  cbv zeta in Hclaim. rewrite Hlen in Hclaim.
  vm_compute in Hclaim. discriminate Hclaim.
Qed.

(** The range may not end on [datetime.max]: stepping past it raises
    [OverflowError] out of the scan. *)
Remark scan_up_to_datetime_max_raises :
  exists w',
    check_data_completeness Sample.steady Date.MAXORDINAL Date.MAXORDINAL true
      (Sample.disk []) = Some (Raises, w').
Proof. eexists. vm_compute. reflexivity. Qed.

(** ** Failure Reporter *)

(** C7.  [save_failed_downloads] opens the report file for writing exactly
    when the failure list is not empty, and then (unless [open] raises) the
    file holds the JSON text of the list.  With an empty list nothing is
    written and, unless [os.remove] raises, the call returns with no report
    file on disk, whether or not one was there before. *)
Theorem save_failed_downloads_report E failed_files w :
  let r := save_failed_downloads E failed_files w in
  (exists new,
     trace r.2 = new ++ trace w /\
     (EvOpen FAILED_DOWNLOADS_FILE ∈ new <-> failed_files <> [])) /\
  (failed_files <> [] -> open_denied E FAILED_DOWNLOADS_FILE = false ->
   r.1 = Returns tt /\
   files r.2
   = <[FAILED_DOWNLOADS_FILE :=
         list_byte_of_string (Json.dumps failed_files)]> (files w)) /\
  (failed_files = [] -> remove_denied E FAILED_DOWNLOADS_FILE = false ->
   r.1 = Returns tt /\
   files r.2 !! FAILED_DOWNLOADS_FILE = None /\
   files r.2 = delete FAILED_DOWNLOADS_FILE (files w)).
Proof.
  cbv zeta. unfold save_failed_downloads.
  destruct failed_files as [|f failed_files].
  - unfold os_remove, os_path_exists.
    destruct (files w !! FAILED_DOWNLOADS_FILE) as [old|] eqn:Hold.
    + rewrite bool_decide_eq_true_2 by eauto. cbn [andb].
      split; [|split; [done|]].
      * exists [EvRemove FAILED_DOWNLOADS_FILE].
        split; [by destruct (remove_denied E _)|].
        split; [|done]. intros [=]%list_elem_of_singleton.
      * intros _ ->. cbn. split; [done|]. split; [|done].
        apply lookup_delete_eq.
    + rewrite bool_decide_eq_false_2 by (by intros [? ?]).
      split; [|split; [done|]].
      * exists []. split; [done|]. split; [|done]. by intros ?%elem_of_nil.
      * intros _ _. cbn. split; [done|]. split; [done|].
        symmetry. by apply delete_id.
  - unfold write_text.
    split; [|split; [|done]].
    + exists [EvOpen FAILED_DOWNLOADS_FILE].
      split; [by destruct (open_denied E _)|].
      split; [done|]. intros _. apply list_elem_of_here.
    + intros _ ->. by cbn.
Qed.

Lemma save_failed_downloads_report_witness :
  files (save_failed_downloads Sample.steady []
           (Sample.disk [(FAILED_DOWNLOADS_FILE, Sample.blob 9)])).2
    !! FAILED_DOWNLOADS_FILE = None /\
  files (save_failed_downloads Sample.steady
           [{| f_date := "1998-01-01"; f_hour := 5; f_url := "u";
               f_local_path := "p" |}] (Sample.disk [])).2
  = <[FAILED_DOWNLOADS_FILE :=
        list_byte_of_string
          (Json.dumps [{| f_date := "1998-01-01"; f_hour := 5; f_url := "u";
                          f_local_path := "p" |}])]> (files (Sample.disk [])).
Proof.
  split.
  - destruct (save_failed_downloads_report Sample.steady []
                (Sample.disk [(FAILED_DOWNLOADS_FILE, Sample.blob 9)]))
      as (_ & _ & H).
    destruct (H eq_refl eq_refl) as (_ & Hgone & _). exact Hgone.
  - destruct (save_failed_downloads_report Sample.steady
                [{| f_date := "1998-01-01"; f_hour := 5; f_url := "u";
                    f_local_path := "p" |}] (Sample.disk []))
      as (_ & H & _).
    destruct (H ltac:(discriminate) eq_refl) as (_ & Hfile). exact Hfile.
Defined.

Lemma download_loop_unfold fuel E url path max_retries check_size retries w :
  download_loop (S fuel) E url path max_retries check_size retries w =
  if negb (retries <? max_retries) then Some (Py.RetNone, w)
  else
    match attempt E url path check_size w with
    | (NotFound, w1) => Some (Py.Ret false, w1)
    | (Fault, w1) =>
        if retries + 1 <? max_retries
        then download_loop fuel E url path max_retries check_size
               (retries + 1) (time_sleep 5 10 w1)
        else Some (Py.Ret false, w1)
    | (Mismatch, w1) =>
        if retries <? max_retries - 1
        then download_loop fuel E url path max_retries check_size
               (retries + 1) w1
        else Some (Py.Ret false, w1)
    | (Fetched, w1) => Some (Py.Ret true, time_sleep 3 8 w1)
    end.
Proof.
  cbn [download_loop]. unfold attempt.
  destruct (negb (retries <? max_retries)); [done|].
  destruct (send E GET url w) as [[resp|] w1]; [|done].
  destruct (status_code resp =? 404); [done|].
  destruct (raises_for_status resp); [done|].
  destruct (save_body E path resp w1) as [[[]|] w2]; [|done].
  destruct (if check_size then check_file_integrity E url path w2
            else (true, w2)) as [[] w3]; done.
Qed.

(** ** More on the Single-File Fetcher *)

Lemma foldl_write_chunk_lookup path chunks w p :
  files (foldl (write_chunk path) w chunks) !! p =
  if decide (p = path)
  then (fun c => c ++ mjoin chunks) <$> files w !! p
  else files w !! p.
Proof.
  revert w. induction chunks as [|chunk chunks IH]; intros w; cbn [foldl].
  - destruct (decide (p = path)); [|done]. cbn.
    destruct (files w !! p); [|done]. cbn. by rewrite app_nil_r.
  - rewrite IH. destruct (decide (p = path)) as [->|Hne].
    + destruct chunk as [|b chunk]; [done|]. cbn [write_chunk set_files files].
      rewrite lookup_alter. rewrite decide_True by done.
      destruct (files w !! path); [|done]. cbn. by rewrite <- app_assoc.
    + destruct chunk as [|b chunk]; [done|]. cbn [write_chunk set_files files].
      by rewrite lookup_alter_ne.
Qed.

(** What [save_body] leaves on disk: the chunks, end to end, at the path if
    the file could be opened, and every other file as it was. *)
Lemma save_body_lookup E path resp w p :
  files (save_body E path resp w).2 !! p =
  if decide (p = path)
  then if open_denied E path then files w !! p else Some (mjoin (body resp))
  else files w !! p.
Proof.
  unfold save_body. destruct (open_denied E path); cbn [snd].
  - by destruct (decide (p = path)).
  - rewrite foldl_write_chunk_lookup. cbn [set_files emit files].
    destruct (decide (p = path)) as [->|Hne].
    + by rewrite lookup_insert_eq.
    + by rewrite lookup_insert_ne.
Qed.

Lemma save_body_saved E path resp w :
  (save_body E path resp w).1 = Some tt ->
  open_denied E path = false /\ body_fault resp = false.
Proof.
  unfold save_body. destruct (open_denied E path); [done|]. cbn.
  by destruct (body_fault resp).
Qed.

Lemma attempt_transfers E url path check_size w :
  transfers (attempt E url path check_size w).2 = S (transfers w).
Proof.
  unfold attempt, send.
  destruct (request E (clock w) GET url) as [resp|]; [|done].
  destruct (status_code resp =? 404); [done|].
  destruct (raises_for_status resp); [done|].
  match goal with |- context [save_body E path resp ?w0] =>
    pose proof (save_body_frame E path resp w0) as [_ Htr];
    destruct (save_body E path resp w0) as [[[]|] w2] end;
    cbn in Htr; [|cbn [snd]; unfold transfers; by rewrite Htr].
  assert (transfers w2 = S (transfers w)) as H2
    by (unfold transfers; by rewrite Htr).
  destruct check_size; [|done].
  pose proof (check_file_integrity_frame E url path w2) as [_ Hc].
  destruct (check_file_integrity E url path w2) as [[] w3]; cbn in *; lia.
Qed.

(** One turn touches no file but the one it downloads to. *)
Lemma attempt_frame E url path check_size w p :
  p <> path ->
  files (attempt E url path check_size w).2 !! p = files w !! p.
Proof.
  intros Hne. unfold attempt, send.
  destruct (request E (clock w) GET url) as [resp|]; [|done].
  destruct (status_code resp =? 404); [done|].
  destruct (raises_for_status resp); [done|].
  match goal with |- context [save_body E path resp ?w0] =>
    pose proof (save_body_lookup E path resp w0 p) as Hs;
    destruct (save_body E path resp w0) as [[[]|] w2] end;
    rewrite decide_False in Hs by done; cbn in Hs; [|done].
  destruct check_size; [|done].
  pose proof (check_file_integrity_frame E url path w2) as [Hc _].
  destruct (check_file_integrity E url path w2) as [[] w3]; cbn in *;
    by rewrite Hc.
Qed.

(** After a turn whose transfer went through, checked or not, the file
    holds the body that was sent. *)
Lemma attempt_written E url path check_size w :
  (attempt E url path check_size w).1 = Fetched \/
  (attempt E url path check_size w).1 = Mismatch ->
  exists resp,
    request E (clock w) GET url = Some resp /\
    status_code resp <> 404 /\ raises_for_status resp = false /\
    body_fault resp = false /\ open_denied E path = false /\
    files (attempt E url path check_size w).2 !! path
    = Some (mjoin (body resp)).
Proof.
  unfold attempt, send.
  destruct (request E (clock w) GET url) as [resp|]; [|by intros [|]].
  destruct (Z.eqb_spec (status_code resp) 404); [by intros [|]|].
  destruct (raises_for_status resp) eqn:Hraise; [by intros [|]|].
  match goal with |- context [save_body E path resp ?w0] =>
    pose proof (save_body_lookup E path resp w0 path) as Hs;
    pose proof (save_body_saved E path resp w0) as Hok;
    destruct (save_body E path resp w0) as [[[]|] w2] end;
    [|by intros [|]].
  destruct (Hok eq_refl) as [Hopen Hfault]. cbn in Hs.
  rewrite decide_True, Hopen in Hs by done.
  intros _. exists resp. do 5 (split; [done|]).
  destruct check_size; [|done].
  pose proof (check_file_integrity_frame E url path w2) as [Hc _].
  destruct (check_file_integrity E url path w2) as [[] w3]; cbn in *;
    by rewrite Hc.
Qed.

Lemma download_loop_attempts fuel E url path max_retries check_size retries
    w r w' :
  download_loop fuel E url path max_retries check_size retries w
  = Some (r, w') ->
  (transfers w' <= transfers w + Z.to_nat (max_retries - retries))%nat.
Proof.
  revert retries w.
  induction fuel as [|fuel IH]; intros retries w.
  - cbn. destruct (retries <? max_retries); [done|].
    intros [= <- <-]. lia.
  - rewrite download_loop_unfold.
    destruct (Z.ltb_spec retries max_retries); cbn [negb];
      [|intros [= <- <-]; lia].
    pose proof (attempt_transfers E url path check_size w) as Ht.
    destruct (attempt E url path check_size w) as [[] w1]; cbn [snd] in Ht.
    + intros [= <- <-]. lia.
    + destruct (Z.ltb_spec (retries + 1) max_retries).
      * intros Hrun%IH. rewrite time_sleep_transfers in Hrun. lia.
      * intros [= <- <-]. lia.
    + destruct (Z.ltb_spec retries (max_retries - 1)).
      * intros Hrun%IH. lia.
      * intros [= <- <-]. lia.
    + intros [= <- <-]. rewrite time_sleep_transfers. lia.
Qed.

Lemma download_file_transfers E url path max_retries check_size w r w' :
  download_file E url path max_retries check_size w = Some (r, w') ->
  (transfers w <= transfers w' <= transfers w + Z.to_nat max_retries)%nat.
Proof.
  unfold download_file.
  assert (Hloop : forall w0, transfers w0 = transfers w ->
    download_loop (Z.to_nat max_retries) E url path max_retries check_size 0 w0
    = Some (r, w') ->
    (transfers w <= transfers w' <= transfers w + Z.to_nat max_retries)%nat).
  { intros w0 H0 Hrun. pose proof Hrun as Hup%download_loop_attempts.
    apply download_loop_transfers in Hrun as [Hlo _].
    rewrite Z.sub_0_r in Hup. lia. }
  destruct (os_path_exists path w); [|by apply Hloop].
  destruct check_size; [|intros [= <- <-]; lia].
  pose proof (check_file_integrity_frame E url path w) as [_ Hc].
  destruct (check_file_integrity E url path w) as [[] w1]; cbn [snd] in Hc.
  - intros [= <- <-]. lia.
  - unfold os_remove.
    destruct (os_path_exists path w1 && negb (remove_denied E path)).
    + by apply Hloop.
    + intros [= <- <-]. cbn. unfold transfers in *. cbn. lia.
Qed.

(** X1.  One call of [download_file] makes at most [max_retries] transfer
    attempts (none when [max_retries] is zero or negative), whatever it
    returns. *)
Theorem download_file_attempts_bounded E url path max_retries check_size
    w r w' :
  download_file E url path max_retries check_size w = Some (r, w') ->
  (transfers w <= transfers w' <= transfers w + Z.to_nat max_retries)%nat.
Proof. apply download_file_transfers. Qed.

Lemma download_file_attempts_bounded_witness :
  exists w',
    download_file Sample.overloaded "http://h/u" "d/p" 3 true (Sample.disk [])
    = Some (Py.Ret false, w') /\
    (transfers w' <= 3)%nat.
Proof.
  eexists. split; [vm_compute; reflexivity|].
  eapply (download_file_attempts_bounded Sample.overloaded "http://h/u" "d/p"
            3 true (Sample.disk []) (Py.Ret false)).
  vm_compute. reflexivity.
Defined.

Lemma download_loop_frame fuel E url path max_retries check_size retries
    w r w' p :
  p <> path ->
  download_loop fuel E url path max_retries check_size retries w
  = Some (r, w') ->
  files w' !! p = files w !! p.
Proof.
  intros Hne. revert retries w.
  induction fuel as [|fuel IH]; intros retries w.
  - cbn. destruct (retries <? max_retries); [done|]. by intros [= <- <-].
  - rewrite download_loop_unfold.
    destruct (retries <? max_retries); cbn [negb]; [|by intros [= <- <-]].
    pose proof (attempt_frame E url path check_size w p Hne) as Hf.
    destruct (attempt E url path check_size w) as [[] w1]; cbn [snd] in Hf.
    + by intros [= <- <-].
    + destruct (retries + 1 <? max_retries).
      * intros Hrun%IH. by rewrite Hrun.
      * by intros [= <- <-].
    + destruct (retries <? max_retries - 1).
      * intros Hrun%IH. by rewrite Hrun.
      * by intros [= <- <-].
    + by intros [= <- <-].
Qed.

Lemma download_file_other_files E url path max_retries check_size w r w' p :
  p <> path ->
  download_file E url path max_retries check_size w = Some (r, w') ->
  files w' !! p = files w !! p.
Proof.
  intros Hne. unfold download_file.
  destruct (os_path_exists path w); [|by apply download_loop_frame].
  destruct check_size; [|by intros [= <- <-]].
  pose proof (check_file_integrity_frame E url path w) as [Hc _].
  destruct (check_file_integrity E url path w) as [[] w1]; cbn [snd] in Hc.
  - intros [= <- <-]. by rewrite Hc.
  - unfold os_remove.
    destruct (os_path_exists path w1 && negb (remove_denied E path)).
    + intros Hrun%(download_loop_frame _ _ _ _ _ _ _ _ _ _ p Hne).
      rewrite Hrun. cbn. by rewrite lookup_delete_ne, Hc.
    + intros [= <- <-]. cbn. by rewrite Hc.
Qed.

(** X2.  [download_file] returns having left every file other than
    [local_path] as it was, whatever it returns. *)
Theorem download_file_frame E url path max_retries check_size w p :
  p <> path ->
  exists r w',
    download_file E url path max_retries check_size w = Some (r, w') /\
    files w' !! p = files w !! p.
Proof.
  intros Hne.
  destruct (download_file_returns E url path max_retries check_size w)
    as [[r w'] Hrun].
  exists r, w'. split; [done|]. by eapply download_file_other_files.
Qed.

Lemma download_file_frame_witness :
  exists r w',
    download_file Sample.steady "u" "p" 3 true
      (Sample.disk [("p", Sample.blob 5); ("q", Sample.blob 7)])
    = Some (r, w') /\
    files w' !! "q"
    = files (Sample.disk [("p", Sample.blob 5); ("q", Sample.blob 7)]) !! "q".
Proof.
  apply (download_file_frame Sample.steady "u" "p" 3 true
           (Sample.disk [("p", Sample.blob 5); ("q", Sample.blob 7)]) "q").
  discriminate.
Defined.

Lemma download_loop_true_exists fuel E url path max_retries check_size
    retries w w' :
  download_loop fuel E url path max_retries check_size retries w
  = Some (Py.Ret true, w') ->
  is_Some (files w' !! path).
Proof.
  revert retries w.
  induction fuel as [|fuel IH]; intros retries w.
  - cbn. by destruct (retries <? max_retries).
  - rewrite download_loop_unfold.
    destruct (retries <? max_retries); cbn [negb]; [|done].
    pose proof (attempt_written E url path check_size w) as Hw.
    destruct (attempt E url path check_size w) as [[] w1]; cbn [fst snd] in Hw.
    + done.
    + destruct (retries + 1 <? max_retries); [apply IH|done].
    + destruct (retries <? max_retries - 1); [apply IH|done].
    + intros [= <-]. destruct Hw as (resp & _ & _ & _ & _ & _ & Hf); eauto.
Qed.

Lemma download_file_true_file E url path max_retries check_size w w' :
  download_file E url path max_retries check_size w = Some (Py.Ret true, w') ->
  is_Some (files w' !! path).
Proof.
  unfold download_file, os_path_exists.
  destruct (files w !! path) as [content|] eqn:Hf.
  - rewrite bool_decide_eq_true_2 by eauto.
    destruct check_size; [|intros [= <-]; eauto].
    pose proof (check_file_integrity_frame E url path w) as [Hc _].
    destruct (check_file_integrity E url path w) as [[] w1]; cbn [snd] in Hc.
    + intros [= <-]. rewrite Hc, Hf. eauto.
    + destruct (os_remove E path w1) as [[[]|] w2]; [|done].
      apply download_loop_true_exists.
  - rewrite bool_decide_eq_false_2 by (by intros [? ?]).
    apply download_loop_true_exists.
Qed.

(** X3.  When [download_file] returns [True], with or without size
    verification, the local file exists afterwards. *)
Theorem download_file_true_exists E url path max_retries check_size w w' :
  download_file E url path max_retries check_size w = Some (Py.Ret true, w') ->
  is_Some (files w' !! path).
Proof. apply download_file_true_file. Qed.

Lemma download_file_true_exists_witness :
  exists w',
    download_file Sample.steady "u" "p" 3 false (Sample.disk [])
    = Some (Py.Ret true, w') /\
    is_Some (files w' !! "p").
Proof.
  eexists. split; [vm_compute; reflexivity|].
  apply (download_file_true_exists Sample.steady "u" "p" 3 false
           (Sample.disk [])).
  vm_compute. reflexivity.
Defined.

(** A turn whose transfer goes through and whose metadata answer is 200
    with a readable length: the file holds the body, and the turn ends
    [Fetched] or [Mismatch] by comparing the lengths. *)
Lemma attempt_checked E url path w resp meta n :
  request E (clock w) GET url = Some resp ->
  status_code resp <> 404 -> raises_for_status resp = false ->
  body_fault resp = false -> open_denied E path = false ->
  request E (S (clock w)) HEAD url = Some meta ->
  status_code meta = 200 -> reported_length meta = Some n -> n <> -1 ->
  exists w1,
    attempt E url path true w
    = (if n =? Z.of_nat (length (mjoin (body resp)))
       then Fetched else Mismatch, w1) /\
    files w1 !! path = Some (mjoin (body resp)) /\
    clock w1 = S (S (clock w)).
Proof.
  intros Hget H404 Hraise Hfault Hopen Hhead H200 Hn Hn1.
  unfold attempt. unfold send at 1. rewrite Hget.
  destruct (Z.eqb_spec (status_code resp) 404); [done|].
  rewrite Hraise.
  match goal with |- context [save_body E path resp ?w0] =>
    pose proof (save_body_lookup E path resp w0 path) as Hs;
    pose proof (save_body_frame E path resp w0) as [Hclock _];
    destruct (save_body E path resp w0) as [saved w2] eqn:Hsave end.
  assert (saved = Some tt) as ->.
  { unfold save_body in Hsave. rewrite Hopen, Hfault in Hsave.
    by injection Hsave as <- _. }
  cbn [snd] in Hs, Hclock. rewrite decide_True, Hopen in Hs by done.
  cbn [clock] in Hclock.
  pose proof (integrity_verdict_eq E url path w2 _ Hs) as Hv.
  pose proof (check_file_integrity_world E url path w2) as Hw2.
  unfold os_path_exists in Hw2. rewrite Hs in Hw2.
  rewrite bool_decide_eq_true_2 in Hw2 by eauto.
  cbv zeta in Hv.
  rewrite (get_remote_file_size_200 E url w2 meta) in Hv
    by (by rewrite ?Hclock).
  rewrite Hn in Hv. cbn [default] in Hv. unfold id in Hv.
  destruct (Z.eqb_spec n (-1)); [done|]. cbn [orb] in Hv.
  destruct (check_file_integrity E url path w2) as [valid w3].
  cbn [fst snd] in Hv, Hw2. subst valid w3.
  exists (send E HEAD url w2).2. split; [by destruct (n =? _)|].
  cbn. split; [done|]. by f_equal.
Qed.

(** X4.  A first download that goes through: with the local file absent,
    a transfer answered with a complete body and, if sizes are verified, a
    metadata answer reporting that body's length, [download_file] returns
    [True] after one transfer attempt, the file holds exactly the bytes
    sent, and the call ends on the short (3 to 8) sleep. *)
Theorem download_file_fresh E url path max_retries check_size w resp :
  files w !! path = None -> 0 < max_retries ->
  request E (clock w) GET url = Some resp ->
  status_code resp <> 404 -> raises_for_status resp = false ->
  body_fault resp = false -> open_denied E path = false ->
  (check_size = true ->
   exists meta,
     request E (S (clock w)) HEAD url = Some meta /\
     status_code meta = 200 /\
     reported_length meta = Some (Z.of_nat (length (mjoin (body resp))))) ->
  exists w',
    download_file E url path max_retries check_size w
    = Some (Py.Ret true, w') /\
    files w' !! path = Some (mjoin (body resp)) /\
    transfers w' = S (transfers w) /\
    head (trace w') = Some (EvSleep 3 8).
Proof.
  intros Hf Hmax Hget H404 Hraise Hfault Hopen Hmeta.
  unfold download_file, os_path_exists. rewrite Hf.
  rewrite bool_decide_eq_false_2 by (by intros [? ?]).
  destruct (Z.to_nat max_retries) as [|fuel] eqn:Hfuel; [lia|].
  rewrite download_loop_unfold.
  destruct (Z.ltb_spec 0 max_retries); [cbn [negb]|lia].
  pose proof (attempt_transfers E url path check_size w) as Ht.
  assert (exists w1, attempt E url path check_size w = (Fetched, w1) /\
            files w1 !! path = Some (mjoin (body resp))) as (w1 & Ha & Hw1).
  { destruct check_size.
    - destruct (Hmeta eq_refl) as (meta & Hhead & H200 & Hn).
      destruct (attempt_checked E url path w resp meta _ Hget H404 Hraise
                  Hfault Hopen Hhead H200 Hn) as (w1 & Ha & Hw1 & _); [lia|].
      rewrite Z.eqb_refl in Ha. eauto.
    - pose proof (attempt_written E url path false w) as Hw.
      unfold attempt, send in *. rewrite Hget in *.
      destruct (Z.eqb_spec (status_code resp) 404); [done|].
      rewrite Hraise in *.
      match goal with |- context [save_body E path resp ?w0] =>
        pose proof (save_body_saved E path resp w0) as _;
        destruct (save_body E path resp w0) as [saved w2] eqn:Hsave end.
      assert (saved = Some tt) as ->.
      { unfold save_body in Hsave. rewrite Hopen, Hfault in Hsave.
        by injection Hsave as <- _. }
      destruct (Hw (or_introl eq_refl)) as (resp' & [= <-] & _ & _ & _ & _ & Hw2).
      eauto. }
  rewrite Ha in Ht |- *. cbn [snd] in Ht.
  eexists. split; [done|]. by rewrite time_sleep_transfers.
Qed.

Lemma download_file_fresh_witness :
  exists w',
    download_file Sample.steady "u" "p" 3 true (Sample.disk [])
    = Some (Py.Ret true, w') /\
    files w' !! "p" = Some (Sample.blob 3) /\
    transfers w' = 1%nat.
Proof.
  destruct (download_file_fresh Sample.steady "u" "p" 3 true (Sample.disk [])
              (Sample.answer 200 (Some "3") [Sample.blob 2; []; Sample.blob 1]))
    as (w' & Hrun & Hfile & Htr & _);
    [reflexivity|lia|reflexivity|discriminate|reflexivity|reflexivity
    |reflexivity| |].
  - intros _. exists (Sample.answer 200 (Some "3") []). by repeat split.
  - exists w'. split; [exact Hrun|]. split; [exact Hfile|exact Htr].
Defined.




(** ** More on slot names *)

Lemma string_app_inj_length (a b c d : string) :
  String.length a = String.length c -> a +:+ b = c +:+ d -> a = c /\ b = d.
Proof.
  revert c. induction a as [|x a IH]; intros [|y c] Hlen Heq;
    try discriminate Hlen; [done|].
  change (String x (a +:+ b) = String y (c +:+ d)) in Heq.
  injection Heq as -> Heq. injection Hlen as Hlen.
  destruct (IH c Hlen Heq) as [-> ->]. done.
Qed.

Lemma is_field_inv width n s :
  is_field width n s = true -> String.length s = width /\ Py.int s = Some n.
Proof.
  unfold is_field. intros [[Hl _]%andb_true_iff Hi%bool_decide_eq_true]%andb_true_iff.
  by apply Nat.eqb_eq in Hl.
Qed.

(** Two fields of the same width that read as strings followed by equal
    rests are the same number. *)
Lemma field_cancel width n n' (s s' rest rest' : string) :
  is_field width n s = true -> is_field width n' s' = true ->
  s +:+ rest = s' +:+ rest' -> n = n' /\ rest = rest'.
Proof.
  intros [Hl Hi]%is_field_inv [Hl' Hi']%is_field_inv Heq.
  destruct (string_app_inj_length s rest s' rest') as [-> ->];
    [congruence|done|].
  split; [congruence|done].
Qed.

(** X6.  Within the ranges of the template's fields (year 0..9999, the
    others 0..99) no two slots share a local path, and none share a URL:
    equal names come from equal [(year, month, day, hour)]. *)
Theorem slot_names_injective year month day hour year' month' day' hour' :
  0 <= year <= 9999 -> 0 <= month <= 99 -> 0 <= day <= 99 ->
  0 <= hour <= 99 ->
  0 <= year' <= 9999 -> 0 <= month' <= 99 -> 0 <= day' <= 99 ->
  0 <= hour' <= 99 ->
  (local_file_path year month day hour
   = local_file_path year' month' day' hour' ->
   (year, month, day, hour) = (year', month', day', hour')) /\
  (file_url year month day hour = file_url year' month' day' hour' ->
   (year, month, day, hour) = (year', month', day', hour')).
Proof.
  intros Hy Hm Hd Hh Hy' Hm' Hd' Hh'.
  pose proof (format_0d_year year Hy) as FY.
  pose proof (format_0d_year year' Hy') as FY'.
  pose proof (format_0d_two month Hm) as FM.
  pose proof (format_0d_two month' Hm') as FM'.
  pose proof (format_0d_two day Hd) as FD.
  pose proof (format_0d_two day' Hd') as FD'.
  pose proof (format_0d_two hour Hh) as FH.
  pose proof (format_0d_two hour' Hh') as FH'.
  split.
  - unfold local_file_path, year_month_dir, Py.path_join, file_name, date_str.
    rewrite !string_app_assoc. intros Heq.
    do 2 apply (inj (String.append _)) in Heq.
    apply (field_cancel 4 year year') in Heq as [-> Heq]; [|done..].
    apply (inj (String.append _)) in Heq.
    apply (field_cancel 2 month month') in Heq as [-> Heq]; [|done..].
    do 2 apply (inj (String.append _)) in Heq.
    apply (field_cancel 4 year' year') in Heq as [_ Heq]; [|done..].
    apply (field_cancel 2 month' month') in Heq as [_ Heq]; [|done..].
    apply (field_cancel 2 day day') in Heq as [-> Heq]; [|done..].
    apply (field_cancel 2 hour hour') in Heq as [-> Heq]; [|done..].
    done.
  - unfold file_url, day_url, file_name, date_str.
    rewrite !string_app_assoc. intros Heq.
    do 2 apply (inj (String.append _)) in Heq.
    apply (field_cancel 4 year year') in Heq as [-> Heq]; [|done..].
    apply (inj (String.append _)) in Heq.
    apply (field_cancel 2 month month') in Heq as [-> Heq]; [|done..].
    apply (inj (String.append _)) in Heq.
    apply (field_cancel 2 day day') in Heq as [-> Heq]; [|done..].
    do 2 apply (inj (String.append _)) in Heq.
    apply (field_cancel 4 year' year') in Heq as [_ Heq]; [|done..].
    apply (field_cancel 2 month' month') in Heq as [_ Heq]; [|done..].
    apply (field_cancel 2 day' day') in Heq as [_ Heq]; [|done..].
    apply (field_cancel 2 hour hour') in Heq as [-> Heq]; [|done..].
    done.
Qed.

Lemma slot_names_injective_witness :
  local_file_path 1998 1 2 3 <> local_file_path 1998 1 3 2 /\
  file_url 1998 1 2 3 <> file_url 1998 11 2 3.
Proof.
  split.
  - intros Heq.
    destruct (slot_names_injective 1998 1 2 3 1998 1 3 2) as [H _];
      try lia.
    specialize (H Heq). discriminate H.
  - intros Heq.
    destruct (slot_names_injective 1998 1 2 3 1998 11 2 3) as [_ H];
      try lia.
    specialize (H Heq). discriminate H.
Defined.

(** ** More on the Day Planner *)

Lemma only_metadata_transfers w w' :
  only_metadata w w' -> transfers w' = transfers w.
Proof.
  intros [_ (new & Ht & Hnew)]. unfold transfers. rewrite Ht.
  rewrite List.filter_app, length_app.
  enough (List.filter is_transfer new = []) as -> by done.
  clear Ht. induction new as [|e new IH]; [done|].
  cbn in Hnew. apply andb_true_iff in Hnew as [He Hnew].
  cbn. destruct e as [[] ?| | |]; try done. by apply IH.
Qed.

(** An existing file that passes its check is skipped. *)
Lemma download_file_skip E url path max_retries w :
  (check_file_integrity E url path w).1 = true ->
  download_file E url path max_retries true w
  = Some (Py.Ret true, (check_file_integrity E url path w).2).
Proof.
  intros Hv. destruct (check_file_integrity_true _ _ _ _ Hv)
    as (content & Hf & _).
  unfold download_file, os_path_exists. rewrite Hf.
  rewrite bool_decide_eq_true_2 by eauto.
  by destruct (check_file_integrity E url path w) as [[] w1].
Qed.

Lemma recheck_valid E day_files w f :
  (check_file_integrity E f.1.2 f.2 w).1 = true ->
  recheck E (day_files, w) f
  = (day_files, (check_file_integrity E f.1.2 f.2 w).2).
Proof.
  destruct f as [[hour url] path]. cbn.
  by destruct (check_file_integrity E url path w) as [[] w1].
Qed.

Lemma check_latest_files_transfers E year month day w :
  transfers (check_latest_files E (build_day_files year month day) w).2
  = transfers w.
Proof.
  destruct (check_latest_files_steps E year month day w) as [Hfew Hmany].
  cbv zeta in Hfew, Hmany.
  destruct (Nat.lt_ge_cases
    (length (existing_files (build_day_files year month day) w)) 2) as [H|H].
  - by rewrite Hfew.
  - destruct (Hmany H) as (pre & f2 & f1 & _ & _ & _ & -> & Hs1 & _ & _
                           & [c1 Hc1] & [c2 Hc2] & Hi1 & Hi2).
    rewrite Hs1.
    destruct (recheck_spec E _ w f1 c1 Hi1 Hc1) as (_ & Ht1 & _).
    destruct (recheck_spec E _ _ f2 c2 Hi2 Hc2) as (_ & Ht2 & _).
    cbv zeta in Ht1, Ht2. congruence.
Qed.

Lemma check_latest_files_valid E year month day w :
  stable E ->
  (forall h, 0 <= h < 24 ->
     (check_file_integrity E (file_url year month day h)
        (local_file_path year month day h) w).1 = true) ->
  only_metadata w (check_latest_files E (build_day_files year month day) w).2.
Proof.
  intros HE Hvalid.
  destruct (check_latest_files_steps E year month day w) as [Hfew Hmany].
  cbv zeta in Hfew, Hmany.
  destruct (Nat.lt_ge_cases
    (length (existing_files (build_day_files year month day) w)) 2) as [H|H].
  - rewrite Hfew by done. apply only_metadata_refl.
  - destruct (Hmany H) as (pre & f2 & f1 & _ & _ & _ & -> & _ & _ & _
                           & _ & _ & Hi1 & Hi2).
    assert (Hv : forall f, build_day_files year month day !! Z.to_nat f.1.1
                           = Some f ->
                 (check_file_integrity E f.1.2 f.2 w).1 = true).
    { intros f Hf. apply list_elem_of_lookup_2, build_day_files_elem in Hf
        as (Hh & -> & _). cbn. by apply Hvalid. }
    rewrite (recheck_valid E _ w f1) by by apply Hv.
    pose proof (check_file_integrity_only_metadata E f1.1.2 f1.2 w) as Hm1.
    set (w1 := (check_file_integrity E f1.1.2 f1.2 w).2) in *.
    assert (Hv2 : (check_file_integrity E f2.1.2 f2.2 w1).1 = true).
    { rewrite (check_file_integrity_stable E _ _ w1 w HE); [by apply Hv|].
      by destruct Hm1. }
    rewrite (recheck_valid E _ w1 f2) by done. cbn [snd].
    eapply only_metadata_trans; [exact Hm1|].
    apply check_file_integrity_only_metadata.
Qed.

Lemma fetch_files_valid E date w0 day_files n failed w :
  stable E ->
  (forall f, f ∈ day_files ->
     (check_file_integrity E f.1.2 f.2 w0).1 = true) ->
  only_metadata w0 w ->
  exists w',
    fetch_files E date day_files n failed w
    = Some (n + Z.of_nat (length day_files), failed, w') /\
    only_metadata w0 w'.
Proof.
  intros HE. revert n w.
  induction day_files as [|[[hour url] path] rest IH]; intros n w Hvalid Hw.
  - exists w. cbn. by rewrite Z.add_0_r.
  - cbn [fetch_files].
    assert (Hv : (check_file_integrity E url path w).1 = true).
    { rewrite (check_file_integrity_stable E url path w w0 HE);
        [|by destruct Hw].
      apply (Hvalid (hour, url, path)), list_elem_of_here. }
    rewrite (download_file_skip E url path 3 w Hv). cbn [Py.truthy].
    destruct (IH (n + 1) (check_file_integrity E url path w).2)
      as (w' & -> & Hw').
    + intros f Hf. apply Hvalid. by apply list_elem_of_further.
    + eapply only_metadata_trans; [exact Hw|].
      apply check_file_integrity_only_metadata.
    + exists w'. split; [|done]. do 3 f_equal. cbn [length]. lia.
Qed.

Lemma download_day_valid E year month day check_latest w :
  stable E ->
  (forall h, 0 <= h < 24 ->
     (check_file_integrity E (file_url year month day h)
        (local_file_path year month day h) w).1 = true) ->
  exists w',
    download_day E year month day check_latest w = Some (24, [], w') /\
    only_metadata w w' /\ transfers w' = transfers w.
Proof.
  intros HE Hvalid. unfold download_day.
  assert (exists w1,
    (if check_latest
     then check_latest_files E (build_day_files year month day) w
     else (build_day_files year month day, w))
    = (build_day_files year month day, w1) /\ only_metadata w w1)
    as (w1 & -> & Hw1).
  { destruct check_latest; [|eauto using only_metadata_refl].
    pose proof (check_latest_files_day_files E year month day w) as Hd.
    pose proof (check_latest_files_valid E year month day w HE Hvalid) as Hm.
    destruct (check_latest_files _ _ _) as [d w1]. cbn in Hd, Hm. subst d.
    eauto. }
  destruct (fetch_files_valid E (iso_date year month day) w
              (build_day_files year month day) 0 [] w1 HE) as (w' & -> & Hw');
    [|done|].
  - intros f (Hh & -> & _)%build_day_files_elem. cbn. by apply Hvalid.
  - exists w'. split; [reflexivity|].
    split; [done|by apply only_metadata_transfers].
Qed.

(** X7.  On a day whose 24 files are all on disk and all pass the integrity
    check of a stable server, [download_day] returns [(24, [])], makes no
    transfer, removes and writes nothing: it only sends metadata requests. *)
Theorem download_day_idempotent E year month day check_latest w :
  stable E ->
  (forall h, 0 <= h < 24 ->
     (check_file_integrity E (file_url year month day h)
        (local_file_path year month day h) w).1 = true) ->
  exists w',
    download_day E year month day check_latest w = Some (24, [], w') /\
    only_metadata w w' /\ transfers w' = transfers w.
Proof. apply download_day_valid. Qed.

Lemma download_day_idempotent_witness :
  exists w',
    download_day Sample.steady 1998 1 1 true Sample.full_day
    = Some (24, [], w') /\
    files w' = files Sample.full_day /\ transfers w' = 0%nat.
Proof.
  destruct (download_day_idempotent Sample.steady 1998 1 1 true Sample.full_day)
    as (w' & Hrun & [Hfiles _] & Htr).
  - by intros t t' m url.
  - intros h Hh.
    apply (forallb_range
             (fun h => (check_file_integrity Sample.steady
                          (file_url 1998 1 1 h) (local_file_path 1998 1 1 h)
                          Sample.full_day).1) 24 h); [by vm_compute|lia].
  - exists w'. split; [exact Hrun|]. split; [exact Hfiles|exact Htr].
Defined.

Lemma build_day_files_paths year month day :
  NoDup ((fun f : slot => f.2) <$> build_day_files year month day).
Proof.
  unfold build_day_files. rewrite <- list_fmap_compose.
  apply NoDup_fmap_2_strong.
  - intros h1 h2 (i1 & -> & Hi1%elem_of_seq)%list_elem_of_fmap
      (i2 & -> & Hi2%elem_of_seq)%list_elem_of_fmap Heq.
    cbn in Heq. apply local_file_path_inj in Heq; [done|lia|lia].
  - unfold range. apply NoDup_fmap; [apply _|apply NoDup_seq].
Qed.

(** What the fetch pass leaves behind, file by file. *)
Lemma fetch_files_outcome E date day_files n failed w n' failed' w' :
  NoDup ((fun f : slot => f.2) <$> day_files) ->
  fetch_files E date day_files n failed w = Some (n', failed', w') ->
  exists extra,
    failed' = failed ++ extra /\
    (forall f, f ∈ day_files ->
       failure_of date f ∈ extra \/ is_Some (files w' !! f.2)) /\
    (forall r, r ∈ extra -> exists f, f ∈ day_files /\ r = failure_of date f) /\
    (forall p, p ∉ (fun f : slot => f.2) <$> day_files ->
       files w' !! p = files w !! p) /\
    (transfers w' <= transfers w + 3 * length day_files)%nat.
Proof.
  revert n failed w.
  induction day_files as [|[[hour url] path] rest IH]; intros n failed w Hnd.
  - cbn. intros [= <- <- <-]. exists []. rewrite app_nil_r.
    split; [done|]. split; [by intros f ?%elem_of_nil|].
    split; [by intros r ?%elem_of_nil|]. split; [done|lia].
  - cbn [fetch_files]. rewrite fmap_cons in Hnd.
    apply NoDup_cons in Hnd as [Hfresh Hnd]. cbn [snd] in Hfresh.
    destruct (download_file E url path 3 true w) as [[r w1]|] eqn:Hget;
      [|done].
    pose proof (download_file_transfers _ _ _ _ _ _ _ _ Hget) as Hbound.
    assert (Hother : forall p, p <> path -> files w1 !! p = files w !! p)
      by (intros p Hp; by eapply download_file_other_files).
    intros Hrun.
    assert (exists n1 failed1, fetch_files E date rest n1 failed1 w1
              = Some (n', failed', w') /\
              ((r = Py.Ret true /\ failed1 = failed) \/
               (failed1 = failed ++ [failure_of date (hour, url, path)])))
      as (n1 & failed1 & Hrest & Hcase).
    { destruct r as [[]|]; cbn [Py.truthy] in Hrun; eauto 10. }
    destruct (IH _ _ _ Hnd Hrest)
      as (extra & -> & Hall & Hrec & Hframe & Htr).
    assert (Hrest_other : forall p, p ∉ (fun f : slot => f.2) <$> rest ->
              p <> path -> files w' !! p = files w !! p).
    { intros p Hp Hne. rewrite Hframe by done. by apply Hother. }
    destruct Hcase as [[-> ->] | ->].
    + exists extra. split; [done|]. split; [|split; [|split]].
      * intros f [->|Hf]%elem_of_cons; [|by apply Hall].
        right. cbn [snd]. rewrite Hframe by done.
        by eapply download_file_true_file.
      * intros r' (f & Hf & ->)%Hrec. exists f. split; [|done].
        by apply list_elem_of_further.
      * intros p Hp. rewrite fmap_cons, not_elem_of_cons in Hp.
        destruct Hp as [Hne Hp]. by apply Hrest_other.
      * cbn [length]. lia.
    + exists (failure_of date (hour, url, path) :: extra).
      rewrite <- app_assoc. split; [done|]. split; [|split; [|split]].
      * intros f [->|Hf]%elem_of_cons.
        { left. apply list_elem_of_here. }
        destruct (Hall f Hf) as [?|?]; [left|by right].
        by apply list_elem_of_further.
      * intros r' [->|(f & Hf & ->)%Hrec]%elem_of_cons.
        { eexists. split; [apply list_elem_of_here|done]. }
        exists f. split; [|done]. by apply list_elem_of_further.
      * intros p Hp. rewrite fmap_cons, not_elem_of_cons in Hp.
        destruct Hp as [Hne Hp]. by apply Hrest_other.
      * cbn [length]. lia.
Qed.

Lemma download_day_unfold E year month day check_latest w :
  exists w1,
    transfers w1 = transfers w /\
    download_day E year month day check_latest w
    = fetch_files E (iso_date year month day)
        (build_day_files year month day) 0 [] w1.
Proof.
  unfold download_day. destruct check_latest; [|by eauto].
  pose proof (check_latest_files_day_files E year month day w) as Hd.
  pose proof (check_latest_files_transfers E year month day w) as Ht.
  destruct (check_latest_files _ _ _) as [d w1]. cbn in Hd, Ht. subst d.
  by eauto.
Qed.

(** X8.  [download_day] returns with every hour of the day accounted for
    on disk or in the failure list: for each hour 0..23 either the local
    file exists or the list holds that hour's record, and every record in
    the list is the record of one of the 24 slots, with the day's date and
    the slot's own URL and local path. *)
Theorem download_day_outcome E year month day check_latest w :
  exists n failed w',
    download_day E year month day check_latest w = Some (n, failed, w') /\
    (forall h, 0 <= h < 24 ->
       failure_of (iso_date year month day)
         (h, file_url year month day h, local_file_path year month day h)
       ∈ failed \/
       is_Some (files w' !! local_file_path year month day h)) /\
    (forall r, r ∈ failed ->
       exists h, 0 <= h < 24 /\
         r = failure_of (iso_date year month day)
               (h, file_url year month day h,
                local_file_path year month day h)).
Proof.
  destruct (download_day_unfold E year month day check_latest w)
    as (w1 & _ & ->).
  destruct (fetch_files_accounts E (iso_date year month day)
              (build_day_files year month day) 0 [] w1)
    as (n & extra0 & w' & Hrun & _).
  exists n, ([] ++ extra0), w'. split; [done|].
  apply fetch_files_outcome in Hrun as (extra & -> & Hall & Hrec & _);
    [|apply build_day_files_paths].
  cbn [app]. split.
  - intros h Hh. apply (Hall (h, _, _)).
    apply list_elem_of_lookup. exists (Z.to_nat h).
    rewrite build_day_files_lookup by lia. by rewrite Z2Nat.id by lia.
  - intros r (f & (Hh & -> & _)%build_day_files_elem & ->)%Hrec. eauto.
Qed.

(** X9.  One call of [download_day] returns after at most 72 transfer
    attempts, three for each of the 24 slots. *)
Theorem download_day_attempts_bounded E year month day check_latest w :
  exists n failed w',
    download_day E year month day check_latest w = Some (n, failed, w') /\
    (transfers w' <= transfers w + 72)%nat.
Proof.
  destruct (download_day_unfold E year month day check_latest w)
    as (w1 & Ht & ->).
  destruct (fetch_files_accounts E (iso_date year month day)
              (build_day_files year month day) 0 [] w1)
    as (n & extra0 & w' & Hrun & _).
  exists n, ([] ++ extra0), w'. split; [done|].
  apply fetch_files_outcome in Hrun as (extra & _ & _ & _ & _ & Hb);
    [|apply build_day_files_paths].
  assert (length (build_day_files year month day) = 24%nat) as Hlen
    by reflexivity.
  rewrite Hlen in Hb. lia.
Qed.

(** ** More on the Completeness Scanner *)

Lemma scan_hour_with E verify_size year month day w0 acc w hour :
  (verify_size = true -> stable E) -> only_metadata w0 w ->
  exists w',
    scan_hour E verify_size year month day (acc, w) hour
    = (acc ++ option_list
         (expected_entry_with E verify_size w0
            (hour, file_url year month day hour,
             local_file_path year month day hour)), w') /\
    only_metadata w0 w' /\ (verify_size = false -> w' = w).
Proof.
  intros HE Hw. unfold scan_hour, expected_entry_with, is_missing, is_invalid.
  cbn [fst snd]. destruct Hw as [Hf Hnew].
  assert (Hex : os_path_exists (local_file_path year month day hour) w
                = os_path_exists (local_file_path year month day hour) w0).
  { unfold os_path_exists. by rewrite Hf. }
  rewrite Hex.
  destruct (os_path_exists (local_file_path year month day hour) w0);
    cbn [negb andb orb];
    [|eexists; split; [done|]; by repeat split].
  destruct verify_size; cbn [andb];
    [|eexists; split; [by rewrite app_nil_r|]; by repeat split].
  pose proof (check_file_integrity_stable E (file_url year month day hour)
                (local_file_path year month day hour) w w0 (HE eq_refl) Hf)
    as Hv.
  pose proof (check_file_integrity_only_metadata E
                (file_url year month day hour)
                (local_file_path year month day hour) w) as Hm.
  destruct (check_file_integrity E _ _ w) as [valid w1]. cbn in Hv, Hm.
  rewrite <- Hv.
  assert (only_metadata w0 w1)
    by (eapply only_metadata_trans; [|exact Hm]; by split).
  destruct valid; cbn; eexists; split; try done. by rewrite app_nil_r.
Qed.

Lemma scan_hours_with E verify_size year month day w0 hours acc w :
  (verify_size = true -> stable E) -> only_metadata w0 w ->
  exists w',
    foldl (scan_hour E verify_size year month day) (acc, w) hours
    = (acc ++ omap (expected_entry_with E verify_size w0)
                ((fun hour => (hour, file_url year month day hour,
                               local_file_path year month day hour))
                 <$> hours), w') /\
    only_metadata w0 w' /\ (verify_size = false -> w' = w).
Proof.
  intros HE. revert acc w.
  induction hours as [|hour hours IH]; intros acc w Hw; cbn [foldl].
  - exists w. by rewrite app_nil_r.
  - destruct (scan_hour_with E verify_size year month day w0 acc w hour HE Hw)
      as (w1 & -> & Hw1 & Hsame1).
    destruct (IH (acc ++ option_list (expected_entry_with E verify_size w0
                (hour, file_url year month day hour,
                 local_file_path year month day hour))) w1 Hw1)
      as (w' & -> & Hw' & Hsame).
    exists w'. split; [|split; [done|]].
    + f_equal. rewrite <- app_assoc. f_equal.
      cbn. by destruct (expected_entry_with E verify_size w0 _).
    + intros Hv. by rewrite Hsame, Hsame1.
Qed.

(** The scan, day by day. *)
Lemma scan_days_by_day fuel E verify_size end_date current_date missing_data
    w0 w :
  (verify_size = true -> stable E) -> end_date < Date.MAXORDINAL ->
  only_metadata w0 w ->
  (Z.to_nat (end_date - current_date + 1) <= fuel)%nat ->
  exists w',
    scan_days fuel E verify_size end_date current_date missing_data w
    = Some (Returns (missing_data
                     ++ omap (expected_day E verify_size w0)
                          (days current_date end_date)), w') /\
    only_metadata w0 w' /\ (verify_size = false -> w' = w).
Proof.
  intros HE Hmax. revert current_date missing_data w.
  induction fuel as [|fuel IH]; intros current_date missing_data w Hw Hfuel;
    cbn [scan_days];
    destruct (Z.leb_spec current_date end_date) as [Hle|Hgt]; cbn [negb];
    try lia;
    try (exists w; rewrite days_empty by lia; cbn; by rewrite app_nil_r).
  cbv zeta.
  destruct (scan_hours_with E verify_size (Date.year current_date)
              (Date.month current_date) (Date.day current_date) w0
              (range 24) [] w HE Hw) as (w1 & -> & Hw1 & Hsame1).
  cbn [app]. unfold Date.add_day.
  destruct (Z.ltb_spec current_date Date.MAXORDINAL); [|lia].
  rewrite days_cons by done. cbn [omap list_omap].
  unfold expected_day at 1. unfold day_slots, slot_of.
  set (found := omap (expected_entry_with E verify_size w0) _).
  set (missing_data' := match found with [] => missing_data | _ => _ end).
  destruct (IH (current_date + 1) missing_data' w1 Hw1)
    as (w' & -> & Hw' & Hsame); [lia|].
  exists w'. split; [|split; [done|]].
  - subst missing_data'. destruct found; [done|]. by rewrite <- app_assoc.
  - intros Hv. by rewrite Hsame, Hsame1.
Qed.

Lemma expected_day_entries E verify_size w dates :
  mjoin (dr_missing_hours <$> omap (expected_day E verify_size w) dates)
  = omap (expected_entry_with E verify_size w) (dates ≫= day_slots).
Proof.
  induction dates as [|d dates IH]; [done|].
  cbn [omap list_omap mbind list_bind]. rewrite omap_app, <- IH.
  unfold expected_day.
  by destruct (omap (expected_entry_with E verify_size w) (day_slots d)).
Qed.

(** X10.  Without size verification the scan sends no request and leaves
    the world exactly as it was; its report lists, day by day, the slots
    whose local file is absent, all tagged [missing], and nothing else. *)
Theorem check_data_completeness_unverified E start_date end_date w :
  end_date < Date.MAXORDINAL ->
  exists report,
    check_data_completeness E start_date end_date false w
    = Some (Returns report, w) /\
    report = omap (expected_day E false w) (days start_date end_date) /\
    forall e,
      e ∈ mjoin (dr_missing_hours <$> report) <->
      exists f, f ∈ range_slots start_date end_date /\
                files w !! f.2 = None /\ e = entry f "missing".
Proof.
  intros Hmax. unfold check_data_completeness.
  destruct (scan_days_by_day (Z.to_nat (end_date - start_date + 1)) E false
              end_date start_date [] w w) as (w' & Hrun & _ & Hsame);
    [done|done|apply only_metadata_refl|done|].
  rewrite (Hsame eq_refl) in Hrun. cbn [app] in Hrun.
  eexists. split; [exact Hrun|]. split; [done|].
  intros e. rewrite expected_day_entries, list_elem_of_omap.
  fold (range_slots start_date end_date).
  split; intros (f & Hf & He); exists f; (split; [done|]).
  - unfold expected_entry_with, is_missing, os_path_exists in He.
    destruct (files w !! f.2) as [c|] eqn:Hc.
    + by rewrite bool_decide_eq_true_2 in He by eauto.
    + rewrite bool_decide_eq_false_2 in He by (by intros [? ?]).
      cbn in He. by injection He as <-.
  - destruct He as [Hc ->].
    unfold expected_entry_with, is_missing, os_path_exists. rewrite Hc.
    by rewrite bool_decide_eq_false_2 by (by intros [? ?]).
Qed.

Lemma expected_entry_with_valid E verify_size w f :
  (check_file_integrity E f.1.2 f.2 w).1 = true ->
  expected_entry_with E verify_size w f = None.
Proof.
  intros Hv. destruct (check_file_integrity_true _ _ _ _ Hv)
    as (content & Hf & _).
  unfold expected_entry_with, is_missing, is_invalid, os_path_exists.
  rewrite Hf, Hv. rewrite bool_decide_eq_true_2 by eauto.
  by destruct verify_size.
Qed.

Lemma omap_all_none {A B} (g : A -> option B) l :
  (forall x, x ∈ l -> g x = None) -> omap g l = [].
Proof.
  induction l as [|x l IH]; intros Hl; [done|]. cbn.
  rewrite (Hl x) by apply list_elem_of_here.
  apply IH. intros y Hy. by apply Hl, list_elem_of_further.
Qed.

Lemma expected_days_valid E verify_size w dates :
  (forall f, f ∈ dates ≫= day_slots ->
     (check_file_integrity E f.1.2 f.2 w).1 = true) ->
  omap (expected_day E verify_size w) dates = [].
Proof.
  intros Hvalid. apply omap_all_none. intros d Hd. unfold expected_day.
  rewrite omap_all_none; [done|].
  intros f Hf. apply expected_entry_with_valid, Hvalid.
  apply list_elem_of_bind. eauto.
Qed.

(** On a stable server, a range whose slots are all present and valid
    scans to the empty report. *)
Lemma scan_complete E start_date end_date w :
  stable E -> end_date < Date.MAXORDINAL ->
  (forall f, f ∈ range_slots start_date end_date ->
     (check_file_integrity E f.1.2 f.2 w).1 = true) ->
  exists w',
    check_data_completeness E start_date end_date true w
    = Some (Returns [], w') /\
    only_metadata w w'.
Proof.
  intros HE Hmax Hvalid. unfold check_data_completeness.
  destruct (scan_days_by_day (Z.to_nat (end_date - start_date + 1)) E true
              end_date start_date [] w w) as (w' & Hrun & Hw' & _);
    [done|done|apply only_metadata_refl|done|].
  rewrite expected_days_valid in Hrun by done. eauto.
Qed.

Lemma expected_day_nonempty E verify_size w d r :
  expected_day E verify_size w d = Some r -> dr_missing_hours r <> [].
Proof.
  unfold expected_day.
  generalize (omap (expected_entry_with E verify_size w) (day_slots d)).
  generalize (iso_date (Date.year d) (Date.month d) (Date.day d)).
  intros date [|e es]; [done|]. by intros [= <-].
Qed.

(** X11.  With size verification on a stable server the report is built
    day by day, in calendar order: a day appears, under its ISO date, with
    exactly its absent and invalid slots, and a day with none of either
    does not appear at all, so no record has an empty list; when every slot
    of the range is present and valid the report is empty. *)
Theorem check_data_completeness_by_day E start_date end_date w :
  stable E -> end_date < Date.MAXORDINAL ->
  exists report w',
    check_data_completeness E start_date end_date true w
    = Some (Returns report, w') /\
    report = omap (expected_day E true w) (days start_date end_date) /\
    Forall (fun r => dr_missing_hours r <> []) report /\
    ((forall f, f ∈ range_slots start_date end_date ->
        (check_file_integrity E f.1.2 f.2 w).1 = true) ->
     report = []).
Proof.
  intros HE Hmax. unfold check_data_completeness.
  destruct (scan_days_by_day (Z.to_nat (end_date - start_date + 1)) E true
              end_date start_date [] w w) as (w' & Hrun & _ & _);
    [done|done|apply only_metadata_refl|done|].
  exists (omap (expected_day E true w) (days start_date end_date)), w'.
  split; [exact Hrun|]. split; [reflexivity|]. split.
  - apply Forall_forall. intros r (d & _ & Hr)%list_elem_of_omap.
    by eapply expected_day_nonempty.
  - intros Hvalid. apply expected_days_valid. exact Hvalid.
Qed.

Lemma check_data_completeness_by_day_witness :
  exists report w',
    check_data_completeness Sample.steady (Date.ymd2ord 1998 1 1)
      (Date.ymd2ord 1998 1 1) true Sample.full_day
    = Some (Returns report, w') /\ report = [].
Proof.
  destruct (check_data_completeness_by_day Sample.steady
              (Date.ymd2ord 1998 1 1) (Date.ymd2ord 1998 1 1) Sample.full_day)
    as (report & w' & Hrun & _ & _ & Hempty).
  - by intros t t' m url.
  - by vm_compute.
  - exists report, w'. split; [exact Hrun|]. apply Hempty.
    intros f Hf.
    assert (Hall : forallb
              (fun f : slot => (check_file_integrity Sample.steady f.1.2 f.2
                                  Sample.full_day).1)
              (range_slots (Date.ymd2ord 1998 1 1) (Date.ymd2ord 1998 1 1))
            = true) by (vm_compute; reflexivity).
    rewrite forallb_forall in Hall. by apply Hall, list_elem_of_In.
Defined.

Lemma check_data_completeness_unverified_witness :
  exists report,
    check_data_completeness Sample.steady (Date.ymd2ord 1998 1 1)
      (Date.ymd2ord 1998 1 2) false Sample.two_files
    = Some (Returns report, Sample.two_files) /\
    length report = 2%nat.
Proof.
  destruct (check_data_completeness_unverified Sample.steady
              (Date.ymd2ord 1998 1 1) (Date.ymd2ord 1998 1 2) Sample.two_files)
    as (report & Hrun & Hrep & _); [by vm_compute|].
  exists report. split; [exact Hrun|]. rewrite Hrep. vm_compute. reflexivity.
Defined.

(** ** Retry pass *)

Lemma retry_files_outcome E failed_files still_failed w still' w' :
  retry_files E failed_files still_failed w = Some (still', w') ->
  exists extra,
    still' = still_failed ++ extra /\
    extra `sublist_of` failed_files /\
    (transfers w' <= transfers w + 3 * length failed_files)%nat /\
    (forall p, p ∉ f_local_path <$> failed_files ->
       files w' !! p = files w !! p) /\
    (NoDup (f_local_path <$> failed_files) ->
     forall r, r ∈ failed_files ->
       r ∈ extra \/ is_Some (files w' !! f_local_path r)).
Proof.
  revert still_failed w.
  induction failed_files as [|r0 rest IH]; intros still_failed w.
  - cbn. intros [= <- <-]. exists []. rewrite app_nil_r.
    split; [done|]. split; [done|]. split; [lia|]. split; [done|].
    by intros _ r ?%elem_of_nil.
  - cbn [retry_files].
    destruct (download_file E (f_url r0) (f_local_path r0) 3 true w)
      as [[ret w1]|] eqn:Hget; [|done].
    pose proof (download_file_transfers _ _ _ _ _ _ _ _ Hget) as Hbound.
    assert (Hother : forall p, p <> f_local_path r0 ->
              files w1 !! p = files w !! p)
      by (intros p Hp; by eapply download_file_other_files).
    intros Hrun.
    assert (exists still1, retry_files E rest still1 w1 = Some (still', w') /\
              ((ret = Py.Ret true /\ still1 = still_failed) \/
               still1 = still_failed ++ [r0])) as (still1 & Hrest & Hcase).
    { destruct ret as [[]|]; cbn [Py.truthy] in Hrun; eauto 10. }
    destruct (IH _ _ Hrest) as (extra & -> & Hsub & Htr & Hframe & Hall).
    assert (Hframe' : forall p, p ∉ f_local_path <$> r0 :: rest ->
              files w' !! p = files w !! p).
    { intros p Hp. rewrite fmap_cons, not_elem_of_cons in Hp.
      destruct Hp as [Hne Hp]. rewrite Hframe by done. by apply Hother. }
    destruct Hcase as [[-> ->] | ->].
    + exists extra. split; [done|]. split; [by apply sublist_cons|].
      split; [cbn [length]; lia|]. split; [done|].
      intros Hnd r Hr. rewrite fmap_cons in Hnd.
      apply NoDup_cons in Hnd as [Hfresh Hnd].
      apply elem_of_cons in Hr as [->|Hr]; [|by apply Hall].
      right. rewrite Hframe by done. by eapply download_file_true_file.
    + exists (r0 :: extra). rewrite <- app_assoc.
      split; [done|]. split; [by apply sublist_skip|].
      split; [cbn [length]; lia|]. split; [done|].
      intros Hnd r Hr. rewrite fmap_cons in Hnd.
      apply NoDup_cons in Hnd as [Hfresh Hnd].
      apply elem_of_cons in Hr as [->|Hr]; [left; apply list_elem_of_here|].
      destruct (Hall Hnd r Hr) as [?|?]; [left|by right].
      by apply list_elem_of_further.
Qed.

Lemma retry_files_returns E failed_files still_failed w :
  is_Some (retry_files E failed_files still_failed w).
Proof.
  revert still_failed w.
  induction failed_files as [|r0 rest IH]; intros still_failed w; [by eauto|].
  cbn [retry_files].
  destruct (download_file_returns E (f_url r0) (f_local_path r0) 3 true w)
    as [[r w1] ->].
  destruct (Py.truthy r); apply IH.
Qed.

(** X12.  The records [retry_failed_downloads] returns as still failed are
    records of its input, in the input's order; it makes at most three
    transfer attempts per record and touches no file other than the
    records' local paths; and when the records name distinct local paths,
    every record is either returned as still failed or has its file on disk
    at the end.  On the empty list it returns the empty list and does
    nothing. *)
Theorem retry_failed_downloads_outcome E failed_files w still_failed w' :
  retry_failed_downloads E failed_files w = Some (still_failed, w') ->
  still_failed `sublist_of` failed_files /\
  (transfers w' <= transfers w + 3 * length failed_files)%nat /\
  (forall p, p ∉ f_local_path <$> failed_files ->
     files w' !! p = files w !! p) /\
  (NoDup (f_local_path <$> failed_files) ->
   forall r, r ∈ failed_files ->
     r ∈ still_failed \/ is_Some (files w' !! f_local_path r)) /\
  (failed_files = [] -> still_failed = [] /\ w' = w).
Proof.
  intros Hrun. destruct failed_files as [|r0 rest].
  - injection Hrun as <- <-. cbn. split; [done|]. split; [lia|].
    split; [done|]. split; [|done]. by intros _ r ?%elem_of_nil.
  - unfold retry_failed_downloads in Hrun.
    destruct (retry_files_outcome _ _ _ _ _ _ Hrun)
      as (extra & -> & Hsub & Htr & Hframe & Hall).
    cbn [app] in *. by repeat split.
Qed.

(** ** The whole run *)

Lemma queue_retry_spec E date files_to_retry w e :
  let st := queue_retry E date (files_to_retry, w) e in
  st.1 = files_to_retry ++ [retry_of date e] /\
  transfers st.2 = transfers w /\ clock st.2 = clock w /\
  forall p,
    files st.2 !! p = files w !! p \/
    (files st.2 !! p = None /\ p = mh_local_path e /\
     mh_reason e = "invalid_size").
Proof.
  cbv zeta. unfold queue_retry. cbn [fst snd].
  split; [done|].
  destruct (String.eqb_spec (mh_reason e) "invalid_size") as [Hreason|];
    cbn [andb]; [|by eauto].
  unfold os_remove.
  destruct (os_path_exists (mh_local_path e) w); cbn [andb]; [|by eauto].
  destruct (remove_denied E (mh_local_path e)); cbn; [by eauto|].
  split; [done|]. split; [done|]. intros p.
  destruct (decide (p = mh_local_path e)) as [->|Hne].
  - right. by rewrite lookup_delete_eq.
  - left. by rewrite lookup_delete_ne.
Qed.

Lemma queue_entries_spec E date entries files_to_retry w :
  let st := foldl (queue_retry E date) (files_to_retry, w) entries in
  st.1 = files_to_retry ++ (retry_of date <$> entries) /\
  transfers st.2 = transfers w /\ clock st.2 = clock w /\
  forall p,
    files st.2 !! p = files w !! p \/
    (files st.2 !! p = None /\
     exists e, e ∈ entries /\ p = mh_local_path e /\
               mh_reason e = "invalid_size").
Proof.
  cbv zeta. revert files_to_retry w.
  induction entries as [|e entries IH]; intros files_to_retry w; cbn [foldl].
  - rewrite app_nil_r. by eauto.
  - destruct (queue_retry_spec E date files_to_retry w e)
      as (H1 & Ht1 & Hc1 & Hf1). cbv zeta in H1, Ht1, Hc1, Hf1.
    destruct (queue_retry E date (files_to_retry, w) e) as [l1 w1].
    cbn [fst snd] in H1, Ht1, Hc1, Hf1. subst l1.
    destruct (IH (files_to_retry ++ [retry_of date e]) w1)
      as (H2 & Ht2 & Hc2 & Hf2).
    split; [by rewrite H2, <- app_assoc|].
    split; [congruence|]. split; [congruence|].
    intros p. destruct (Hf2 p) as [Hsame|(Hnone & e' & He' & Hp)].
    + destruct (Hf1 p) as [Hsame1|(Hnone1 & Hp1 & Hr1)].
      * left. congruence.
      * right. split; [congruence|]. exists e.
        split; [apply list_elem_of_here|done].
    + right. split; [done|]. exists e'.
      split; [by apply list_elem_of_further|done].
Qed.

(** X13.  Before the retry pass [main] queues one record per reported
    entry, in report order, under the entry's day, hour, URL and local
    path.  Doing so it sends no request and changes no file, except that it
    may remove files of entries tagged [invalid_size]. *)
Theorem queue_retries_spec E missing_data w :
  let st := queue_retries E missing_data w in
  st.1 = missing_data ≫=
           (fun day => retry_of (dr_date day) <$> dr_missing_hours day) /\
  transfers st.2 = transfers w /\ clock st.2 = clock w /\
  forall p,
    files st.2 !! p = files w !! p \/
    (files st.2 !! p = None /\
     exists day e, day ∈ missing_data /\ e ∈ dr_missing_hours day /\
                   p = mh_local_path e /\ mh_reason e = "invalid_size").
Proof.
  cbv zeta. unfold queue_retries.
  enough (forall files_to_retry w0,
    let st := foldl (fun st day => foldl (queue_retry E (dr_date day)) st
                                     (dr_missing_hours day))
                (files_to_retry, w0) missing_data in
    st.1 = files_to_retry ++
           (missing_data ≫=
              (fun day => retry_of (dr_date day) <$> dr_missing_hours day)) /\
    transfers st.2 = transfers w0 /\ clock st.2 = clock w0 /\
    forall p,
      files st.2 !! p = files w0 !! p \/
      (files st.2 !! p = None /\
       exists day e, day ∈ missing_data /\ e ∈ dr_missing_hours day /\
                     p = mh_local_path e /\ mh_reason e = "invalid_size"))
    as H by apply (H [] w).
  induction missing_data as [|day rest IH]; intros files_to_retry w0;
    cbn [foldl].
  - cbv zeta. cbn. rewrite app_nil_r. by eauto.
  - destruct (queue_entries_spec E (dr_date day) (dr_missing_hours day)
                files_to_retry w0) as (H1 & Ht1 & Hc1 & Hf1).
    cbv zeta in H1, Ht1, Hc1, Hf1.
    destruct (foldl (queue_retry E (dr_date day)) (files_to_retry, w0)
                (dr_missing_hours day)) as [l1 w1].
    cbn [fst snd] in H1, Ht1, Hc1, Hf1. subst l1.
    destruct (IH (files_to_retry ++
                  (retry_of (dr_date day) <$> dr_missing_hours day)) w1)
      as (H2 & Ht2 & Hc2 & Hf2). cbv zeta in H2, Ht2, Hc2, Hf2 |- *.
    split; [rewrite H2; cbn [mbind list_bind]; by rewrite <- app_assoc|].
    split; [congruence|]. split; [congruence|].
    intros p. destruct (Hf2 p) as [Hsame|(Hnone & d' & e' & Hd' & He' & Hp)].
    + destruct (Hf1 p) as [Hsame1|(Hnone1 & e & He & Hp1)].
      * left. congruence.
      * right. split; [congruence|]. exists day, e.
        split; [apply list_elem_of_here|done].
    + right. split; [done|]. exists d', e'.
      split; [by apply list_elem_of_further|done].
Qed.

Lemma retry_failed_downloads_outcome_witness :
  exists still_failed w',
    retry_failed_downloads Sample.steady
      [{| f_date := "1998-01-01"; f_hour := 0; f_url := "http://h/u";
          f_local_path := "d/p" |};
       {| f_date := "1998-01-01"; f_hour := 1; f_url := "http://h/v";
          f_local_path := "d/q" |}] (Sample.disk [])
    = Some (still_failed, w') /\
    ({| f_date := "1998-01-01"; f_hour := 1; f_url := "http://h/v";
        f_local_path := "d/q" |} ∈ still_failed \/
     is_Some (files w' !! "d/q")).
Proof.
  destruct (retry_failed_downloads Sample.steady
      [{| f_date := "1998-01-01"; f_hour := 0; f_url := "http://h/u";
          f_local_path := "d/p" |};
       {| f_date := "1998-01-01"; f_hour := 1; f_url := "http://h/v";
          f_local_path := "d/q" |}] (Sample.disk []))
    as [[still w']|] eqn:Hrun; [|vm_compute in Hrun; discriminate Hrun].
  exists still, w'. split; [reflexivity|].
  destruct (retry_failed_downloads_outcome _ _ _ _ _ Hrun)
    as (_ & _ & _ & Hall & _).
  apply (Hall ltac:(apply (bool_decide_unpack _); vm_compute; exact I)
           {| f_date := "1998-01-01"; f_hour := 1; f_url := "http://h/v";
              f_local_path := "d/q" |}).
  apply list_elem_of_further, list_elem_of_here.
Defined.

Lemma download_day_counts E year month day check_latest w :
  exists n failed w',
    download_day E year month day check_latest w = Some (n, failed, w') /\
    n + Z.of_nat (length failed) = 24 /\ 0 <= n /\
    (transfers w' <= transfers w + 72)%nat.
Proof.
  destruct (download_day_unfold E year month day check_latest w)
    as (w1 & Ht & ->).
  destruct (fetch_files_accounts E (iso_date year month day)
              (build_day_files year month day) 0 [] w1)
    as (n & extra & w' & Hrun & Hn & Hle & _).
  pose proof (fetch_files_outcome _ _ _ _ _ _ _ _ _
                (build_day_files_paths year month day) Hrun)
    as (_ & _ & _ & _ & _ & Hb).
  exists n, extra, w'. split; [done|].
  assert (length (build_day_files year month day) = 24%nat) as Hlen
    by reflexivity.
  rewrite Hlen in Hn, Hb. repeat split; lia.
Qed.

Lemma download_days_totals fuel E end_date current_date n0 failed0 w :
  end_date < Date.MAXORDINAL ->
  (Z.to_nat (end_date - current_date + 1) <= fuel)%nat ->
  exists n failed w',
    download_days fuel E end_date current_date n0 failed0 w
    = Some (Returns (n, failed), w') /\
    n + Z.of_nat (length failed)
    = n0 + Z.of_nat (length failed0)
      + 24 * Z.of_nat (length (days current_date end_date)) /\
    n0 <= n /\
    (transfers w'
     <= transfers w + 72 * length (days current_date end_date))%nat.
Proof.
  intros Hmax. revert current_date n0 failed0 w.
  induction fuel as [|fuel IH]; intros current_date n0 failed0 w Hfuel;
    cbn [download_days];
    destruct (Z.leb_spec current_date end_date) as [Hle|Hgt]; cbn [negb];
    try lia;
    try (exists n0, failed0, w; rewrite days_empty by lia; cbn;
         repeat split; lia).
  destruct (download_day_counts E (Date.year current_date)
              (Date.month current_date) (Date.day current_date) true w)
    as (n1 & failed1 & w1 & -> & Hn1 & Hpos1 & Ht1).
  unfold Date.add_day.
  destruct (Z.ltb_spec current_date Date.MAXORDINAL); [|lia].
  destruct (IH (current_date + 1) (n0 + n1) (failed0 ++ failed1) w1)
    as (n & failed & w' & -> & Hn & Hpos & Ht); [lia|].
  exists n, failed, w'. split; [done|].
  rewrite days_cons by done. rewrite length_app in Hn. cbn [length].
  repeat split; lia.
Qed.

(** X14.  The day loop of [main] accounts for every slot of the range: for
    a range ending before [datetime.max] it returns, and the successes it
    counted plus the failures it collected number 24 for each day of the
    range, after at most 72 transfer attempts a day. *)
Theorem main_day_loop_totals E start_date end_date w :
  end_date < Date.MAXORDINAL ->
  exists successful_downloads all_failed_files w',
    download_days (Z.to_nat (end_date - start_date + 1)) E end_date
      start_date 0 [] w
    = Some (Returns (successful_downloads, all_failed_files), w') /\
    successful_downloads + Z.of_nat (length all_failed_files)
    = 24 * Z.of_nat (length (days start_date end_date)) /\
    0 <= successful_downloads /\
    (transfers w'
     <= transfers w + 72 * length (days start_date end_date))%nat.
Proof.
  intros Hmax.
  destruct (download_days_totals (Z.to_nat (end_date - start_date + 1)) E
              end_date start_date 0 [] w Hmax)
    as (n & failed & w' & Hrun & Hn & Hpos & Ht); [done|].
  exists n, failed, w'. cbn [length] in Hn. repeat split; [done|lia|done..].
Qed.

Lemma main_day_loop_totals_witness :
  exists successful_downloads all_failed_files w',
    download_days 2 Sample.overloaded (Date.ymd2ord 1998 1 2)
      (Date.ymd2ord 1998 1 1) 0 [] (Sample.disk [])
    = Some (Returns (successful_downloads, all_failed_files), w') /\
    successful_downloads + Z.of_nat (length all_failed_files) = 48.
Proof.
  destruct (main_day_loop_totals Sample.overloaded (Date.ymd2ord 1998 1 1)
              (Date.ymd2ord 1998 1 2) (Sample.disk []))
    as (n & failed & w' & Hrun & Hn & _); [by vm_compute|].
  exists n, failed, w'. split; [exact Hrun|exact Hn].
Defined.

(** On a stable server the verdict on a file depends on that file only. *)
Lemma check_file_integrity_local E url path w w0 :
  stable E -> files w !! path = files w0 !! path ->
  (check_file_integrity E url path w).1
  = (check_file_integrity E url path w0).1.
Proof.
  intros HE Hf. unfold check_file_integrity, get_remote_file_size, send.
  rewrite Hf, (HE (clock w) (clock w0)).
  repeat (case_match; simplify_eq/=; try done).
Qed.

Lemma local_file_path_not_report year month day hour :
  local_file_path year month day hour <> FAILED_DOWNLOADS_FILE.
Proof.
  unfold local_file_path, year_month_dir, Py.path_join.
  rewrite !string_app_assoc. discriminate.
Qed.

Lemma day_slots_in_range start_date end_date d f :
  d ∈ days start_date end_date -> f ∈ day_slots d ->
  f ∈ range_slots start_date end_date.
Proof. intros Hd Hf. apply list_elem_of_bind. eauto. Qed.

Lemma download_days_valid fuel E end_date current_date n0 failed0 w0 w :
  stable E -> end_date < Date.MAXORDINAL ->
  only_metadata w0 w ->
  (forall f, f ∈ range_slots current_date end_date ->
     (check_file_integrity E f.1.2 f.2 w0).1 = true) ->
  (Z.to_nat (end_date - current_date + 1) <= fuel)%nat ->
  exists w',
    download_days fuel E end_date current_date n0 failed0 w
    = Some (Returns (n0 + 24 * Z.of_nat (length (days current_date end_date)),
                     failed0), w') /\
    only_metadata w0 w'.
Proof.
  intros HE Hmax. revert current_date n0 w.
  induction fuel as [|fuel IH]; intros current_date n0 w Hw Hvalid Hfuel;
    cbn [download_days];
    destruct (Z.leb_spec current_date end_date) as [Hle|Hgt]; cbn [negb];
    try lia;
    try (exists w; rewrite days_empty by lia; cbn; by rewrite Z.add_0_r).
  destruct (download_day_valid E (Date.year current_date)
              (Date.month current_date) (Date.day current_date) true w HE)
    as (w1 & -> & Hw1 & _).
  { intros h Hh.
    rewrite (check_file_integrity_stable E _ _ w w0 HE) by (by destruct Hw).
    apply (Hvalid (slot_of current_date h)).
    apply (day_slots_in_range _ _ current_date).
    - rewrite days_cons by done. apply list_elem_of_here.
    - unfold day_slots. apply list_elem_of_fmap. exists h. split; [done|].
      apply list_elem_of_fmap. exists (Z.to_nat h).
      split; [lia|apply elem_of_seq; lia]. }
  unfold Date.add_day.
  destruct (Z.ltb_spec current_date Date.MAXORDINAL); [|lia].
  rewrite app_nil_r.
  destruct (IH (current_date + 1) (n0 + 24) w1) as (w' & -> & Hw'); [..|lia|].
  - by eapply only_metadata_trans.
  - intros f Hf. apply Hvalid. unfold range_slots in *.
    rewrite days_cons by done. cbn [mbind list_bind].
    apply elem_of_app. by right.
  - exists w'. split; [|done].
    rewrite (days_cons current_date) by done. cbn [length].
    by replace (n0 + 24 * Z.of_nat (S (length (days (current_date + 1)
                                                  end_date))))
      with (n0 + 24 + 24 * Z.of_nat (length (days (current_date + 1)
                                               end_date))) by lia.
Qed.

(** X15.  A second run over a complete mirror changes nothing.  When every
    slot of the range is on disk and passes the integrity check of a stable
    server, [main] (for any range ending before [datetime.max], and so for
    its own 1998-2000) makes no transfer attempt at all and returns; it
    leaves every file as it was, apart from removing a failure report left
    by an earlier run, and it writes neither report. *)
Theorem main_on_complete_mirror E start_date end_date w :
  stable E -> end_date < Date.MAXORDINAL ->
  remove_denied E FAILED_DOWNLOADS_FILE = false ->
  (forall f, f ∈ range_slots start_date end_date ->
     (check_file_integrity E f.1.2 f.2 w).1 = true) ->
  exists w',
    main_from E start_date end_date w = Some (Returns tt, w') /\
    transfers w' = transfers w /\
    files w' = delete FAILED_DOWNLOADS_FILE (files w) /\
    exists new, trace w' = new ++ trace w /\ forall p, EvOpen p ∉ new.
Proof.
  intros HE Hmax Hden Hvalid. unfold main_from.
  destruct (download_days_valid (Z.to_nat (end_date - start_date + 1)) E
              end_date start_date 0 [] w w HE Hmax (only_metadata_refl w)
              Hvalid) as (w1 & -> & Hw1); [done|].
  pose proof (only_metadata_transfers _ _ Hw1) as Ht1.
  destruct Hw1 as [Hf1 (new1 & Htr1 & Hnew1)].
  assert (exists w2 new2,
    save_failed_downloads E [] w1 = (Returns tt, w2) /\
    files w2 = delete FAILED_DOWNLOADS_FILE (files w) /\
    transfers w2 = transfers w /\
    trace w2 = new2 ++ trace w /\
    (forall p, EvOpen p ∉ new2)) as (w2 & new2 & -> & Hf2 & Ht2 & Htr2 & Hno2).
  { unfold save_failed_downloads, os_remove.
    destruct (os_path_exists FAILED_DOWNLOADS_FILE w1) eqn:Hex.
    - rewrite Hden. cbn [andb negb].
      eexists _, (EvRemove FAILED_DOWNLOADS_FILE :: new1).
      split; [done|]. cbn. rewrite Hf1, Htr1. split; [done|].
      split; [rewrite <- Htr1; exact Ht1|]. split; [done|].
      intros p [[=]|Hp]%elem_of_cons.
      rewrite forallb_forall in Hnew1.
      by specialize (Hnew1 _ (proj1 (list_elem_of_In _ _) Hp)).
    - exists w1, new1. split; [done|]. split; [|split; [done|split; [done|]]].
      + rewrite Hf1. symmetry. apply delete_id.
        unfold os_path_exists in Hex. rewrite Hf1 in Hex.
        apply bool_decide_eq_false in Hex.
        by destruct (files w !! FAILED_DOWNLOADS_FILE); [destruct Hex; eauto|].
      + intros p Hp. rewrite forallb_forall in Hnew1.
        by specialize (Hnew1 _ (proj1 (list_elem_of_In _ _) Hp)). }
  destruct (scan_complete E start_date end_date w2 HE Hmax)
    as (w3 & -> & Hw3).
  { intros f Hf. rewrite (check_file_integrity_local E _ _ w2 w HE);
      [by apply Hvalid|].
    rewrite Hf2. apply lookup_delete_ne.
    apply list_elem_of_bind in Hf as (d & Hf & _).
    apply list_elem_of_fmap in Hf as (h & -> & _). unfold slot_of. cbn [snd].
    intros Heq. symmetry in Heq. revert Heq.
    apply local_file_path_not_report. }
  pose proof (only_metadata_transfers _ _ Hw3) as Ht3.
  destruct Hw3 as [Hf3 (new3 & Htr3 & Hnew3)].
  exists w3. split; [done|]. split; [congruence|]. split; [congruence|].
  exists (new3 ++ new2). split; [by rewrite Htr3, Htr2, app_assoc|].
  intros p [Hp|Hp]%elem_of_app; [|by eapply Hno2].
  rewrite forallb_forall in Hnew3.
  by specialize (Hnew3 _ (proj1 (list_elem_of_In _ _) Hp)).
Qed.

Lemma main_on_complete_mirror_witness :
  exists w',
    main_from Sample.steady (Date.ymd2ord 1998 1 1) (Date.ymd2ord 1998 1 1)
      Sample.full_day = Some (Returns tt, w') /\
    transfers w' = 0%nat /\
    files w' = delete FAILED_DOWNLOADS_FILE (files Sample.full_day).
Proof.
  destruct (main_on_complete_mirror Sample.steady (Date.ymd2ord 1998 1 1)
              (Date.ymd2ord 1998 1 1) Sample.full_day)
    as (w' & Hrun & Htr & Hfiles & _).
  - by intros t t' m url.
  - by vm_compute.
  - reflexivity.
  - intros f Hf.
    assert (Hall : forallb
              (fun f : slot => (check_file_integrity Sample.steady f.1.2 f.2
                                  Sample.full_day).1)
              (range_slots (Date.ymd2ord 1998 1 1) (Date.ymd2ord 1998 1 1))
            = true) by (vm_compute; reflexivity).
    rewrite forallb_forall in Hall. by apply Hall, list_elem_of_In.
  - exists w'. split; [exact Hrun|]. split; [exact Htr|exact Hfiles].
Defined.

(** ** Further edge behaviour of the fetcher *)

(** X16.  [check_file_integrity] only reads: it never changes a file; when
    the local file is absent it does nothing at all, and when it is present
    it sends exactly one request, a metadata request for the URL. *)
Theorem check_file_integrity_read_only E url path w :
  let w' := (check_file_integrity E url path w).2 in
  files w' = files w /\
  (files w !! path = None -> w' = w) /\
  (is_Some (files w !! path) ->
   clock w' = S (clock w) /\ trace w' = EvRequest HEAD url :: trace w).
Proof.
  cbv zeta. rewrite check_file_integrity_world. unfold os_path_exists.
  destruct (files w !! path) as [content|] eqn:Hf.
  - rewrite bool_decide_eq_true_2 by eauto.
    split; [done|]. split; [done|]. by intros _.
  - rewrite bool_decide_eq_false_2 by (by intros [? ?]).
    split; [done|]. split; [done|]. by intros [? ?].
Qed.

Lemma check_file_integrity_read_only_witness :
  (check_file_integrity Sample.steady "u" "p" (Sample.disk [])).2
  = Sample.disk [] /\
  trace (check_file_integrity Sample.steady "u" "p"
           (Sample.disk [("p", Sample.blob 3)])).2
  = [EvRequest HEAD "u"].
Proof.
  split.
  - destruct (check_file_integrity_read_only Sample.steady "u" "p"
                (Sample.disk [])) as (_ & H & _).
    exact (H eq_refl).
  - destruct (check_file_integrity_read_only Sample.steady "u" "p"
                (Sample.disk [("p", Sample.blob 3)])) as (_ & _ & H).
    destruct (H ltac:(by eexists)) as [_ Ht]. exact Ht.
Defined.

(** X17.  With [max_retries] zero or negative and no local file, the loop
    is never entered: [download_file] sends nothing, changes nothing and
    falls off its end, returning [None] (which callers read as failure)
    rather than [False]. *)
Theorem download_file_no_retries E url path max_retries check_size w :
  max_retries <= 0 -> files w !! path = None ->
  download_file E url path max_retries check_size w = Some (Py.RetNone, w) /\
  Py.truthy Py.RetNone = false.
Proof.
  intros Hmax Hf. split; [|done]. unfold download_file, os_path_exists.
  rewrite Hf. rewrite bool_decide_eq_false_2 by (by intros [? ?]).
  replace (Z.to_nat max_retries) with O by lia. cbn.
  by destruct (Z.ltb_spec 0 max_retries); [lia|].
Qed.

Lemma download_file_no_retries_witness :
  download_file Sample.steady "u" "p" 0 true (Sample.disk [])
  = Some (Py.RetNone, Sample.disk []).
Proof.
  destruct (download_file_no_retries Sample.steady "u" "p" 0 true
              (Sample.disk []) ltac:(lia) eq_refl) as [H _].
  exact H.
Defined.

Lemma attempt_sleeps E url path check_size w lo hi :
  sleeps lo hi (attempt E url path check_size w).2 = sleeps lo hi w.
Proof.
  unfold attempt, send.
  destruct (request E (clock w) GET url) as [resp|]; [|done].
  destruct (status_code resp =? 404); [done|].
  destruct (raises_for_status resp); [done|].
  match goal with |- context [save_body E path resp ?w0] =>
    pose proof (save_body_frame E path resp w0) as [_ Htr];
    destruct (save_body E path resp w0) as [[[]|] w2] end;
    cbn in Htr; [|cbn [snd]; unfold sleeps; by rewrite Htr].
  assert (sleeps lo hi w2 = sleeps lo hi w) as H2
    by (unfold sleeps; by rewrite Htr).
  destruct check_size; [|done].
  pose proof (check_file_integrity_world E url path w2) as Hw.
  destruct (check_file_integrity E url path w2) as [[] w3];
    cbn [snd] in Hw |- *; subst w3;
    by destruct (os_path_exists path w2).
Qed.

Lemma attempt_bodiless E url path check_size w :
  bodiless (request E (clock w) GET url) = true ->
  files (attempt E url path check_size w).2 = files w /\
  ((attempt E url path check_size w).1 = NotFound \/
   (attempt E url path check_size w).1 = Fault).
Proof.
  unfold attempt, send, bodiless.
  destruct (request E (clock w) GET url) as [resp|]; [|by eauto].
  destruct (status_code resp =? 404); [by eauto|].
  destruct (raises_for_status resp); [by eauto|done].
Qed.

Lemma download_loop_bodiless fuel E url path max_retries check_size retries w :
  (forall t, bodiless (request E t GET url) = true) ->
  retries < max_retries ->
  (Z.to_nat (max_retries - retries) <= fuel)%nat ->
  exists w',
    download_loop fuel E url path max_retries check_size retries w
    = Some (Py.Ret false, w') /\
    files w' = files w.
Proof.
  intros Hall. revert retries w.
  induction fuel as [|fuel IH]; intros retries w Hlt Hfuel; [lia|].
  rewrite download_loop_unfold.
  destruct (Z.ltb_spec retries max_retries); [cbn [negb]|lia].
  destruct (attempt_bodiless E url path check_size w (Hall _)) as [Hf Hend].
  destruct (attempt E url path check_size w) as [ending w1].
  cbn [fst snd] in Hf, Hend.
  destruct Hend as [-> | ->]; [by eauto|].
  destruct (Z.ltb_spec (retries + 1) max_retries); [|by eauto].
  destruct (IH (retries + 1) (time_sleep 5 10 w1)) as (w' & -> & Hw');
    [lia|lia|].
  exists w'. split; [done|]. by rewrite Hw'.
Qed.

(** X18.  The old copy is removed before the new one is fetched: when the
    local file exists but fails the integrity check, is removed, and no
    transfer request is then answered with a body (each raises or comes
    back 404 or another 4xx/5xx), [download_file] returns [False] and no
    file is left at the local path. *)
Theorem download_file_refetch_lost E url path max_retries w content :
  files w !! path = Some content ->
  (check_file_integrity E url path w).1 = false ->
  remove_denied E path = false -> 0 < max_retries ->
  (forall t, bodiless (request E t GET url) = true) ->
  exists w',
    download_file E url path max_retries true w = Some (Py.Ret false, w') /\
    files w' !! path = None.
Proof.
  intros Hf Hv Hden Hmax Hall.
  unfold download_file, os_path_exists. rewrite Hf.
  rewrite bool_decide_eq_true_2 by eauto.
  pose proof (check_file_integrity_frame E url path w) as [Hfiles _].
  destruct (check_file_integrity E url path w) as [valid w1].
  cbn [fst snd] in Hv, Hfiles. subst valid.
  unfold os_remove, os_path_exists. rewrite Hfiles, Hf, Hden.
  rewrite bool_decide_eq_true_2 by eauto. cbn [andb negb].
  match goal with |- context [download_loop _ _ _ _ _ _ _ ?w2] =>
    destruct (download_loop_bodiless (Z.to_nat max_retries) E url path
                max_retries true 0 w2 Hall) as (w' & -> & Hw') end;
    [lia|lia|].
  exists w'. split; [done|]. rewrite Hw'. cbn. apply lookup_delete_eq.
Qed.

Lemma download_file_refetch_lost_witness :
  exists w',
    download_file Sample.overloaded "u" "p" 3 true
      (Sample.disk [("p", Sample.blob 5)]) = Some (Py.Ret false, w') /\
    files w' !! "p" = None.
Proof.
  apply (download_file_refetch_lost Sample.overloaded "u" "p" 3
           (Sample.disk [("p", Sample.blob 5)]) (Sample.blob 5));
    [reflexivity|reflexivity|reflexivity|lia|by intros t].
Defined.

Lemma download_loop_backoff fuel E url path max_retries check_size retries w :
  (forall t, transient_failure (request E t GET url) = true) ->
  retries < max_retries ->
  (Z.to_nat (max_retries - retries) <= fuel)%nat ->
  exists w',
    download_loop fuel E url path max_retries check_size retries w
    = Some (Py.Ret false, w') /\
    sleeps 5 10 w' = (sleeps 5 10 w + Z.to_nat (max_retries - retries - 1))%nat /\
    sleeps 3 8 w' = sleeps 3 8 w /\
    head (trace w') <> Some (EvSleep 5 10).
Proof.
  intros Hall. revert retries w.
  induction fuel as [|fuel IH]; intros retries w Hlt Hfuel; [lia|].
  pose proof (attempt_sleeps E url path check_size w 5 10) as Hlong.
  pose proof (attempt_sleeps E url path check_size w 3 8) as Hshort.
  assert (Hend : (attempt E url path check_size w).1 = Fault /\
                 head (trace (attempt E url path check_size w).2)
                 <> Some (EvSleep 5 10)).
  { specialize (Hall (clock w)). unfold attempt, send, transient_failure in *.
    destruct (request E (clock w) GET url) as [resp|]; [|done].
    apply andb_true_iff in Hall as [H404%negb_true_iff Hfail].
    rewrite H404.
    destruct (raises_for_status resp); [done|]. cbn [orb] in Hfail.
    match goal with |- context [save_body E path resp ?w0] =>
      pose proof (save_body_faulty E path resp w0 Hfail) as Hnone;
      pose proof (save_body_frame E path resp w0) as [_ Htr];
      destruct (save_body E path resp w0) as [saved w2] end.
    cbn [fst snd] in Hnone, Htr. subst saved. cbn [fst snd].
    by rewrite Htr. }
  destruct Hend as [Hfault Hhead].
  rewrite download_loop_unfold.
  destruct (Z.ltb_spec retries max_retries); [cbn [negb]|lia].
  destruct (attempt E url path check_size w) as [ending w1].
  cbn [fst snd] in Hlong, Hshort, Hfault, Hhead. subst ending.
  destruct (Z.ltb_spec (retries + 1) max_retries).
  - destruct (IH (retries + 1) (time_sleep 5 10 w1))
      as (w' & -> & Hl & Hs & Hh); [lia|lia|].
    exists w'. split; [done|].
    assert (sleeps 5 10 (time_sleep 5 10 w1) = S (sleeps 5 10 w1)) as Hl1
      by done.
    assert (sleeps 3 8 (time_sleep 5 10 w1) = sleeps 3 8 w1) as Hs1 by done.
    split; [lia|]. split; [congruence|done].
  - exists w1. split; [done|]. split; [lia|]. by split.
Qed.

(** X19.  Back-off between retries: against a server whose every answer to
    the transfer request is a transient failure, [download_file] on an
    absent file (with at least one retry allowed) returns [False] having
    slept the long band (5 to 10) exactly [max_retries - 1] times, never
    the short band, and not after the last attempt. *)
Theorem download_file_backoff E url path max_retries check_size w :
  files w !! path = None -> 0 < max_retries ->
  (forall t, transient_failure (request E t GET url) = true) ->
  exists w',
    download_file E url path max_retries check_size w
    = Some (Py.Ret false, w') /\
    sleeps 5 10 w' = (sleeps 5 10 w + Z.to_nat (max_retries - 1))%nat /\
    sleeps 3 8 w' = sleeps 3 8 w /\
    head (trace w') <> Some (EvSleep 5 10).
Proof.
  intros Hf Hmax Hall. unfold download_file, os_path_exists. rewrite Hf.
  rewrite bool_decide_eq_false_2 by (by intros [? ?]).
  destruct (download_loop_backoff (Z.to_nat max_retries) E url path
              max_retries check_size 0 w Hall) as (w' & Hrun & Hl & Hs & Hh);
    [lia|lia|].
  exists w'. rewrite Z.sub_0_r in Hl. by repeat split.
Qed.

Lemma download_file_backoff_witness :
  exists w',
    download_file Sample.overloaded "u" "p" 3 true (Sample.disk [])
    = Some (Py.Ret false, w') /\
    sleeps 5 10 w' = 2%nat /\ sleeps 3 8 w' = 0%nat.
Proof.
  destruct (download_file_backoff Sample.overloaded "u" "p" 3 true
              (Sample.disk [])) as (w' & Hrun & Hl & Hs & _);
    [reflexivity|lia|by intros t|].
  exists w'. split; [exact Hrun|]. split; [exact Hl|exact Hs].
Defined.

Lemma download_loop_broken_stream fuel E url path max_retries check_size
    retries w resp :
  (forall t, request E t GET url = Some resp) ->
  status_code resp <> 404 -> raises_for_status resp = false ->
  body_fault resp = true -> open_denied E path = false ->
  retries < max_retries ->
  (Z.to_nat (max_retries - retries) <= fuel)%nat ->
  exists w',
    download_loop fuel E url path max_retries check_size retries w
    = Some (Py.Ret false, w') /\
    files w' !! path = Some (mjoin (body resp)).
Proof.
  intros Hget H404 Hraise Hfault Hopen. revert retries w.
  induction fuel as [|fuel IH]; intros retries w Hlt Hfuel; [lia|].
  assert (Hend : (attempt E url path check_size w).1 = Fault /\
                 files (attempt E url path check_size w).2 !! path
                 = Some (mjoin (body resp))).
  { unfold attempt, send. rewrite Hget.
    destruct (Z.eqb_spec (status_code resp) 404); [done|].
    rewrite Hraise.
    match goal with |- context [save_body E path resp ?w0] =>
      pose proof (save_body_faulty E path resp w0 Hfault) as Hnone;
      pose proof (save_body_lookup E path resp w0 path) as Hs;
      destruct (save_body E path resp w0) as [saved w2] end.
    cbn [fst snd] in Hnone, Hs. subst saved. cbn [fst snd].
    by rewrite decide_True, Hopen in Hs by done. }
  destruct Hend as [Hfaulted Hfile].
  rewrite download_loop_unfold.
  destruct (Z.ltb_spec retries max_retries); [cbn [negb]|lia].
  destruct (attempt E url path check_size w) as [ending w1].
  cbn [fst snd] in Hfaulted, Hfile. subst ending.
  destruct (Z.ltb_spec (retries + 1) max_retries); [|by eauto].
  apply IH; lia.
Qed.

(** X20.  A transfer that breaks off in the middle leaves what it wrote:
    when every transfer stream breaks after delivering its chunks,
    [download_file] on an absent file returns [False] and a file made of
    the delivered chunks stays on disk at the local path. *)
Theorem download_file_partial_left E url path max_retries check_size w resp :
  files w !! path = None -> 0 < max_retries ->
  (forall t, request E t GET url = Some resp) ->
  status_code resp <> 404 -> raises_for_status resp = false ->
  body_fault resp = true -> open_denied E path = false ->
  exists w',
    download_file E url path max_retries check_size w
    = Some (Py.Ret false, w') /\
    files w' !! path = Some (mjoin (body resp)).
Proof.
  intros Hf Hmax Hget H404 Hraise Hfault Hopen.
  unfold download_file, os_path_exists. rewrite Hf.
  rewrite bool_decide_eq_false_2 by (by intros [? ?]).
  apply download_loop_broken_stream; try done; lia.
Qed.

Lemma download_file_partial_left_witness :
  exists w',
    download_file Sample.cut "u" "p" 3 true (Sample.disk [])
    = Some (Py.Ret false, w') /\
    files w' !! "p" = Some (Sample.blob 2).
Proof.
  apply (download_file_partial_left Sample.cut "u" "p" 3 true (Sample.disk [])
           {| status_code := 200; content_length := Some "3";
              body := [Sample.blob 2]; body_fault := true |});
    [reflexivity|lia|reflexivity|discriminate|reflexivity|reflexivity
    |reflexivity].
Defined.


(** ** Effort of a whole run *)

Lemma scan_hour_effort E verify_size year month day acc w hour :
  let st := scan_hour E verify_size year month day (acc, w) hour in
  transfers st.2 = transfers w /\ (length st.1 <= S (length acc))%nat.
Proof.
  cbv zeta. unfold scan_hour.
  set (path := local_file_path year month day hour).
  set (url := file_url year month day hour).
  destruct (os_path_exists path w); cbn [andb negb orb].
  - destruct verify_size.
    + pose proof (only_metadata_transfers _ _
                    (check_file_integrity_only_metadata E url path w)) as Ht.
      destruct (check_file_integrity E url path w) as [[] w1];
        cbn [fst snd negb length] in *;
        [split; [done|lia]|].
      rewrite length_app. cbn. split; [done|lia].
    + cbn. split; [done|lia].
  - cbn. rewrite length_app. cbn. split; [done|lia].
Qed.

Lemma scan_hours_effort E verify_size year month day hours acc w :
  let st := foldl (scan_hour E verify_size year month day) (acc, w) hours in
  transfers st.2 = transfers w /\
  (length st.1 <= length acc + length hours)%nat.
Proof.
  cbv zeta. revert acc w.
  induction hours as [|h hours IH]; intros acc w; cbn [foldl length fst snd].
  - split; [done|lia].
  - pose proof (scan_hour_effort E verify_size year month day acc w h)
      as [Ht Hl]. cbv zeta in Ht, Hl.
    destruct (scan_hour E verify_size year month day (acc, w) h) as [acc1 w1].
    cbn [fst snd] in Ht, Hl.
    destruct (IH acc1 w1) as [Ht' Hl']. split; [congruence|lia].
Qed.

Lemma scan_days_effort fuel E verify_size end_date current_date missing_data w :
  end_date < Date.MAXORDINAL ->
  (Z.to_nat (end_date - current_date + 1) <= fuel)%nat ->
  exists report w',
    scan_days fuel E verify_size end_date current_date missing_data w
    = Some (Returns report, w') /\
    transfers w' = transfers w /\
    (length (report ≫= dr_missing_hours)
     <= length (missing_data ≫= dr_missing_hours)
        + 24 * length (days current_date end_date))%nat.
Proof.
  intros Hmax. revert current_date missing_data w.
  induction fuel as [|fuel IH]; intros current_date missing_data w Hfuel;
    cbn [scan_days];
    destruct (Z.leb_spec current_date end_date) as [Hle|Hgt]; cbn [negb];
    try lia;
    try (exists missing_data, w; split; [done|]; split; [done|lia]).
  cbv zeta.
  pose proof (scan_hours_effort E verify_size (Date.year current_date)
                (Date.month current_date) (Date.day current_date)
                (range 24) [] w) as [Ht1 Hl1].
  cbv zeta in Ht1, Hl1.
  destruct (foldl _ _ (range 24)) as [missing_hours w1].
  cbn [fst snd] in Ht1, Hl1.
  change (length (range 24)) with 24%nat in Hl1. cbn [length] in Hl1.
  unfold Date.add_day.
  destruct (Z.ltb_spec current_date Date.MAXORDINAL); [|lia].
  match goal with |- context [scan_days fuel E verify_size end_date _ ?md w1] =>
    destruct (IH (current_date + 1) md w1) as (report & w' & -> & Ht & Hl);
    [lia|] end.
  exists report, w'. split; [done|]. split; [congruence|].
  rewrite (days_cons current_date) by done. cbn [length].
  destruct missing_hours as [|e missing_hours]; [lia|].
  rewrite bind_app, length_app in Hl. cbn in Hl.
  rewrite app_nil_r in Hl. cbn [length] in Hl1. lia.
Qed.

Lemma queue_retries_effort E missing_data w :
  transfers (queue_retries E missing_data w).2 = transfers w /\
  length (queue_retries E missing_data w).1
  = length (missing_data ≫= dr_missing_hours).
Proof.
  unfold queue_retries.
  enough (forall files_to_retry w0,
    let st := foldl (fun st day => foldl (queue_retry E (dr_date day)) st
                                     (dr_missing_hours day))
                (files_to_retry, w0) missing_data in
    transfers st.2 = transfers w0 /\
    length st.1 = (length files_to_retry
                   + length (missing_data ≫= dr_missing_hours))%nat) as H
    by apply (H [] w).
  induction missing_data as [|day rest IH]; intros files_to_retry w0;
    cbn [foldl].
  - cbn. split; [done|lia].
  - destruct (queue_entries_spec E (dr_date day) (dr_missing_hours day)
                files_to_retry w0) as (H1 & Ht1 & _).
    cbv zeta in H1, Ht1.
    destruct (foldl (queue_retry E (dr_date day)) _ _) as [l1 w1].
    cbn [fst snd] in H1, Ht1. subst l1.
    destruct (IH (files_to_retry ++ (retry_of (dr_date day)
                                       <$> dr_missing_hours day)) w1)
      as [Ht Hl].
    cbv zeta in Ht, Hl. split; [congruence|].
    rewrite Hl, length_app, length_fmap. cbn. rewrite length_app. lia.
Qed.

Lemma save_failed_downloads_transfers E failed_files w :
  transfers (save_failed_downloads E failed_files w).2 = transfers w.
Proof.
  unfold save_failed_downloads, write_text, os_remove.
  destruct failed_files.
  - destruct (os_path_exists FAILED_DOWNLOADS_FILE w); [|done].
    cbn [andb].
    by destruct (remove_denied E FAILED_DOWNLOADS_FILE).
  - by destruct (open_denied E FAILED_DOWNLOADS_FILE).
Qed.

Lemma retry_failed_downloads_effort E failed_files w :
  exists still_failed w',
    retry_failed_downloads E failed_files w = Some (still_failed, w') /\
    (transfers w' <= transfers w + 3 * length failed_files)%nat.
Proof.
  unfold retry_failed_downloads.
  destruct failed_files as [|r rest]; [exists [], w; split; [done|lia]|].
  destruct (retry_files_returns E (r :: rest) [] w) as [[still w'] Hrun].
  exists still, w'. split; [done|].
  by apply retry_files_outcome in Hrun as (_ & _ & _ & Ht & _).
Qed.

Lemma main_from_effort E start_date end_date w :
  end_date < Date.MAXORDINAL ->
  exists r w',
    main_from E start_date end_date w = Some (r, w') /\
    (transfers w'
     <= transfers w + 144 * length (days start_date end_date))%nat.
Proof.
  intros Hmax. unfold main_from.
  destruct (download_days_totals (Z.to_nat (end_date - start_date + 1)) E
              end_date start_date 0 [] w Hmax)
    as (n & failed & w1 & -> & _ & _ & Ht1); [done|].
  pose proof (save_failed_downloads_transfers E failed w1) as Ht2.
  destruct (save_failed_downloads E failed w1) as [[[]|] w2];
    cbn [snd] in Ht2; [|exists Raises, w2; split; [done|lia]].
  destruct (scan_days_effort (Z.to_nat (end_date - start_date + 1)) E true
              end_date start_date [] w2 Hmax)
    as (report & w3 & Hscan & Ht3 & Hl3); [done|].
  unfold check_data_completeness. rewrite Hscan.
  change (length ([] ≫= dr_missing_hours)) with 0%nat in Hl3.
  destruct report as [|day report]; [exists (Returns tt), w3; split; [done|lia]|].
  pose proof (queue_retries_effort E (day :: report) w3) as [Ht4 Hl4].
  destruct (queue_retries E (day :: report) w3) as [files_to_retry w4].
  cbn [fst snd] in Ht4, Hl4.
  destruct (retry_failed_downloads_effort E files_to_retry w4)
    as (still & w5 & -> & Ht5).
  destruct still as [|s still]; [exists (Returns tt), w5; split; [done|lia]|].
  unfold write_text.
  destruct (open_denied E MISSING_FILES_FILE);
    eexists _, _; (split; [reflexivity|]);
    match goal with |- (transfers ?x <= _)%nat =>
      assert (transfers x = transfers w5) as -> by reflexivity end; lia.
Qed.

(** X21.  A whole run is bounded: however a run of [main] ends (over any
    range ending before [datetime.max], and so over its own 1998-2000), it
    has made at most 144 transfer attempts per day of the range, three per
    slot in the day loop and three more in the retry pass. *)
Theorem main_effort_bounded E start_date end_date w r w' :
  end_date < Date.MAXORDINAL ->
  main_from E start_date end_date w = Some (r, w') ->
  (transfers w'
   <= transfers w + 144 * length (days start_date end_date))%nat.
Proof.
  intros Hmax Hrun.
  destruct (main_from_effort E start_date end_date w Hmax)
    as (r0 & w0 & Hrun0 & Ht).
  rewrite Hrun in Hrun0. by injection Hrun0 as <- <-.
Qed.

Lemma main_effort_bounded_witness :
  exists r w',
    main_from Sample.overloaded (Date.ymd2ord 1998 1 1)
      (Date.ymd2ord 1998 1 1) (Sample.disk []) = Some (r, w') /\
    (transfers w' <= 144)%nat.
Proof.
  destruct (main_from Sample.overloaded (Date.ymd2ord 1998 1 1)
              (Date.ymd2ord 1998 1 1) (Sample.disk []))
    as [[r w']|] eqn:Hrun; [|vm_compute in Hrun; discriminate Hrun].
  exists r, w'. split; [reflexivity|].
  exact (main_effort_bounded Sample.overloaded (Date.ymd2ord 1998 1 1)
           (Date.ymd2ord 1998 1 1) (Sample.disk []) r w'
           ltac:(vm_compute; reflexivity) Hrun).
Defined.
